(** * AlertBotTrading: alert dispatch and price polling

    A shallow embedding of the dispatch core of the repository
    (price_scraper.py, telegram_bot.py, webhook.py, models.py and the
    admin actions of config.py that the dispatch paths depend on),
    followed by the properties proved about it.

    Conventions.
    - A Python [str] is a [string]; a Python [float] is an IEEE 754
      value of [spec_float], compared with [SFltb]; a Python [int] is a [Z].
    - A value decoded from JSON is a [json]; a JSON object is a [gmap]
      from keys to values, as the [dict] the code looks keys up in.
    - What the process cannot decide by itself (HTTP replies, the clock,
      whether the database accepts a commit and the text of its refusal)
      is read from a [World]; the clock of a world gives one reading.
    - A Python call that may raise returns an [outcome].
    - Logging is left out, but for the message that the handler of
      [check_and_trigger_alerts] gives to [logger.error]. *)

From Stdlib Require Import ZArith String Ascii List Bool Lia SpecFloat.
From stdpp Require Import base option list gmap strings pretty.

Set Warnings "-register-all".
Open Scope string_scope.

(** ** Exceptions *)

(** [exc] is [str(e)] wherever a handler uses the text of the exception
    it catches. Where the handler uses none (the handlers of the two
    functions that fetch a price, which only log, and the bare [except:]
    clauses of the webhook handler) the exception carries a tag. *)
Inductive outcome (A : Type) : Type :=
  | Ok (a : A)
  | Raise (exc : string).
Arguments Ok {A} a.
Arguments Raise {A} exc.

Definition bind_outcome {A B : Type} (c : outcome A) (k : A -> outcome B) : outcome B :=
  match c with
  | Ok a => k a
  | Raise e => Raise e
  end.

(** [try: c  except Exception as e: h e] *)
Definition try_except {A : Type} (c : outcome A) (h : string -> A) : A :=
  match c with
  | Ok a => a
  | Raise e => h e
  end.

(** Sequencing, written [x ← c; k]. *)
#[global] Instance outcome_ret : MRet outcome := @Ok.
#[global] Instance outcome_bind : MBind outcome :=
  fun A B k c => bind_outcome c k.

(** ** Python values *)

Inductive json : Type :=
  | JNull
  | JBool (b : bool)
  | JInt (z : Z)
  | JFloat (f : spec_float)
  | JStr (s : string)
  | JArr (l : list json)
  | JObj (m : gmap string json).

(** [bool(v)], as used by [if not payload]. *)
Definition truthy (v : json) : bool :=
  match v with
  | JNull => false
  | JBool b => b
  | JInt z => negb (z =? 0)%Z
  | JFloat f => negb (SFeqb f (S754_zero false))
  | JStr s => negb (String.eqb s EmptyString)
  | JArr l => match l with [] => false | _ :: _ => true end
  | JObj m => negb (Nat.eqb (size m) 0)
  end.

(** The parts of the Python runtime that are used by the code and are not
    modelled here: number formatting and parsing, JSON text, case
    mapping and the text of the clock. *)
Class PyRuntime : Type := {
  (** [str(v)] for a value that is not a [str] *)
  py_repr : json -> string;
  (** [str(f)] for a float *)
  float_str : spec_float -> string;
  (** [float(v)]; [None] when it raises *)
  py_float : json -> option spec_float;
  (** [str(e)] of the exception that [float(v)] then raises *)
  float_error : json -> string;
  (** [json.dumps(v)] *)
  json_dumps : json -> string;
  (** [json.loads(s)]; [None] when it raises *)
  json_loads : string -> option json;
  (** [s.upper()] *)
  str_upper : string -> string;
  (** [datetime.isoformat()] of a clock reading *)
  isoformat : Z -> string;
  (** the integer that a form value stands for when it is used as a
      key; [None] when it stands for none *)
  py_int : string -> option Z
}.

(** [str(v)] *)
Definition py_str `{PyRuntime} (v : json) : string :=
  match v with
  | JStr s => s
  | _ => py_repr v
  end.

(** *** [str.replace] *)

(** [replace_from skip old new s]: the replacement of the occurrences of
    [old] in [s], scanning from the left; [skip] counts the characters
    of the occurrence being replaced that are still to be passed over. *)
Fixpoint replace_from (skip : nat) (old new s : string) : string :=
  match s with
  | EmptyString => EmptyString
  | String c rest =>
      match skip with
      | S k => replace_from k old new rest
      | O =>
          if String.prefix old s
          then new ++ replace_from (String.length old - 1) old new rest
          else String c (replace_from 0 old new rest)
      end
  end.

(** [s.replace(old, new)] for a non-empty [old]. *)
Definition replace (s old new : string) : string := replace_from 0 old new s.

(** *** [string.Template.safe_substitute] *)

Definition is_id_start (c : ascii) : bool :=
  let n := nat_of_ascii c in
  Nat.eqb n 95 || (Nat.leb 97 n && Nat.leb n 122) || (Nat.leb 65 n && Nat.leb n 90).

Definition is_id_char (c : ascii) : bool :=
  let n := nat_of_ascii c in
  is_id_start c || (Nat.leb 48 n && Nat.leb n 57).

(** The longest run of identifier characters at the head of [s]. *)
Fixpoint take_ident (s : string) : string :=
  match s with
  | String c r => if is_id_char c then String c (take_ident r) else EmptyString
  | EmptyString => EmptyString
  end.

(** What follows that run. *)
Fixpoint after_ident (s : string) : string :=
  match s with
  | String c r => if is_id_char c then after_ident r else s
  | EmptyString => EmptyString
  end.

(** The alternatives of [Template.pattern] after the delimiter, in the
    order the pattern tries them. *)
Inductive dollar_match : Type :=
  | Escaped
  | Named (name : string)
  | Braced (name : string)
  | Invalid.

Definition match_after_dollar (rest : string) : dollar_match :=
  match rest with
  | EmptyString => Invalid
  | String c r =>
      if Ascii.eqb c "$" then Escaped
      else if is_id_start c then Named (take_ident rest)
      else if Ascii.eqb c "{" then
        match r with
        | String c' _ =>
            if is_id_start c' then
              match after_ident r with
              | String "}" _ => Braced (take_ident r)
              | _ => Invalid
              end
            else Invalid
        | EmptyString => Invalid
        end
      else Invalid
  end.

(** [mapping[name]] *)
Inductive subscript_result : Type :=
  | Found (v : json)
  | KeyError
  | TypeError.

Definition subscript (mapping : json) (name : string) : subscript_result :=
  match mapping with
  | JObj m => match m !! name with Some v => Found v | None => KeyError end
  | _ => TypeError
  end.

(** [convert(mo)] of [safe_substitute] for a named or braced match whose
    whole text is [whole]; [None] when the lookup raises something other
    than [KeyError]. *)
Definition convert `{PyRuntime} (mapping : json) (name whole : string) : option string :=
  match subscript mapping name with
  | Found v => Some (py_str v)
  | KeyError => Some whole
  | TypeError => None
  end.

Fixpoint substitute_from `{PyRuntime} (skip : nat) (mapping : json) (s : string)
  : option string :=
  match s with
  | EmptyString => Some EmptyString
  | String c rest =>
      match skip with
      | S k => substitute_from k mapping rest
      | O =>
          if Ascii.eqb c "$" then
            match match_after_dollar rest with
            | Escaped =>
                String "$" <$> substitute_from 1 mapping rest
            | Named name =>
                v ← convert mapping name ("$" ++ name);
                t ← substitute_from (String.length name) mapping rest;
                Some (v ++ t)
            | Braced name =>
                v ← convert mapping name ("${" ++ name ++ "}");
                t ← substitute_from (String.length name + 2) mapping rest;
                Some (v ++ t)
            | Invalid =>
                String "$" <$> substitute_from 0 mapping rest
            end
          else String c <$> substitute_from 0 mapping rest
      end
  end.

(** [Template(template).safe_substitute(mapping)]; [None] when it raises. *)
Definition safe_substitute `{PyRuntime} (template : string) (mapping : json)
  : option string :=
  substitute_from 0 mapping template.

(** Whether the delimiter of [string.Template] occurs in [s]. *)
Fixpoint has_delimiter (s : string) : bool :=
  match s with
  | EmptyString => false
  | String c rest => Ascii.eqb c "$" || has_delimiter rest
  end.

(** *** Membership, subscripting and length on decoded JSON *)

(** [sub in s] for two strings. *)
Fixpoint contains (sub s : string) : bool :=
  String.prefix sub s ||
  match s with
  | EmptyString => false
  | String _ rest => contains sub rest
  end.

Definition is_str (key : string) (v : json) : bool :=
  match v with
  | JStr s => String.eqb s key
  | _ => false
  end.

(** [key in container] *)
Definition py_in (key : string) (container : json) : outcome bool :=
  match container with
  | JObj m => Ok (bool_decide (is_Some (m !! key)))
  | JArr l => Ok (existsb (is_str key) l)
  | JStr s => Ok (contains key s)
  | _ => Raise "TypeError: argument is not iterable"
  end.

(** [container[key]] for a string key *)
Definition py_getitem (container : json) (key : string) : outcome json :=
  match subscript container key with
  | Found v => Ok v
  | KeyError => Raise "KeyError"
  | TypeError => Raise "TypeError: bad subscript"
  end.

(** [len(container)] *)
Definition py_len (container : json) : outcome nat :=
  match container with
  | JObj m => Ok (size m)
  | JArr l => Ok (List.length l)
  | JStr s => Ok (String.length s)
  | _ => Raise "TypeError: object has no len()"
  end.

(** [container[0]] *)
Definition py_first (container : json) : outcome json :=
  match container with
  | JArr (v :: _) => Ok v
  | JArr [] => Raise "IndexError"
  | JStr (String c _) => Ok (JStr (String c EmptyString))
  | JStr EmptyString => Raise "IndexError"
  | JObj _ => Raise "KeyError: 0"
  | _ => Raise "TypeError: object is not subscriptable"
  end.

(** ** models.py *)

Module TelegramConfig.
(** The primary key is the key of the table, see [Store]. *)
Record t : Type := {
  bot_token : string;
  chat_id : string;
  is_active : bool;
  created_at : Z;
  updated_at : Z
}.
End TelegramConfig.

Module TradingViewAlert.
Record t : Type := {
  id : Z;
  name : string;
  webhook_key : string;
  message_template : string;
  is_active : bool;
  telegram_config_id : Z;
  created_at : Z;
  updated_at : Z
}.

Definition default_message_template : string :=
  "TradingView Alert: {{strategy}} - {{ticker}} - {{close}}".
End TradingViewAlert.

Module PriceAlert.
Record t : Type := {
  id : Z;
  name : string;
  symbol : string;
  alert_type : string;
  target_price : spec_float;
  message_template : string;
  is_active : bool;
  is_one_time : bool;
  is_triggered : bool;
  last_triggered_at : option Z;
  telegram_config_id : Z;
  created_at : Z;
  updated_at : Z
}.

Definition default_message_template : string :=
  "Alerta de precio: {{symbol}} ha alcanzado {{current_price}}, objetivo: {{target_price}}".
End PriceAlert.

Module NotificationLog.
(** The autoincremented primary key is left to the table. *)
Record t : Type := {
  alert_id : option Z;
  price_alert_id : option Z;
  payload : option string;
  message_sent : option string;
  status : string;
  error_message : option string;
  created_at : Z
}.
End NotificationLog.

(** The tables. The rows of a list table are in the order in which a
    query without ordering returns them; an object loaded from a table is
    the row itself. *)
Record Store : Type := {
  telegram_configs : gmap Z TelegramConfig.t;
  tradingview_alerts : list TradingViewAlert.t;
  price_alerts : list PriceAlert.t;
  notification_logs : list NotificationLog.t
}.

(** ** The outside world *)

Inductive http_reply : Type :=
  (** [requests] raised: no connection, timeout, ... *)
  | Unreachable (exc : string)
  (** a response; [body] is [response.json()], [None] when it raises *)
  | Response (status_code : Z) (text : string) (body : option json).

(** What the outside answers during one poll cycle or one request. *)
Record World : Type := {
  (** [current_app.config.get('ALPHA_VANTAGE_API_KEY', '')] *)
  ALPHA_VANTAGE_API_KEY : string;
  (** [requests.get(url, ...)] *)
  requests_get : string -> http_reply;
  (** [requests.post(url, json=payload, ...)] *)
  requests_post : string -> json -> http_reply;
  (** [datetime.now()] and [datetime.utcnow()] *)
  now : Z;
  utcnow : Z;
  (** the i-th draw of [secrets], an index into the sequence chosen from *)
  secrets_draw : nat -> nat;
  (** whether running a query raises *)
  query_raises : option string;
  (** whether [db.session.commit()] raises when it has this log row to write *)
  commit_raises : NotificationLog.t -> option string;
  (** [str(e)] of the exception with which the database refuses a commit,
      from the column or the constraint that it refuses it for *)
  db_error : string -> string
}.

(** One call of the Telegram API, as the world saw it. *)
Record delivery : Type := {
  to_bot : string;
  to_chat : string;
  text_sent : string;
  delivered : bool
}.

(** ** telegram_bot.py *)

Module telegram_bot.

(** The dict [{"success": ..., "error": ...}]; [error] is what
    [.get("error")] returns. *)
Record result : Type := {
  success : bool;
  error : option string
}.

Definition sendMessage_url (bot_token : string) : string :=
  "https://api.telegram.org/bot" ++ bot_token ++ "/sendMessage".

Definition sendMessage_payload (chat_id message : string) : json :=
  JObj (<["chat_id" := JStr chat_id]>
       (<["text" := JStr message]>
       (<["parse_mode" := JStr "HTML"]> ∅))).

(** The body of the [try] block. *)
Definition send_telegram_message_try (w : World) (bot_token chat_id message : string)
  : outcome result :=
  match requests_post w (sendMessage_url bot_token) (sendMessage_payload chat_id message) with
  | Unreachable exc => Raise exc
  | Response status_code text _ =>
      if (status_code =? 200)%Z
      then Ok {| success := true; error := None |}
      else
        let error_msg :=
          "Failed to send message to Telegram. Status code: " ++ pretty status_code
          ++ ", Response: " ++ text in
        Ok {| success := false; error := Some error_msg |}
  end.

Definition send_telegram_message (w : World) (bot_token chat_id message : string)
  : result :=
  try_except (send_telegram_message_try w bot_token chat_id message)
    (fun e =>
       let error_msg := "Exception sending Telegram message: " ++ e in
       {| success := false; error := Some error_msg |}).

End telegram_bot.

(** ** price_scraper.py *)

Module price_scraper.
Section WithRuntime.
Context `{PyRuntime}.

(** The dict [{"symbol": ..., "price": ..., "timestamp": ...}]. *)
Record price_data : Type := {
  pd_symbol : string;
  price : spec_float;
  timestamp : string
}.

Definition price_data_json (pd : price_data) : json :=
  JObj (<["symbol" := JStr (pd_symbol pd)]>
       (<["price" := JFloat (price pd)]>
       (<["timestamp" := JStr (timestamp pd)]> ∅))).

(** [response.json()] *)
Definition response_json (body : option json) : outcome json :=
  match body with
  | Some data => Ok data
  | None => Raise "JSONDecodeError"
  end.

(** [float(v)] *)
Definition to_float (v : json) : outcome spec_float :=
  match py_float v with
  | Some f => Ok f
  | None => Raise (float_error v)
  end.

Definition yahoo_url (symbol : string) : string :=
  "https://query1.finance.yahoo.com/v8/finance/chart/" ++ symbol.

(** The body of the [try] block of [get_price_from_alternative_source]. *)
Definition get_price_from_alternative_source_try (w : World) (symbol : string)
  : outcome (option price_data) :=
  match requests_get w (yahoo_url symbol) with
  | Unreachable exc => Raise exc
  | Response status_code _ body =>
      if (status_code =? 200)%Z then
        data ← response_json body;
        has_chart ← py_in "chart" data;
        has_result ←
          (if has_chart : bool then
             chart ← py_getitem data "chart"; py_in "result" chart
           else Ok false);
        nonempty ←
          (if has_result : bool then
             chart ← py_getitem data "chart";
             results ← py_getitem chart "result";
             n ← py_len results;
             Ok (Nat.ltb 0 n)
           else Ok false);
        if nonempty : bool then
          chart ← py_getitem data "chart";
          results ← py_getitem chart "result";
          result ← py_first results;
          has_meta ← py_in "meta" result;
          has_price ←
            (if has_meta : bool then
               meta ← py_getitem result "meta"; py_in "regularMarketPrice" meta
             else Ok false);
          if has_price : bool then
            meta ← py_getitem result "meta";
            v ← py_getitem meta "regularMarketPrice";
            current_price ← to_float v;
            Ok (Some {| pd_symbol := symbol;
                        price := current_price;
                        timestamp := isoformat (now w) |})
          else Ok None
        else Ok None
      else Ok None
  end.

Definition get_price_from_alternative_source (w : World) (symbol : string)
  : option price_data :=
  try_except (get_price_from_alternative_source_try w symbol) (fun _ => None).

Definition alpha_vantage_url (symbol api_key : string) : string :=
  "https://www.alphavantage.co/query?function=GLOBAL_QUOTE&symbol=" ++ symbol
  ++ "&apikey=" ++ api_key.

(** The body of the [try] block of [get_price_data]. *)
Definition get_price_data_try (w : World) (symbol : string)
  : outcome (option price_data) :=
  let api_key := ALPHA_VANTAGE_API_KEY w in
  if String.eqb api_key EmptyString then
    Ok (get_price_from_alternative_source w symbol)
  else
    match requests_get w (alpha_vantage_url symbol api_key) with
    | Unreachable exc => Raise exc
    | Response status_code _ body =>
        if (status_code =? 200)%Z then
          data ← response_json body;
          has_quote ← py_in "Global Quote" data;
          has_price ←
            (if has_quote : bool then
               quote ← py_getitem data "Global Quote"; py_in "05. price" quote
             else Ok false);
          if has_price : bool then
            quote ← py_getitem data "Global Quote";
            v ← py_getitem quote "05. price";
            current_price ← to_float v;
            Ok (Some {| pd_symbol := symbol;
                        price := current_price;
                        timestamp := isoformat (now w) |})
          else Ok None
        else Ok None
    end.

Definition get_price_data (w : World) (symbol : string) : option price_data :=
  try_except (get_price_data_try w symbol) (fun _ => None).

(** The test of lines 139-144: [alert_triggered]. *)
Definition alert_triggered (a : PriceAlert.t) (current_price : spec_float) : bool :=
  if String.eqb (PriceAlert.alert_type a) "above"
     && SFltb (PriceAlert.target_price a) current_price
  then true
  else if String.eqb (PriceAlert.alert_type a) "below"
          && SFltb current_price (PriceAlert.target_price a)
  then true
  else false.

Definition format_message (a : PriceAlert.t) (current_price : spec_float) : string :=
  let message := replace (PriceAlert.message_template a) "{{symbol}}" (PriceAlert.symbol a) in
  let message := replace message "{{current_price}}" (float_str current_price) in
  let message := replace message "{{target_price}}" (float_str (PriceAlert.target_price a)) in
  replace message "{{alert_type}}" (PriceAlert.alert_type a).

(** [alert.is_triggered = True; alert.last_triggered_at = datetime.utcnow()],
    and what the UPDATE of the row does with it: [updated_at] has
    [onupdate=datetime.utcnow]. *)
Definition mark_triggered (w : World) (a : PriceAlert.t) : PriceAlert.t :=
  {| PriceAlert.id := PriceAlert.id a;
     PriceAlert.name := PriceAlert.name a;
     PriceAlert.symbol := PriceAlert.symbol a;
     PriceAlert.alert_type := PriceAlert.alert_type a;
     PriceAlert.target_price := PriceAlert.target_price a;
     PriceAlert.message_template := PriceAlert.message_template a;
     PriceAlert.is_active := PriceAlert.is_active a;
     PriceAlert.is_one_time := PriceAlert.is_one_time a;
     PriceAlert.is_triggered := true;
     PriceAlert.last_triggered_at := Some (utcnow w);
     PriceAlert.telegram_config_id := PriceAlert.telegram_config_id a;
     PriceAlert.created_at := PriceAlert.created_at a;
     PriceAlert.updated_at := utcnow w |}.

(** Lines 163-169: the log row of a notification. *)
Definition notification_log (w : World) (alert : PriceAlert.t) (pd : price_data)
  (message : string) (telegram_result : telegram_bot.result) : NotificationLog.t :=
  {| NotificationLog.alert_id := None;
     NotificationLog.price_alert_id := Some (PriceAlert.id alert);
     NotificationLog.payload := Some (json_dumps (price_data_json pd));
     NotificationLog.message_sent := Some message;
     NotificationLog.status :=
       if telegram_bot.success telegram_result then "success" else "failed";
     NotificationLog.error_message := telegram_bot.error telegram_result;
     NotificationLog.created_at := utcnow w |}.

(** How one pass through the body of the [for] loop ends. *)
Inductive iteration : Type :=
  (** [continue], or the end of the body with nothing to do *)
  | Continue
  (** the commit went through: the row as it is now, the log row that
      was added, the call made to Telegram *)
  | Committed (a' : PriceAlert.t) (log : NotificationLog.t) (d : delivery)
  (** an exception left the body, after these calls to Telegram;
      nothing of this pass is in the database *)
  | Raised (exc : string) (ds : list delivery).

(** Whether a pass went into the branch [if alert_triggered:]. *)
Definition fired (it : iteration) : bool :=
  match it with
  | Continue => false
  | _ => true
  end.

(** The body of the [for] loop, for the row [alert]. *)
Definition check_alert (w : World) (st : Store) (alert : PriceAlert.t) : iteration :=
  if PriceAlert.is_one_time alert && PriceAlert.is_triggered alert then Continue
  else
    match get_price_data w (PriceAlert.symbol alert) with
    | None => Continue
    | Some pd =>
        let current_price := price pd in
        if alert_triggered alert current_price then
          let message := format_message alert current_price in
          match telegram_configs st !! PriceAlert.telegram_config_id alert with
          | None => Raised "'NoneType' object has no attribute 'bot_token'" []
          | Some telegram_config =>
              let telegram_result :=
                telegram_bot.send_telegram_message w
                  (TelegramConfig.bot_token telegram_config)
                  (TelegramConfig.chat_id telegram_config) message in
              let d := {| to_bot := TelegramConfig.bot_token telegram_config;
                          to_chat := TelegramConfig.chat_id telegram_config;
                          text_sent := message;
                          delivered := telegram_bot.success telegram_result |} in
              let notification_log :=
                notification_log w alert pd message telegram_result in
              let alert' :=
                if PriceAlert.is_one_time alert then mark_triggered w alert else alert in
              match commit_raises w notification_log with
              | Some exc => Raised exc [d]
              | None => Committed alert' notification_log d
              end
          end
        else Continue
    end.

(** The state of the [for] loop when it is left. *)
Record loop_state : Type := {
  rows : list PriceAlert.t;
  new_logs : list NotificationLog.t;
  deliveries : list (Z * delivery);
  raised : option string
}.

Definition keep (a : PriceAlert.t) (c : loop_state) : loop_state :=
  {| rows := a :: rows c; new_logs := new_logs c;
     deliveries := deliveries c; raised := raised c |}.

(** The [for] loop over the rows of the table; the rows that are not
    active are not in the query's result and stay as they are. Each
    delivery is recorded with the id of the alert it was made for. *)
Fixpoint for_alerts (w : World) (st : Store) (table : list PriceAlert.t) : loop_state :=
  match table with
  | [] => {| rows := []; new_logs := []; deliveries := []; raised := None |}
  | alert :: rest =>
      if PriceAlert.is_active alert then
        match check_alert w st alert with
        | Continue => keep alert (for_alerts w st rest)
        | Committed alert' log d =>
            let c := for_alerts w st rest in
            {| rows := alert' :: rows c;
               new_logs := log :: new_logs c;
               deliveries := (PriceAlert.id alert, d) :: deliveries c;
               raised := raised c |}
        | Raised exc ds =>
            {| rows := alert :: rest;
               new_logs := [];
               deliveries := map (pair (PriceAlert.id alert)) ds;
               raised := Some exc |}
        end
      else keep alert (for_alerts w st rest)
  end.

(** What one call of [check_and_trigger_alerts] leaves behind. *)
Record poll : Type := {
  store_after : Store;
  sent : list (Z * delivery);
  (** the message that the handler of line 179 gives to [logger.error]
      (line 180); [None] when no exception comes to that handler *)
  error_logged : option string;
  (** how the call ends *)
  returned : outcome unit
}.

(** The body of the [try] block. *)
Definition check_and_trigger_alerts_try (w : World) (st : Store) : poll :=
  match query_raises w with
  | Some exc =>
      {| store_after := st; sent := []; error_logged := None; returned := Raise exc |}
  | None =>
      let c := for_alerts w st (price_alerts st) in
      {| store_after :=
           {| telegram_configs := telegram_configs st;
              tradingview_alerts := tradingview_alerts st;
              price_alerts := rows c;
              notification_logs := notification_logs st ++ new_logs c |};
         sent := deliveries c;
         error_logged := None;
         returned :=
           match raised c with
           | Some exc => Raise exc
           | None => Ok tt
           end |}
  end.

(** [try: ... except Exception as e: logger.error(...)] *)
Definition check_and_trigger_alerts (w : World) (st : Store) : poll :=
  let p := check_and_trigger_alerts_try w st in
  match returned p with
  | Ok _ => p
  | Raise exc =>
      {| store_after := store_after p;
         sent := sent p;
         error_logged := Some ("Error checking price alerts: " ++ exc);
         returned := Ok tt |}
  end.

(** The checker thread: one call per interval, each in the world of
    its time; the store it leaves and the deliveries it made. *)
Fixpoint run_checker (ws : list World) (st : Store) : Store * list (Z * delivery) :=
  match ws with
  | [] => (st, [])
  | w :: later =>
      let p := check_and_trigger_alerts w st in
      let '(st', ds) := run_checker later (store_after p) in
      (st', (sent p ++ ds)%list)
  end.

(** Whether a log row refers to the price alert [i]. *)
Definition refers_to (i : Z) (log : NotificationLog.t) : bool :=
  bool_decide (NotificationLog.price_alert_id log = Some i).

End WithRuntime.
End price_scraper.

(** ** webhook.py *)

Module webhook.
Section WithRuntime.
Context `{PyRuntime}.

(** What the handler reads from the Flask request. *)
Record Request : Type := {
  (** [request.get_json(silent=True)], [JNull] for [None] *)
  get_json : json;
  (** [request.data.decode('utf-8')] *)
  data_decode : outcome string
}.

(** [jsonify({"status": ..., "message": ...}), code] *)
Record Response : Type := {
  code : Z;
  status : string;
  message : string
}.

Record handled : Type := {
  store_after : Store;
  sent : list delivery;
  response : Response
}.

(** [TradingViewAlert.query.filter_by(webhook_key=..., is_active=True).first()] *)
Definition find_alert_config (st : Store) (webhook_key : string)
  : option TradingViewAlert.t :=
  List.find
    (fun r => String.eqb (TradingViewAlert.webhook_key r) webhook_key
              && TradingViewAlert.is_active r)
    (tradingview_alerts st).

(** [json.loads(s)] *)
Definition loads (s : string) : outcome json :=
  match json_loads s with
  | Some v => Ok v
  | None => Raise "JSONDecodeError"
  end.

(** Lines 42-47: the payload of the request. *)
Definition parse_payload (req : Request) : outcome json :=
  let payload := get_json req in
  if truthy payload then Ok payload
  else
    match (s ← data_decode req; loads s) with
    | Ok payload => Ok payload
    | Raise _ =>
        s ← data_decode req;
        Ok (JObj {[ "raw_data" := JStr s ]})
    end.

(** Lines 51-57: the message, with its fallback. *)
Definition render (alert_config : TradingViewAlert.t) (payload : json) : string :=
  match safe_substitute (TradingViewAlert.message_template alert_config) payload with
  | Some message => message
  | None =>
      "TradingView Alert (" ++ TradingViewAlert.name alert_config ++ "): "
      ++ json_dumps payload
  end.

(** Lines 67-73: the log row of a notification. *)
Definition notification_log (w : World) (alert_config : TradingViewAlert.t)
  (payload : json) (message : string) (telegram_result : telegram_bot.result)
  : NotificationLog.t :=
  {| NotificationLog.alert_id := Some (TradingViewAlert.id alert_config);
     NotificationLog.price_alert_id := None;
     NotificationLog.payload := Some (json_dumps payload);
     NotificationLog.message_sent := Some message;
     NotificationLog.status :=
       if telegram_bot.success telegram_result then "success" else "failed";
     NotificationLog.error_message := telegram_bot.error telegram_result;
     NotificationLog.created_at := utcnow w |}.

(** Lines 92-97: the log row of an error, for the text [payload] of the
    request. *)
Definition error_log (w : World) (exc : string)
  (alert_config : option TradingViewAlert.t) (payload : string) : NotificationLog.t :=
  {| NotificationLog.alert_id := TradingViewAlert.id <$> alert_config;
     NotificationLog.price_alert_id := None;
     NotificationLog.payload := Some payload;
     NotificationLog.message_sent := None;
     NotificationLog.status := "failed";
     NotificationLog.error_message := Some exc;
     NotificationLog.created_at := utcnow w |}.

(** Line 94: the text of the request that the log row of an error keeps. *)
Definition error_payload (req : Request) : outcome string :=
  if truthy (get_json req) then Ok (json_dumps (get_json req)) else data_decode req.

Definition add_log (st : Store) (log : NotificationLog.t) : Store :=
  {| telegram_configs := telegram_configs st;
     tradingview_alerts := tradingview_alerts st;
     price_alerts := price_alerts st;
     notification_logs := notification_logs st ++ [log] |}.

(** How the [try] block ends: with a response, or with an exception
    [exc] raised when [alert_config] was or was not yet bound and
    after the calls [ds] to Telegram. [in_commit] tells whether it was
    [db.session.commit()] that raised: the session then refuses every
    further commit until it is rolled back. *)
Inductive attempt : Type :=
  | Done (h : handled)
  | Failed (exc : string) (alert_config : option TradingViewAlert.t) (ds : list delivery)
      (in_commit : bool).

Definition receive_alert_try (w : World) (st : Store) (webhook_key : string)
  (req : Request) : attempt :=
  match query_raises w with
  | Some exc => Failed exc None [] false
  | None =>
      match find_alert_config st webhook_key with
      | None =>
          Done {| store_after := st; sent := [];
                  response := {| code := 404; status := "error";
                                 message := "Invalid webhook key or alert is inactive" |} |}
      | Some alert_config =>
          match telegram_configs st !! TradingViewAlert.telegram_config_id alert_config with
          | None =>
              Failed "'NoneType' object has no attribute 'is_active'"
                     (Some alert_config) [] false
          | Some telegram_config =>
              if negb (TelegramConfig.is_active telegram_config) then
                Done {| store_after := st; sent := [];
                        response := {| code := 400; status := "error";
                                       message := "Telegram configuration is inactive" |} |}
              else
                match parse_payload req with
                | Raise exc => Failed exc (Some alert_config) [] false
                | Ok payload =>
                    let message := render alert_config payload in
                    let telegram_result :=
                      telegram_bot.send_telegram_message w
                        (TelegramConfig.bot_token telegram_config)
                        (TelegramConfig.chat_id telegram_config) message in
                    let d := {| to_bot := TelegramConfig.bot_token telegram_config;
                                to_chat := TelegramConfig.chat_id telegram_config;
                                text_sent := message;
                                delivered := telegram_bot.success telegram_result |} in
                    let notification_log :=
                      notification_log w alert_config payload message telegram_result in
                    match commit_raises w notification_log with
                    | Some exc => Failed exc (Some alert_config) [d] true
                    | None =>
                        Done {| store_after := add_log st notification_log;
                                sent := [d];
                                response :=
                                  if telegram_bot.success telegram_result then
                                    {| code := 200; status := "success";
                                       message := "Alert sent to Telegram" |}
                                  else
                                    {| code := 500; status := "error";
                                       message :=
                                         "Failed to send to Telegram: "
                                         ++ default "None" (telegram_bot.error telegram_result) |}
                             |}
                    end
                end
          end
      end
  end.

(** Lines 91-101: the attempt to log the error; the store is left as
    it is when the attempt itself raises, which it does when the session
    is left by a commit that raised and was not rolled back. *)
Definition log_error (w : World) (st : Store) (req : Request) (exc : string)
  (alert_config : option TradingViewAlert.t) (in_commit : bool) : Store :=
  try_except
    (payload ← error_payload req;
     let notification_log := error_log w exc alert_config payload in
     if in_commit then Raise "This Session's transaction has been rolled back"
     else
       match commit_raises w notification_log with
       | Some exc' => Raise exc'
       | None => Ok (add_log st notification_log)
       end)
    (fun _ => st).

Definition receive_alert (w : World) (st : Store) (webhook_key : string)
  (req : Request) : handled :=
  match receive_alert_try w st webhook_key req with
  | Done h => h
  | Failed exc alert_config ds in_commit =>
      let error_msg := "Error processing webhook: " ++ exc in
      {| store_after := log_error w st req exc alert_config in_commit;
         sent := ds;
         response := {| code := 500; status := "error"; message := error_msg |} |}
  end.

End WithRuntime.
End webhook.

(** ** config.py: the admin actions that the dispatch paths depend on *)

Module config.
Section WithRuntime.
Context `{PyRuntime}.

(** [string.ascii_letters + string.digits] *)
Definition alphabet : string :=
  "abcdefghijklmnopqrstuvwxyzABCDEFGHIJKLMNOPQRSTUVWXYZ0123456789".

(** [secrets.choice(seq)] at the i-th draw *)
Definition secrets_choice (w : World) (i : nat) (seq : string) : ascii :=
  match String.get (secrets_draw w i `mod` String.length seq) seq with
  | Some c => c
  | None => "000"%char
  end.

(** [generate_webhook_key(length)] *)
Definition generate_webhook_key (w : World) (length : nat) : string :=
  string_of_list_ascii
    (map (fun i => secrets_choice w i alphabet) (List.seq 0 length)).

(** [flash(message, category)] *)
Definition flash : Type := string * string.

(** The first row that [p] selects is replaced by its image. *)
Fixpoint update_first {A : Type} (p : A -> bool) (f : A -> A) (l : list A) : list A :=
  match l with
  | [] => []
  | x :: rest => if p x then f x :: rest else x :: update_first p f rest
  end.

(** [Model.query.get(key)] with a form value as the key *)
Definition query_get {A : Type} (id_of : A -> Z) (table : list A) (key : option string)
  : option A :=
  i ← key ≫= py_int;
  List.find (fun r => (id_of r =? i)%Z) table.

(** The assignments of lines 254-255 to the row [r]. *)
Definition set_webhook_key (key : string) (updated_at : Z) (r : TradingViewAlert.t)
  : TradingViewAlert.t :=
  {| TradingViewAlert.id := TradingViewAlert.id r;
     TradingViewAlert.name := TradingViewAlert.name r;
     TradingViewAlert.webhook_key := key;
     TradingViewAlert.message_template := TradingViewAlert.message_template r;
     TradingViewAlert.is_active := TradingViewAlert.is_active r;
     TradingViewAlert.telegram_config_id := TradingViewAlert.telegram_config_id r;
     TradingViewAlert.created_at := TradingViewAlert.created_at r;
     TradingViewAlert.updated_at := updated_at |}.

(** The constraint [unique=True] on [webhook_key]. *)
Definition unique_webhook_keys (table : list TradingViewAlert.t) : Prop :=
  NoDup (map TradingViewAlert.webhook_key table).

(** The action [regenerate_webhook] of [alerts_config]: lines 244-263.
    The commit is refused, and rolled back, when the new key is the
    key of another row. *)
Definition regenerate_webhook (w : World) (st : Store) (form : gmap string string)
  : Store * flash :=
  let alert_id := form !! "alert_id" in
  try_except
    (match query_raises w with
     | Some exc => Raise exc
     | None =>
         match query_get TradingViewAlert.id (tradingview_alerts st) alert_id with
         | None => Ok (st, ("Alert not found", "danger"))
         | Some alert =>
             let key := generate_webhook_key w 16 in
             let table :=
               update_first
                 (fun r => (TradingViewAlert.id r =? TradingViewAlert.id alert)%Z)
                 (set_webhook_key key (utcnow w)) (tradingview_alerts st) in
             if bool_decide (unique_webhook_keys table) then
               Ok ({| telegram_configs := telegram_configs st;
                      tradingview_alerts := table;
                      price_alerts := price_alerts st;
                      notification_logs := notification_logs st |},
                   ("Webhook key regenerated successfully", "success"))
             else Raise (db_error w "trading_view_alert.webhook_key")
         end
     end)
    (fun exc => (st, ("Error regenerating webhook key: " ++ exc, "danger"))).

(** The assignments of lines 344-357 to the row [alert]. *)
Definition edited (alert : PriceAlert.t) (name symbol alert_type message_template : string)
  (target_price : spec_float) (telegram_config_id : Z)
  (is_active is_one_time reset_triggered : bool) (updated_at : Z) : PriceAlert.t :=
  {| PriceAlert.id := PriceAlert.id alert;
     PriceAlert.name := name;
     PriceAlert.symbol := symbol;
     PriceAlert.alert_type := alert_type;
     PriceAlert.target_price := target_price;
     PriceAlert.message_template := message_template;
     PriceAlert.is_active := is_active;
     PriceAlert.is_one_time := is_one_time;
     PriceAlert.is_triggered :=
       if reset_triggered then false else PriceAlert.is_triggered alert;
     PriceAlert.last_triggered_at :=
       if reset_triggered then None else PriceAlert.last_triggered_at alert;
     PriceAlert.telegram_config_id := telegram_config_id;
     PriceAlert.created_at := PriceAlert.created_at alert;
     PriceAlert.updated_at := updated_at |}.

(** What the commit makes of the value given for a column that is
    [nullable=False]: [None] is refused; so is, for an Integer column, a
    form value that stands for no integer, as PostgreSQL has it. *)
Definition not_null {A : Type} (w : World) (column : string) (v : option A) : outcome A :=
  match v with
  | Some a => Ok a
  | None => Raise (db_error w column)
  end.

(** The action [edit] of [price_alerts]: lines 325-365. *)
Definition edit_price_alert (w : World) (st : Store) (form : gmap string string)
  : Store * flash :=
  let alert_id := form !! "alert_id" in
  let name := form !! "name" in
  let symbol := form !! "symbol" in
  let alert_type := form !! "alert_type" in
  let target_price := form !! "target_price" in
  let telegram_config_id := form !! "telegram_config_id" in
  let message_template := form !! "message_template" in
  let is_one_time := bool_decide (form !! "is_one_time" = Some "true") in
  let is_active := bool_decide (form !! "is_active" = Some "true") in
  let reset_triggered := bool_decide (form !! "reset_triggered" = Some "true") in
  try_except
    (match query_raises w with
     | Some exc => Raise exc
     | None =>
         match query_get PriceAlert.id (price_alerts st) alert_id with
         | None => Ok (st, ("Alert not found", "danger"))
         | Some alert =>
             symbol' ← match symbol with
                       | Some s => Ok (str_upper s)
                       | None => Raise "'NoneType' object has no attribute 'upper'"
                       end;
             target_price' ← match target_price with
                             | Some s =>
                                 match py_float (JStr s) with
                                 | Some f => Ok f
                                 | None => Raise (float_error (JStr s))
                                 end
                             | None => Raise (float_error JNull)
                             end;
             name' ← not_null w "price_alert.name" name;
             alert_type' ← not_null w "price_alert.alert_type" alert_type;
             telegram_config_id' ←
               not_null w "price_alert.telegram_config_id" (telegram_config_id ≫= py_int);
             message_template' ← not_null w "price_alert.message_template" message_template;
             let table :=
               update_first (fun r => (PriceAlert.id r =? PriceAlert.id alert)%Z)
                 (fun r => edited r name' symbol' alert_type' message_template'
                             target_price' telegram_config_id'
                             is_active is_one_time reset_triggered (utcnow w))
                 (price_alerts st) in
             Ok ({| telegram_configs := telegram_configs st;
                    tradingview_alerts := tradingview_alerts st;
                    price_alerts := table;
                    notification_logs := notification_logs st |},
                 ("Price alert updated successfully", "success"))
         end
     end)
    (fun exc => (st, ("Error updating alert: " ++ exc, "danger"))).

End WithRuntime.
End config.


(** ** app.py: the database URL *)

Module app.

(** [s[n:]] *)
Fixpoint string_drop (n : nat) (s : string) : string :=
  match n, s with
  | O, _ => s
  | S k, String _ rest => string_drop k rest
  | S _, EmptyString => EmptyString
  end.

(** [s.replace(old, new, 1)] for a non-empty [old]. *)
Fixpoint replace_first (old new s : string) : string :=
  match s with
  | EmptyString => EmptyString
  | String c rest =>
      if String.prefix old s
      then new ++ string_drop (String.length old) s
      else String c (replace_first old new rest)
  end.

(** Lines 28-31: the value of [database_url], from what the environment
    has for DATABASE_URL. *)
Definition database_url (env : option string) : string :=
  let database_url := default "sqlite:///tradingview_telegram.db" env in
  if negb (String.eqb database_url EmptyString)
     && String.prefix "postgres://" database_url
  then replace_first "postgres://" "postgresql://" database_url
  else database_url.

End app.

(** ** telegram_bot.py: the connection test *)

Definition test_message : string :=
  "🔍 This is a test message from your TradingView-Telegram integration.".

Definition test_telegram_connection (w : World) (bot_token chat_id : string)
  : telegram_bot.result :=
  telegram_bot.send_telegram_message w bot_token chat_id test_message.

(** ** config.py: the other admin actions *)

(** What a POST to an admin page leaves behind: the store, the messages
    flashed and the calls made to Telegram. *)
Record admin_result : Type := {
  admin_store : Store;
  flashed : list (string * string);
  admin_sent : list delivery
}.

Definition unchanged (st : Store) (message category : string) : admin_result :=
  {| admin_store := st; flashed := [(message, category)]; admin_sent := [] |}.

(** [not v] for a form value *)
Definition blank (v : option string) : bool :=
  match v with
  | None => true
  | Some s => String.eqb s EmptyString
  end.

Module telegram_config.
Section WithRuntime.
Context `{PyRuntime}.

(** [TelegramConfig.query.get(config_id)] *)
Definition query_get (st : Store) (config_id : option string)
  : option (Z * TelegramConfig.t) :=
  i ← config_id ≫= py_int;
  c ← telegram_configs st !! i;
  Some (i, c).

Definition with_telegram_configs (st : Store) (table : gmap Z TelegramConfig.t) : Store :=
  {| telegram_configs := table;
     tradingview_alerts := tradingview_alerts st;
     price_alerts := price_alerts st;
     notification_logs := notification_logs st |}.

(** The action [add]: lines 49-80. [new_id] is the primary key that the
    database gives to the row it inserts; [created_at] and [updated_at]
    have [default=datetime.utcnow]. *)
Definition add (w : World) (new_id : Z) (st : Store) (form : gmap string string)
  : admin_result :=
  let bot_token := form !! "bot_token" in
  let chat_id := form !! "chat_id" in
  if blank bot_token || blank chat_id then
    unchanged st "Bot token and chat ID are required" "danger"
  else
    let bot_token := default EmptyString bot_token in
    let chat_id := default EmptyString chat_id in
    let test_result := test_telegram_connection w bot_token chat_id in
    let d := {| to_bot := bot_token; to_chat := chat_id; text_sent := test_message;
                delivered := telegram_bot.success test_result |} in
    if negb (telegram_bot.success test_result) then
      {| admin_store := st;
         flashed := [("Connection test failed: "
                      ++ default "None" (telegram_bot.error test_result), "danger")];
         admin_sent := [d] |}
    else
      let new_config := {| TelegramConfig.bot_token := bot_token;
                           TelegramConfig.chat_id := chat_id;
                           TelegramConfig.is_active := true;
                           TelegramConfig.created_at := utcnow w;
                           TelegramConfig.updated_at := utcnow w |} in
      match telegram_configs st !! new_id with
      | Some _ =>
          {| admin_store := st;
             flashed := [("Error adding configuration: " ++ db_error w "telegram_config.id",
                          "danger")];
             admin_sent := [d] |}
      | None =>
          {| admin_store := with_telegram_configs st (<[new_id := new_config]> (telegram_configs st));
             flashed := [("Telegram configuration added successfully", "success")];
             admin_sent := [d] |}
      end.

(** The action [edit]: lines 82-106. *)
Definition edit (w : World) (st : Store) (form : gmap string string) : admin_result :=
  let config_id := form !! "config_id" in
  let bot_token := form !! "bot_token" in
  let chat_id := form !! "chat_id" in
  let is_active := bool_decide (form !! "is_active" = Some "on") in
  try_except
    (match query_raises w with
     | Some exc => Raise exc
     | None =>
         match query_get st config_id with
         | None => Ok (unchanged st "Configuration not found" "danger")
         | Some (i, config) =>
             bot_token' ← config.not_null w "telegram_config.bot_token" bot_token;
             chat_id' ← config.not_null w "telegram_config.chat_id" chat_id;
             let config := {| TelegramConfig.bot_token := bot_token';
                              TelegramConfig.chat_id := chat_id';
                              TelegramConfig.is_active := is_active;
                              TelegramConfig.created_at := TelegramConfig.created_at config;
                              TelegramConfig.updated_at := utcnow w |} in
             Ok {| admin_store := with_telegram_configs st (<[i := config]> (telegram_configs st));
                   flashed := [("Configuration updated successfully", "success")];
                   admin_sent := [] |}
         end
     end)
    (fun exc => unchanged st ("Error updating configuration: " ++ exc) "danger").

(** The action [delete]: lines 108-129. The model class has the
    collections [tradingview_alerts] and [price_alerts] (the backrefs of
    models.py, lines 25 and 46) and no attribute [alerts], so that the
    test of line 118 raises an AttributeError for every configuration
    that is found. *)
Definition delete (w : World) (st : Store) (form : gmap string string) : admin_result :=
  let config_id := form !! "config_id" in
  try_except
    (match query_raises w with
     | Some exc => Raise exc
     | None =>
         match query_get st config_id with
         | None => Ok (unchanged st "Configuration not found" "danger")
         | Some _ => Raise "'TelegramConfig' object has no attribute 'alerts'"
         end
     end)
    (fun exc => unchanged st ("Error deleting configuration: " ++ exc) "danger").

(** The action [test]: lines 131-150. *)
Definition test (w : World) (st : Store) (form : gmap string string) : admin_result :=
  let config_id := form !! "config_id" in
  try_except
    (match query_raises w with
     | Some exc => Raise exc
     | None =>
         match query_get st config_id with
         | None => Ok (unchanged st "Configuration not found" "danger")
         | Some (_, config) =>
             let test_result :=
               test_telegram_connection w (TelegramConfig.bot_token config)
                 (TelegramConfig.chat_id config) in
             let d := {| to_bot := TelegramConfig.bot_token config;
                         to_chat := TelegramConfig.chat_id config;
                         text_sent := test_message;
                         delivered := telegram_bot.success test_result |} in
             Ok {| admin_store := st;
                   flashed :=
                     if telegram_bot.success test_result
                     then [("Connection test successful", "success")]
                     else [("Connection test failed: "
                            ++ default "None" (telegram_bot.error test_result), "danger")];
                   admin_sent := [d] |}
         end
     end)
    (fun exc => unchanged st ("Error testing configuration: " ++ exc) "danger").

(** The POST branch of [telegram_config]: lines 46-152. *)
Definition post (w : World) (new_id : Z) (st : Store) (form : gmap string string)
  : admin_result :=
  let action := form !! "action" in
  if bool_decide (action = Some "add") then add w new_id st form
  else if bool_decide (action = Some "edit") then edit w st form
  else if bool_decide (action = Some "delete") then delete w st form
  else if bool_decide (action = Some "test") then test w st form
  else {| admin_store := st; flashed := []; admin_sent := [] |}.

End WithRuntime.
End telegram_config.

(** The first row that [p] selects is removed. *)
Fixpoint remove_first {A : Type} (p : A -> bool) (l : list A) : list A :=
  match l with
  | [] => []
  | x :: rest => if p x then rest else x :: remove_first p rest
  end.

Module alerts_config.
Section WithRuntime.
Context `{PyRuntime}.

Definition with_tradingview_alerts (st : Store) (table : list TradingViewAlert.t) : Store :=
  {| telegram_configs := telegram_configs st;
     tradingview_alerts := table;
     price_alerts := price_alerts st;
     notification_logs := notification_logs st |}.

(** The action [add]: lines 164-196. [new_id] is the primary key that
    the database gives to the row it inserts; the commit is refused when
    the key drawn is the key of another row ([unique=True]). *)
Definition add (w : World) (new_id : Z) (st : Store) (form : gmap string string)
  : admin_result :=
  let name := form !! "name" in
  let telegram_config_id := form !! "telegram_config_id" in
  let message_template := form !! "message_template" in
  if blank name || blank telegram_config_id then
    unchanged st "Name and Telegram configuration are required" "danger"
  else
    try_except
      (let webhook_key := config.generate_webhook_key w 16 in
       telegram_config_id' ←
         config.not_null w "trading_view_alert.telegram_config_id"
           (telegram_config_id ≫= py_int);
       let new_alert :=
         {| TradingViewAlert.id := new_id;
            TradingViewAlert.name := default EmptyString name;
            TradingViewAlert.webhook_key := webhook_key;
            TradingViewAlert.message_template :=
              if blank message_template
              then TradingViewAlert.default_message_template
              else default EmptyString message_template;
            TradingViewAlert.is_active := true;
            TradingViewAlert.telegram_config_id := telegram_config_id';
            TradingViewAlert.created_at := utcnow w;
            TradingViewAlert.updated_at := utcnow w |} in
       let table := (tradingview_alerts st ++ [new_alert])%list in
       if existsb (fun r => (TradingViewAlert.id r =? new_id)%Z) (tradingview_alerts st)
       then Raise (db_error w "trading_view_alert.id")
       else if bool_decide (config.unique_webhook_keys table) then
         Ok {| admin_store := with_tradingview_alerts st table;
               flashed := [("Alert configuration added successfully", "success")];
               admin_sent := [] |}
       else Raise (db_error w "trading_view_alert.webhook_key"))
      (fun exc => unchanged st ("Error adding alert: " ++ exc) "danger").

(** The assignments of lines 212-216 to the row [alert]. *)
Definition edited (alert : TradingViewAlert.t) (name message_template : string)
  (telegram_config_id : Z) (is_active : bool) (updated_at : Z) : TradingViewAlert.t :=
  {| TradingViewAlert.id := TradingViewAlert.id alert;
     TradingViewAlert.name := name;
     TradingViewAlert.webhook_key := TradingViewAlert.webhook_key alert;
     TradingViewAlert.message_template := message_template;
     TradingViewAlert.is_active := is_active;
     TradingViewAlert.telegram_config_id := telegram_config_id;
     TradingViewAlert.created_at := TradingViewAlert.created_at alert;
     TradingViewAlert.updated_at := updated_at |}.

(** The action [edit]: lines 198-224. *)
Definition edit (w : World) (st : Store) (form : gmap string string) : admin_result :=
  let alert_id := form !! "alert_id" in
  let name := form !! "name" in
  let telegram_config_id := form !! "telegram_config_id" in
  let message_template := form !! "message_template" in
  let is_active := bool_decide (form !! "is_active" = Some "on") in
  try_except
    (match query_raises w with
     | Some exc => Raise exc
     | None =>
         match config.query_get TradingViewAlert.id (tradingview_alerts st) alert_id with
         | None => Ok (unchanged st "Alert not found" "danger")
         | Some alert =>
             name' ← config.not_null w "trading_view_alert.name" name;
             telegram_config_id' ←
               config.not_null w "trading_view_alert.telegram_config_id"
                 (telegram_config_id ≫= py_int);
             message_template' ←
               config.not_null w "trading_view_alert.message_template" message_template;
             let table :=
               config.update_first
                 (fun r => (TradingViewAlert.id r =? TradingViewAlert.id alert)%Z)
                 (fun r => edited r name' message_template' telegram_config_id' is_active
                             (utcnow w))
                 (tradingview_alerts st) in
             Ok {| admin_store := with_tradingview_alerts st table;
                   flashed := [("Alert updated successfully", "success")];
                   admin_sent := [] |}
         end
     end)
    (fun exc => unchanged st ("Error updating alert: " ++ exc) "danger").

(** What the deletion of the webhook alert [i] does to a log row: a row
    of the collection [logs] of the alert has its reference cleared, as
    the relationship has no delete cascade. *)
Definition orphaned (i : Z) (log : NotificationLog.t) : NotificationLog.t :=
  if bool_decide (NotificationLog.alert_id log = Some i) then
    {| NotificationLog.alert_id := None;
       NotificationLog.price_alert_id := NotificationLog.price_alert_id log;
       NotificationLog.payload := NotificationLog.payload log;
       NotificationLog.message_sent := NotificationLog.message_sent log;
       NotificationLog.status := NotificationLog.status log;
       NotificationLog.error_message := NotificationLog.error_message log;
       NotificationLog.created_at := NotificationLog.created_at log |}
  else log.

(** The action [delete]: lines 226-242. *)
Definition delete (w : World) (st : Store) (form : gmap string string) : admin_result :=
  let alert_id := form !! "alert_id" in
  try_except
    (match query_raises w with
     | Some exc => Raise exc
     | None =>
         match config.query_get TradingViewAlert.id (tradingview_alerts st) alert_id with
         | None => Ok (unchanged st "Alert not found" "danger")
         | Some alert =>
             Ok {| admin_store :=
                     {| telegram_configs := telegram_configs st;
                        tradingview_alerts :=
                          remove_first
                            (fun r => (TradingViewAlert.id r =? TradingViewAlert.id alert)%Z)
                            (tradingview_alerts st);
                        price_alerts := price_alerts st;
                        notification_logs :=
                          map (orphaned (TradingViewAlert.id alert)) (notification_logs st) |};
                   flashed := [("Alert deleted successfully", "success")];
                   admin_sent := [] |}
         end
     end)
    (fun exc => unchanged st ("Error deleting alert: " ++ exc) "danger").

(** The POST branch of [alerts_config]: lines 161-265. *)
Definition post (w : World) (new_id : Z) (st : Store) (form : gmap string string)
  : admin_result :=
  let action := form !! "action" in
  if bool_decide (action = Some "add") then add w new_id st form
  else if bool_decide (action = Some "edit") then edit w st form
  else if bool_decide (action = Some "delete") then delete w st form
  else if bool_decide (action = Some "regenerate_webhook") then
    let '(st', message) := config.regenerate_webhook w st form in
    {| admin_store := st'; flashed := [message]; admin_sent := [] |}
  else {| admin_store := st; flashed := []; admin_sent := [] |}.

End WithRuntime.
End alerts_config.

Module price_alerts.
Section WithRuntime.
Context `{PyRuntime}.

Definition with_price_alerts (st : Store) (table : list PriceAlert.t) : Store :=
  {| telegram_configs := telegram_configs st;
     tradingview_alerts := tradingview_alerts st;
     price_alerts := table;
     notification_logs := notification_logs st |}.

(** The action [add]: lines 287-323. [new_id] is the primary key that
    the database gives to the row it inserts. *)
Definition add (w : World) (new_id : Z) (st : Store) (form : gmap string string)
  : admin_result :=
  let name := form !! "name" in
  let symbol := form !! "symbol" in
  let alert_type := form !! "alert_type" in
  let target_price := form !! "target_price" in
  let telegram_config_id := form !! "telegram_config_id" in
  let message_template := form !! "message_template" in
  let is_one_time := bool_decide (form !! "is_one_time" = Some "true") in
  if blank name || blank symbol || blank alert_type || blank target_price
     || blank telegram_config_id then
    unchanged st "All fields are required" "danger"
  else
    try_except
      (target_price' ←
         match py_float (JStr (default EmptyString target_price)) with
         | Some f => Ok f
         | None => Raise (float_error (JStr (default EmptyString target_price)))
         end;
       telegram_config_id' ←
         config.not_null w "price_alert.telegram_config_id" (telegram_config_id ≫= py_int);
       let new_alert :=
         {| PriceAlert.id := new_id;
            PriceAlert.name := default EmptyString name;
            PriceAlert.symbol := str_upper (default EmptyString symbol);
            PriceAlert.alert_type := default EmptyString alert_type;
            PriceAlert.target_price := target_price';
            PriceAlert.message_template :=
              if blank message_template
              then PriceAlert.default_message_template
              else default EmptyString message_template;
            PriceAlert.is_active := true;
            PriceAlert.is_one_time := is_one_time;
            PriceAlert.is_triggered := false;
            PriceAlert.last_triggered_at := None;
            PriceAlert.telegram_config_id := telegram_config_id';
            PriceAlert.created_at := utcnow w;
            PriceAlert.updated_at := utcnow w |} in
       if existsb (fun r => (PriceAlert.id r =? new_id)%Z) (price_alerts st)
       then Raise (db_error w "price_alert.id")
       else
         Ok {| admin_store := with_price_alerts st (price_alerts st ++ [new_alert])%list;
               flashed := [("Price alert added successfully", "success")];
               admin_sent := [] |})
      (fun exc => unchanged st ("Error adding alert: " ++ exc) "danger").

(** What the deletion of the price alert [i] does to a log row. *)
Definition orphaned (i : Z) (log : NotificationLog.t) : NotificationLog.t :=
  if bool_decide (NotificationLog.price_alert_id log = Some i) then
    {| NotificationLog.alert_id := NotificationLog.alert_id log;
       NotificationLog.price_alert_id := None;
       NotificationLog.payload := NotificationLog.payload log;
       NotificationLog.message_sent := NotificationLog.message_sent log;
       NotificationLog.status := NotificationLog.status log;
       NotificationLog.error_message := NotificationLog.error_message log;
       NotificationLog.created_at := NotificationLog.created_at log |}
  else log.

(** The action [delete]: lines 367-383. *)
Definition delete (w : World) (st : Store) (form : gmap string string) : admin_result :=
  let alert_id := form !! "alert_id" in
  try_except
    (match query_raises w with
     | Some exc => Raise exc
     | None =>
         match config.query_get PriceAlert.id (price_alerts st) alert_id with
         | None => Ok (unchanged st "Alert not found" "danger")
         | Some alert =>
             Ok {| admin_store :=
                     {| telegram_configs := telegram_configs st;
                        tradingview_alerts := tradingview_alerts st;
                        price_alerts :=
                          remove_first
                            (fun r => (PriceAlert.id r =? PriceAlert.id alert)%Z)
                            (price_alerts st);
                        notification_logs :=
                          map (orphaned (PriceAlert.id alert)) (notification_logs st) |};
                   flashed := [("Price alert deleted successfully", "success")];
                   admin_sent := [] |}
         end
     end)
    (fun exc => unchanged st ("Error deleting alert: " ++ exc) "danger").

(** The POST branch of [price_alerts]: lines 284-385. *)
Definition post (w : World) (new_id : Z) (st : Store) (form : gmap string string)
  : admin_result :=
  let action := form !! "action" in
  if bool_decide (action = Some "add") then add w new_id st form
  else if bool_decide (action = Some "edit") then
    let '(st', message) := config.edit_price_alert w st form in
    {| admin_store := st'; flashed := [message]; admin_sent := [] |}
  else if bool_decide (action = Some "delete") then delete w st form
  else {| admin_store := st; flashed := []; admin_sent := [] |}.

End WithRuntime.
End price_alerts.

(** ** Vocabulary of the further properties *)

(** An ASCII letter or digit. *)
Definition alphanumeric (c : ascii) : bool :=
  let n := nat_of_ascii c in
  (Nat.leb 97 n && Nat.leb n 122) || (Nat.leb 65 n && Nat.leb n 90)
  || (Nat.leb 48 n && Nat.leb n 57).

(** Every character of [s] satisfies [p]. *)
Fixpoint string_forall (p : ascii -> bool) (s : string) : bool :=
  match s with
  | EmptyString => true
  | String c rest => p c && string_forall p rest
  end.

(** The deliveries made for the price alert [i]. *)
Definition deliveries_for (i : Z) (ds : list (Z * delivery)) : list (Z * delivery) :=
  List.filter (fun e => (fst e =? i)%Z) ds.

(** ** Worked inputs

    A stand-in runtime and a few worlds, stores and requests on which the
    properties below are exercised. *)

Module examples.

(** The binary64 value of a positive integer below 2^53. *)
Definition float_of_pos (n : positive) : spec_float :=
  let bits := (Z.log2 (Zpos n) + 1)%Z in
  S754_finite false (Pos.shiftl n (Z.to_N (53 - bits))) (bits - 53).

Definition upper_ascii (c : ascii) : ascii :=
  let n := nat_of_ascii c in
  if Nat.leb 97 n && Nat.leb n 122 then ascii_of_nat (n - 32) else c.

Fixpoint upper (s : string) : string :=
  match s with
  | EmptyString => EmptyString
  | String c r => String (upper_ascii c) (upper r)
  end.

Fixpoint digits (acc : Z) (s : string) : option Z :=
  match s with
  | EmptyString => Some acc
  | String c r =>
      let n := nat_of_ascii c in
      if Nat.leb 48 n && Nat.leb n 57
      then digits (10 * acc + Z.of_nat (n - 48)) r
      else None
  end.

Definition int_of_string (s : string) : option Z :=
  match s with
  | EmptyString => None
  | _ => digits 0 s
  end.

Definition runtime : PyRuntime :=
  {| py_repr := fun v =>
       match v with
       | JNull => "None"
       | JBool true => "True"
       | JBool false => "False"
       | JInt z => pretty z
       | _ => "<object>"
       end;
     float_str := fun f =>
       match f with
       | S754_finite s m e =>
           (if s then "-" else EmptyString) ++ pretty (Zpos m) ++ "*2**" ++ pretty e
       | S754_zero _ => "0.0"
       | S754_infinity _ => "inf"
       | S754_nan => "nan"
       end;
     float_error := fun _ => "could not convert to float";
     py_float := fun v =>
       match v with
       | JFloat f => Some f
       | JInt (Zpos n) => Some (float_of_pos n)
       | JStr s => match int_of_string s with
                   | Some (Zpos n) => Some (float_of_pos n)
                   | _ => None
                   end
       | _ => None
       end;
     json_dumps := fun v =>
       match v with
       | JStr s => s
       | _ => "<json>"
       end;
     json_loads := fun _ => None;
     str_upper := upper;
     isoformat := pretty;
     py_int := int_of_string |}.

(** A quote of the secondary source with this market price. *)
Definition yahoo_quote (p : spec_float) : json :=
  JObj {[ "chart" :=
    JObj {[ "result" :=
      JArr [ JObj {[ "meta" := JObj {[ "regularMarketPrice" := JFloat p ]} ]} ] ]} ]}.

(** No API key; the secondary source quotes every symbol at [p];
    Telegram answers every call with [telegram_status]; the database
    accepts every commit. *)
Definition world (p : positive) (telegram_status : Z) : World :=
  {| ALPHA_VANTAGE_API_KEY := EmptyString;
     requests_get := fun _ => Response 200 "quote" (Some (yahoo_quote (float_of_pos p)));
     requests_post := fun _ _ => Response telegram_status "reply" None;
     now := 5;
     utcnow := 7;
     secrets_draw := fun i => i;
     query_raises := None;
     commit_raises := fun _ => None;
     db_error := fun constraint => "constraint failed: " ++ constraint |}.

(** As [world], with no market data source answering. *)
Definition world_without_prices : World :=
  {| ALPHA_VANTAGE_API_KEY := EmptyString;
     requests_get := fun _ => Unreachable "timeout";
     requests_post := fun _ _ => Response 200 "reply" None;
     now := 5;
     utcnow := 7;
     secrets_draw := fun i => i;
     query_raises := None;
     commit_raises := fun _ => None;
     db_error := fun constraint => "constraint failed: " ++ constraint |}.

(** An API key is configured, the primary source answers 500 and the
    secondary source would quote [p]. *)
Definition world_primary_down (p : positive) : World :=
  {| ALPHA_VANTAGE_API_KEY := "KEY";
     requests_get := fun url =>
       if String.prefix "https://www.alphavantage.co/" url
       then Response 500 "Internal Server Error" None
       else Response 200 "quote" (Some (yahoo_quote (float_of_pos p)));
     requests_post := fun _ _ => Response 200 "reply" None;
     now := 5;
     utcnow := 7;
     secrets_draw := fun i => i;
     query_raises := None;
     commit_raises := fun _ => None;
     db_error := fun constraint => "constraint failed: " ++ constraint |}.

(** As [world p 200], but the database refuses the commit of a log row
    for the price alert [failing]. *)
Definition world_commit_fails (p : positive) (failing : Z) : World :=
  {| ALPHA_VANTAGE_API_KEY := EmptyString;
     requests_get := fun _ => Response 200 "quote" (Some (yahoo_quote (float_of_pos p)));
     requests_post := fun _ _ => Response 200 "reply" None;
     now := 5;
     utcnow := 7;
     secrets_draw := fun i => i;
     query_raises := None;
     commit_raises := fun log =>
       if bool_decide (NotificationLog.price_alert_id log = Some failing)
       then Some "OperationalError: database is locked"
       else None;
     db_error := fun constraint => "constraint failed: " ++ constraint |}.

(** As [world p 200], but the database does not answer the queries. *)
Definition world_query_fails (p : positive) : World :=
  {| ALPHA_VANTAGE_API_KEY := EmptyString;
     requests_get := fun _ => Response 200 "quote" (Some (yahoo_quote (float_of_pos p)));
     requests_post := fun _ _ => Response 200 "reply" None;
     now := 5;
     utcnow := 7;
     secrets_draw := fun i => i;
     query_raises := Some "OperationalError: unable to open database file";
     commit_raises := fun _ => None;
     db_error := fun constraint => "constraint failed: " ++ constraint |}.

(** As [world p 200], but the database refuses every commit. *)
Definition world_database_down (p : positive) : World :=
  {| ALPHA_VANTAGE_API_KEY := EmptyString;
     requests_get := fun _ => Response 200 "quote" (Some (yahoo_quote (float_of_pos p)));
     requests_post := fun _ _ => Response 200 "reply" None;
     now := 5;
     utcnow := 7;
     secrets_draw := fun i => i;
     query_raises := None;
     commit_raises := fun _ => Some "OperationalError: database is locked";
     db_error := fun constraint => "constraint failed: " ++ constraint |}.

Definition chat (active : bool) : TelegramConfig.t :=
  {| TelegramConfig.bot_token := "TOKEN";
     TelegramConfig.chat_id := "42";
     TelegramConfig.is_active := active;
     TelegramConfig.created_at := 1;
     TelegramConfig.updated_at := 1 |}.

Definition price_alert (id : Z) (kind : string) (target : positive)
  (one_time triggered : bool) : PriceAlert.t :=
  {| PriceAlert.id := id;
     PriceAlert.name := "alert";
     PriceAlert.symbol := "AAPL";
     PriceAlert.alert_type := kind;
     PriceAlert.target_price := float_of_pos target;
     PriceAlert.message_template := PriceAlert.default_message_template;
     PriceAlert.is_active := true;
     PriceAlert.is_one_time := one_time;
     PriceAlert.is_triggered := triggered;
     PriceAlert.last_triggered_at := if triggered then Some 3%Z else None;
     PriceAlert.telegram_config_id := 1;
     PriceAlert.created_at := 1;
     PriceAlert.updated_at := if triggered then 3 else 1 |}.

(** The alert [a], switched off. *)
Definition paused (a : PriceAlert.t) : PriceAlert.t :=
  {| PriceAlert.id := PriceAlert.id a;
     PriceAlert.name := PriceAlert.name a;
     PriceAlert.symbol := PriceAlert.symbol a;
     PriceAlert.alert_type := PriceAlert.alert_type a;
     PriceAlert.target_price := PriceAlert.target_price a;
     PriceAlert.message_template := PriceAlert.message_template a;
     PriceAlert.is_active := false;
     PriceAlert.is_one_time := PriceAlert.is_one_time a;
     PriceAlert.is_triggered := PriceAlert.is_triggered a;
     PriceAlert.last_triggered_at := PriceAlert.last_triggered_at a;
     PriceAlert.telegram_config_id := PriceAlert.telegram_config_id a;
     PriceAlert.created_at := PriceAlert.created_at a;
     PriceAlert.updated_at := PriceAlert.updated_at a |}.

Definition webhook_alert (id : Z) (key template : string) : TradingViewAlert.t :=
  {| TradingViewAlert.id := id;
     TradingViewAlert.name := "breakouts";
     TradingViewAlert.webhook_key := key;
     TradingViewAlert.message_template := template;
     TradingViewAlert.is_active := true;
     TradingViewAlert.telegram_config_id := 1;
     TradingViewAlert.created_at := 1;
     TradingViewAlert.updated_at := 1 |}.

Definition store (chat_active : bool) (hooks : list TradingViewAlert.t)
  (alerts : list PriceAlert.t) : Store :=
  {| telegram_configs := {[ 1%Z := chat chat_active ]};
     tradingview_alerts := hooks;
     price_alerts := alerts;
     notification_logs := [] |}.

(** As [store], with no Telegram configuration: the rows that refer to
    the configuration 1 refer to a row that is not there. *)
Definition store_without_chat (hooks : list TradingViewAlert.t)
  (alerts : list PriceAlert.t) : Store :=
  {| telegram_configs := ∅;
     tradingview_alerts := hooks;
     price_alerts := alerts;
     notification_logs := [] |}.

(** The payload of the scenario of the specification. *)
Definition breakout_payload : json :=
  JObj (<["ticker" := JStr "AAPL"]>
       (<["close" := JStr "150.2"]>
       (<["strategy" := JStr "breakout"]> ∅))).

Definition request (payload : json) : webhook.Request :=
  {| webhook.get_json := payload;
     webhook.data_decode := Ok "body" |}.

(** A request whose body is neither JSON nor UTF-8. *)
Definition undecodable_request : webhook.Request :=
  {| webhook.get_json := JNull;
     webhook.data_decode := Raise "'utf-8' codec can't decode byte 0xff" |}.

(** The admin form that edits the price alert 1 and resets it. *)
Definition reset_form : gmap string string :=
  <["action" := "edit"]>
  (<["alert_id" := "1"]>
  (<["name" := "alert"]>
  (<["symbol" := "aapl"]>
  (<["alert_type" := "above"]>
  (<["target_price" := "100"]>
  (<["telegram_config_id" := "1"]>
  (<["message_template" := PriceAlert.default_message_template]>
  (<["is_one_time" := "true"]>
  (<["is_active" := "true"]>
  (<["reset_triggered" := "true"]> ∅)))))))))).

(** The admin form that regenerates the key of the webhook alert 1. *)
Definition regenerate_form : gmap string string :=
  <["action" := "regenerate_webhook"]> (<["alert_id" := "1"]> ∅).

End examples.

(** ** Further worked inputs *)

Module more_examples.

(** A webhook alert that has been switched off. *)
Definition inactive_hook (id : Z) (key : string) : TradingViewAlert.t :=
  {| TradingViewAlert.id := id;
     TradingViewAlert.name := "paused";
     TradingViewAlert.webhook_key := key;
     TradingViewAlert.message_template := TradingViewAlert.default_message_template;
     TradingViewAlert.is_active := false;
     TradingViewAlert.telegram_config_id := 1;
     TradingViewAlert.created_at := 1;
     TradingViewAlert.updated_at := 2 |}.

(** A request with a plain text body. *)
Definition text_request (body : string) : webhook.Request :=
  {| webhook.get_json := JNull;
     webhook.data_decode := Ok body |}.

(** A quote of the primary source with this price, as a string. *)
Definition alpha_vantage_quote (p : string) : json :=
  JObj {[ "Global Quote" := JObj {[ "05. price" := JStr p ]} ]}.

(** An API key is configured and the primary source quotes every symbol
    at [p]; the secondary source does not answer. *)
Definition world_with_key (p : string) : World :=
  {| ALPHA_VANTAGE_API_KEY := "KEY";
     requests_get := fun url =>
       if String.prefix "https://www.alphavantage.co/" url
       then Response 200 "quote" (Some (alpha_vantage_quote p))
       else Unreachable "timeout";
     requests_post := fun _ _ => Response 200 "reply" None;
     now := 5;
     utcnow := 7;
     secrets_draw := fun i => i;
     query_raises := None;
     commit_raises := fun _ => None;
     db_error := fun constraint => "constraint failed: " ++ constraint |}.

(** The admin form that deletes the Telegram configuration 1. *)
Definition delete_config_form : gmap string string :=
  <["action" := "delete"]> (<["config_id" := "1"]> ∅).

(** The admin form that edits the Telegram configuration 1 and leaves
    its box "active" unchecked. *)
Definition deactivate_config_form : gmap string string :=
  <["action" := "edit"]>
  (<["config_id" := "1"]>
  (<["bot_token" := "TOKEN"]>
  (<["chat_id" := "42"]> ∅))).

(** The admin form that adds a webhook alert for the Telegram
    configuration 1, with the default template. *)
Definition add_alert_form : gmap string string :=
  <["action" := "add"]>
  (<["name" := "breakouts"]>
  (<["telegram_config_id" := "1"]> ∅)).

(** The admin form that edits the webhook alert 1 and leaves its box
    "active" unchecked. *)
Definition deactivate_alert_form : gmap string string :=
  <["action" := "edit"]>
  (<["alert_id" := "1"]>
  (<["name" := "breakouts"]>
  (<["telegram_config_id" := "1"]>
  (<["message_template" := "Alert: $ticker"]> ∅)))).

(** The admin form that deletes the alert 1. *)
Definition delete_alert_form : gmap string string :=
  <["action" := "delete"]> (<["alert_id" := "1"]> ∅).

(** A log row of the webhook alert [i]. *)
Definition webhook_log (i : Z) (status : string) : NotificationLog.t :=
  {| NotificationLog.alert_id := Some i;
     NotificationLog.price_alert_id := None;
     NotificationLog.payload := Some "{}";
     NotificationLog.message_sent := Some "Alert: AAPL";
     NotificationLog.status := status;
     NotificationLog.error_message := None;
     NotificationLog.created_at := 3 |}.

(** A store with two webhook alerts and the log rows of two calls. *)
Definition store_with_logs : Store :=
  {| telegram_configs := {[ 1%Z := examples.chat true ]};
     tradingview_alerts :=
       [examples.webhook_alert 1 "0123456789abcdef" "one";
        examples.webhook_alert 2 "fedcba9876543210" "two"];
     price_alerts := [examples.price_alert 1 "above" 100 false false];
     notification_logs := [webhook_log 1 "success"; webhook_log 2 "failed"] |}.

End more_examples.
(** * Properties *)

(** ** Floating-point comparison *)

Lemma SFcompare_Eq_sym (x y : spec_float) :
  SFcompare x y = Some Eq -> SFcompare y x = Some Eq.
Proof.
  destruct x as [sx|sx| |sx mx ex], y as [sy|sy| |sy my ey]; simpl;
    try destruct sx; try destruct sy; try congruence.
  - destruct (Z.compare_spec ex ey) as [->| |]; try congruence.
    rewrite Z.compare_refl. intros Hm.
    assert (mx = my) as ->.
    { apply Pos.compare_eq. unfold Pos.compare.
      destruct (Pos.compare_cont Eq mx my); simpl in Hm; congruence. }
    now rewrite Pos.compare_cont_refl.
  - destruct (Z.compare_spec ex ey) as [->| |]; try congruence.
    rewrite Z.compare_refl. intros Hm.
    assert (mx = my) as ->.
    { apply Pos.compare_eq. unfold Pos.compare.
      destruct (Pos.compare_cont Eq mx my); congruence. }
    now rewrite Pos.compare_cont_refl.
Qed.

Lemma SFeqb_not_ltb (x y : spec_float) :
  SFeqb x y = true -> SFltb x y = false /\ SFltb y x = false.
Proof.
  unfold SFeqb, SFltb. intros Heq.
  destruct (SFcompare x y) as [[ | | ]|] eqn:Hxy; try discriminate.
  now rewrite (SFcompare_Eq_sym _ _ Hxy).
Qed.

(** ** The runtime model on known values *)

Example replace_every_occurrence :
  replace "a {{x}} b {{x}}{{x}}" "{{x}}" "123" = "a 123 b 123123".
Proof. reflexivity. Qed.

Example replace_does_not_overlap : replace "aaa" "aa" "b" = "ba".
Proof. reflexivity. Qed.

Example safe_substitute_forms :
  safe_substitute (H := examples.runtime) "$a ${b} $$ $ ${a} ${a x $a_1 $1"
    (JObj {[ "a" := JStr "X" ]})
  = Some "X ${b} $ $ X ${a x $a_1 $1".
Proof. vm_compute. reflexivity. Qed.

Example safe_substitute_raises_on_a_list :
  safe_substitute (H := examples.runtime) "$a" (JArr []) = None
  /\ safe_substitute (H := examples.runtime) "$$ $ ${" (JArr []) = Some "$ $ ${".
Proof. split; reflexivity. Qed.

(** ** The trigger condition *)

Section Trigger.
Context `{PyRuntime}.

Lemma alert_triggered_spec (a : PriceAlert.t) (p : spec_float) :
  price_scraper.alert_triggered a p = true <->
  (PriceAlert.alert_type a = "above" /\ SFltb (PriceAlert.target_price a) p = true) \/
  (PriceAlert.alert_type a = "below" /\ SFltb p (PriceAlert.target_price a) = true).
Proof.
  unfold price_scraper.alert_triggered.
  destruct (String.eqb_spec (PriceAlert.alert_type a) "above") as [Ha|Ha];
    destruct (String.eqb_spec (PriceAlert.alert_type a) "below") as [Hb|Hb];
    destruct (SFltb (PriceAlert.target_price a) p);
    destruct (SFltb p (PriceAlert.target_price a)); simpl;
    try (rewrite Ha in Hb; discriminate); intuition congruence.
Qed.

Lemma check_alert_evaluated (w : World) (st : Store) (a : PriceAlert.t)
  (pd : price_scraper.price_data) :
  PriceAlert.is_one_time a && PriceAlert.is_triggered a = false ->
  price_scraper.get_price_data w (PriceAlert.symbol a) = Some pd ->
  price_scraper.fired (price_scraper.check_alert w st a)
  = price_scraper.alert_triggered a (price_scraper.price pd).
Proof.
  intros Hguard Hprice. unfold price_scraper.check_alert.
  rewrite Hguard, Hprice.
  destruct (price_scraper.alert_triggered a (price_scraper.price pd)); [|reflexivity].
  destruct (telegram_configs st !! PriceAlert.telegram_config_id a); [|reflexivity].
  match goal with |- context [commit_raises w ?l] => destruct (commit_raises w l) end;
    reflexivity.
Qed.

(** C1. An alert that the poll cycle evaluates with an available
    price (it is not a one-time alert that has already fired, and
    [get_price_data] returns a price) triggers iff its type is "above"
    and the price is strictly greater than the target, or its type is
    "below" and the price is strictly less than the target; a price
    equal to the target triggers neither kind. *)
Theorem trigger_iff_strictly_beyond_target (w : World) (st : Store)
  (a : PriceAlert.t) (pd : price_scraper.price_data) :
  PriceAlert.is_one_time a && PriceAlert.is_triggered a = false ->
  price_scraper.get_price_data w (PriceAlert.symbol a) = Some pd ->
  (price_scraper.fired (price_scraper.check_alert w st a) = true <->
     (PriceAlert.alert_type a = "above"
      /\ SFltb (PriceAlert.target_price a) (price_scraper.price pd) = true) \/
     (PriceAlert.alert_type a = "below"
      /\ SFltb (price_scraper.price pd) (PriceAlert.target_price a) = true))
  /\ (SFeqb (price_scraper.price pd) (PriceAlert.target_price a) = true ->
      price_scraper.fired (price_scraper.check_alert w st a) = false).
Proof.
  intros Hguard Hprice.
  rewrite (check_alert_evaluated w st a pd Hguard Hprice). split.
  - apply alert_triggered_spec.
  - intros Heq. apply SFeqb_not_ltb in Heq as [Hlt Hgt].
    unfold price_scraper.alert_triggered. rewrite Hlt, Hgt.
    now rewrite !andb_false_r.
Qed.

End Trigger.

Lemma trigger_iff_strictly_beyond_target_witness :
  let a := examples.price_alert 1 "above" 100 true false in
  let w := examples.world 101 200 in
  let st := examples.store true [] [a] in
  (price_scraper.fired (price_scraper.check_alert (H := examples.runtime) w st a) = true <->
     (PriceAlert.alert_type a = "above"
      /\ SFltb (PriceAlert.target_price a) (examples.float_of_pos 101) = true) \/
     (PriceAlert.alert_type a = "below"
      /\ SFltb (examples.float_of_pos 101) (PriceAlert.target_price a) = true))
  /\ (SFeqb (examples.float_of_pos 101) (PriceAlert.target_price a) = true ->
      price_scraper.fired (price_scraper.check_alert (H := examples.runtime) w st a) = false).
Proof.
  intros a w st.
  apply (trigger_iff_strictly_beyond_target (H := examples.runtime) w st a
           {| price_scraper.pd_symbol := "AAPL";
              price_scraper.price := examples.float_of_pos 101;
              price_scraper.timestamp := "5" |});
    vm_compute; reflexivity.
Defined.

(** ** The Notification Gateway *)

(** C7, as the code has it. [send_telegram_message] returns a result for
    every input and every answer of the provider: it is a success, with
    no error, exactly when the provider answered with status 200; any
    other status and any transport failure give a failure that carries
    the error detail. *)
Theorem send_never_raises_and_tags_result (w : World) (bot_token chat_id message : string) :
  let r := telegram_bot.send_telegram_message w bot_token chat_id message in
  (telegram_bot.success r = true <->
     exists text body,
       requests_post w (telegram_bot.sendMessage_url bot_token)
         (telegram_bot.sendMessage_payload chat_id message)
       = Response 200 text body)
  /\ (telegram_bot.success r = true -> telegram_bot.error r = None)
  /\ (telegram_bot.success r = false -> exists detail, telegram_bot.error r = Some detail).
Proof.
  unfold telegram_bot.send_telegram_message, telegram_bot.send_telegram_message_try.
  destruct (requests_post w _ _) as [exc|status_code text body]; simpl.
  - repeat split; try discriminate; eauto.
    intros (text & body & Hreply). discriminate.
  - destruct (Z.eqb_spec status_code 200) as [->|Hne]; simpl.
    + repeat split; try discriminate; eauto.
    + repeat split; try discriminate; eauto.
      intros (text' & body' & Hreply). congruence.
Qed.

(** C7 as stated fails: a 2xx answer other than 200 is reported as a
    failure. *)
Lemma send_rejects_status_201 :
  let w := examples.world 101 201 in
  (200 <= 201 < 300)%Z
  /\ requests_post w (telegram_bot.sendMessage_url "TOKEN")
       (telegram_bot.sendMessage_payload "42" "hello")
     = Response 201 "reply" None
  /\ telegram_bot.send_telegram_message w "TOKEN" "42" "hello"
     = {| telegram_bot.success := false;
          telegram_bot.error :=
            Some "Failed to send message to Telegram. Status code: 201, Response: reply" |}.
Proof. repeat split; try lia; vm_compute; reflexivity. Qed.

(** ** The Market Data Provider *)

Section MarketData.
Context `{PyRuntime}.

Lemma get_price_data_without_key (w : World) (symbol : string) :
  ALPHA_VANTAGE_API_KEY w = EmptyString ->
  price_scraper.get_price_data w symbol
  = price_scraper.get_price_from_alternative_source w symbol.
Proof.
  intros Hkey. unfold price_scraper.get_price_data, price_scraper.get_price_data_try.
  now rewrite Hkey.
Qed.

(** With an API key configured, only the primary source is consulted:
    two worlds that agree on it agree on the result. *)
Lemma get_price_data_ignores_secondary (w w' : World) (symbol : string) :
  ALPHA_VANTAGE_API_KEY w <> EmptyString ->
  ALPHA_VANTAGE_API_KEY w' = ALPHA_VANTAGE_API_KEY w ->
  requests_get w' (price_scraper.alpha_vantage_url symbol (ALPHA_VANTAGE_API_KEY w))
  = requests_get w (price_scraper.alpha_vantage_url symbol (ALPHA_VANTAGE_API_KEY w)) ->
  now w' = now w ->
  price_scraper.get_price_data w' symbol = price_scraper.get_price_data w symbol.
Proof.
  intros Hkey Hsame Hreply Hnow.
  unfold price_scraper.get_price_data, price_scraper.get_price_data_try.
  rewrite Hsame.
  destruct (String.eqb_spec (ALPHA_VANTAGE_API_KEY w) EmptyString) as [Heq|_];
    [contradiction|].
  now rewrite Hreply, Hnow.
Qed.

(** C5. With an API key configured, a failure of the primary call (a
    transport failure or an answer whose status is not 200) makes
    [get_price_data] return nothing: the secondary source is not asked,
    whatever it would answer. *)
Theorem primary_failure_is_final (w : World) (symbol : string) :
  ALPHA_VANTAGE_API_KEY w <> EmptyString ->
  (forall text body,
     requests_get w (price_scraper.alpha_vantage_url symbol (ALPHA_VANTAGE_API_KEY w))
     <> Response 200 text body) ->
  price_scraper.get_price_data w symbol = None.
Proof.
  intros Hkey Hfail.
  unfold price_scraper.get_price_data, price_scraper.get_price_data_try.
  destruct (String.eqb_spec (ALPHA_VANTAGE_API_KEY w) EmptyString) as [Heq|_];
    [contradiction|].
  destruct (requests_get w _) as [exc|status_code text body] eqn:Hreply; [reflexivity|].
  destruct (Z.eqb_spec status_code 200) as [->|_]; [|reflexivity].
  now destruct (Hfail text body).
Qed.

End MarketData.

Lemma primary_failure_is_final_witness :
  let w := examples.world_primary_down 101 in
  price_scraper.get_price_data (H := examples.runtime) w "AAPL" = None
  /\ price_scraper.get_price_from_alternative_source (H := examples.runtime) w "AAPL"
     = Some {| price_scraper.pd_symbol := "AAPL";
               price_scraper.price := examples.float_of_pos 101;
               price_scraper.timestamp := "5" |}.
Proof.
  intros w. split.
  - apply (primary_failure_is_final (H := examples.runtime) w "AAPL").
    + discriminate.
    + intros text body. vm_compute. discriminate.
  - vm_compute. reflexivity.
Defined.

(** ** The Template Renderer of the webhook path *)

Section Renderer.
Context `{PyRuntime}.

Lemma substitute_without_delimiter (mapping : json) (s : string) :
  has_delimiter s = false -> substitute_from 0 mapping s = Some s.
Proof.
  induction s as [|c rest IH]; simpl; [reflexivity|].
  intros Hd. apply orb_false_iff in Hd as [Hc Hrest].
  rewrite Hc, (IH Hrest). reflexivity.
Qed.

(** A template written with double braces only is sent as it is. *)
Lemma render_without_delimiter (alert_config : TradingViewAlert.t) (payload : json) :
  has_delimiter (TradingViewAlert.message_template alert_config) = false ->
  webhook.render alert_config payload = TradingViewAlert.message_template alert_config.
Proof.
  intros Hd. unfold webhook.render, safe_substitute.
  now rewrite substitute_without_delimiter.
Qed.

(** C6. What the webhook path renders at the inputs of the claim:
    [safe_substitute] leaves both "{{a}}" and "{{b}}" in place (it fills
    in "$a" and leaves the unknown "$b"), and the request of the scenario
    is answered by sending the default template with none of its
    placeholders filled in. *)
Theorem webhook_render_keeps_double_braces :
  safe_substitute "{{a}} {{b}}" (JObj {[ "a" := JStr "X" ]}) = Some "{{a}} {{b}}"
  /\ safe_substitute "$a $b" (JObj {[ "a" := JStr "X" ]}) = Some "X $b"
  /\ (let st := examples.store true
                  [examples.webhook_alert 1 "key" TradingViewAlert.default_message_template] [] in
      map text_sent
        (webhook.sent (webhook.receive_alert (examples.world 101 200) st "key"
                         (examples.request examples.breakout_payload)))
      = ["TradingView Alert: {{strategy}} - {{ticker}} - {{close}}"]).
Proof.
  split; [|split].
  - now apply substitute_without_delimiter.
  - vm_compute. reflexivity.
  - vm_compute. reflexivity.
Qed.

End Renderer.

(** ** The poll cycle *)

Section Poller.
Context `{PyRuntime}.

Lemma check_alert_skips_consumed (w : World) (st : Store) (a : PriceAlert.t) :
  PriceAlert.is_one_time a = true -> PriceAlert.is_triggered a = true ->
  price_scraper.check_alert w st a = price_scraper.Continue.
Proof.
  intros Hone Htrig. unfold price_scraper.check_alert. now rewrite Hone, Htrig.
Qed.

Lemma check_alert_skips_unpriced (w : World) (st : Store) (a : PriceAlert.t) :
  price_scraper.get_price_data w (PriceAlert.symbol a) = None ->
  price_scraper.check_alert w st a = price_scraper.Continue.
Proof.
  intros Hprice. unfold price_scraper.check_alert. rewrite Hprice.
  now destruct (PriceAlert.is_one_time a && PriceAlert.is_triggered a).
Qed.

(** What the pass for a row does once its condition holds. *)
Lemma check_alert_fires (w : World) (st : Store) (a : PriceAlert.t)
  (pd : price_scraper.price_data) :
  PriceAlert.is_one_time a && PriceAlert.is_triggered a = false ->
  price_scraper.get_price_data w (PriceAlert.symbol a) = Some pd ->
  price_scraper.alert_triggered a (price_scraper.price pd) = true ->
  let message := price_scraper.format_message a (price_scraper.price pd) in
  price_scraper.check_alert w st a
  = match telegram_configs st !! PriceAlert.telegram_config_id a with
    | None => price_scraper.Raised "'NoneType' object has no attribute 'bot_token'" []
    | Some tc =>
        let result :=
          telegram_bot.send_telegram_message w (TelegramConfig.bot_token tc)
            (TelegramConfig.chat_id tc) message in
        let d := {| to_bot := TelegramConfig.bot_token tc;
                    to_chat := TelegramConfig.chat_id tc;
                    text_sent := message;
                    delivered := telegram_bot.success result |} in
        let log := price_scraper.notification_log w a pd message result in
        match commit_raises w log with
        | Some exc => price_scraper.Raised exc [d]
        | None =>
            price_scraper.Committed
              (if PriceAlert.is_one_time a then price_scraper.mark_triggered w a else a)
              log d
        end
    end.
Proof.
  intros Hguard Hprice Hcond. unfold price_scraper.check_alert.
  rewrite Hguard, Hprice, Hcond. reflexivity.
Qed.

(** What a committed pass wrote. *)
Lemma check_alert_committed (w : World) (st : Store) (a a' : PriceAlert.t)
  (log : NotificationLog.t) (d : delivery) :
  price_scraper.check_alert w st a = price_scraper.Committed a' log d ->
  a' = (if PriceAlert.is_one_time a then price_scraper.mark_triggered w a else a)
  /\ NotificationLog.price_alert_id log = Some (PriceAlert.id a)
  /\ NotificationLog.alert_id log = None
  /\ NotificationLog.status log = (if delivered d then "success" else "failed")
  /\ commit_raises w log = None.
Proof.
  unfold price_scraper.check_alert.
  destruct (PriceAlert.is_one_time a && PriceAlert.is_triggered a); [discriminate|].
  destruct (price_scraper.get_price_data w (PriceAlert.symbol a)) as [pd|]; [|discriminate].
  destruct (price_scraper.alert_triggered a (price_scraper.price pd)); [|discriminate].
  destruct (telegram_configs st !! PriceAlert.telegram_config_id a) as [tc|]; [|discriminate].
  match goal with |- context [commit_raises w ?l] =>
    destruct (commit_raises w l) eqn:Hcommit end; [discriminate|].
  intros Heq. injection Heq as <- <- <-. simpl. auto.
Qed.

Lemma committed_keeps_id (w : World) (st : Store) (a a' : PriceAlert.t)
  (log : NotificationLog.t) (d : delivery) :
  price_scraper.check_alert w st a = price_scraper.Committed a' log d ->
  PriceAlert.id a' = PriceAlert.id a.
Proof.
  intros Hc. apply check_alert_committed in Hc as (-> & _).
  now destruct (PriceAlert.is_one_time a).
Qed.

(** The loop over a table in two parts. *)
Lemma for_alerts_app (w : World) (st : Store) (pre rest : list PriceAlert.t) :
  price_scraper.raised (price_scraper.for_alerts w st pre) = None ->
  let c1 := price_scraper.for_alerts w st pre in
  let c2 := price_scraper.for_alerts w st rest in
  price_scraper.for_alerts w st (pre ++ rest)
  = {| price_scraper.rows := price_scraper.rows c1 ++ price_scraper.rows c2;
       price_scraper.new_logs := price_scraper.new_logs c1 ++ price_scraper.new_logs c2;
       price_scraper.deliveries := price_scraper.deliveries c1 ++ price_scraper.deliveries c2;
       price_scraper.raised := price_scraper.raised c2 |}.
Proof.
  induction pre as [|a pre IH]; simpl.
  - intros _. now destruct (price_scraper.for_alerts w st rest).
  - destruct (PriceAlert.is_active a).
    + destruct (price_scraper.check_alert w st a) as [|a' log d|exc ds]; simpl.
      * intros Hr. now rewrite (IH Hr).
      * intros Hr. now rewrite (IH Hr).
      * discriminate.
    + simpl. intros Hr. now rewrite (IH Hr).
Qed.

(** The primary keys of the rows are not touched by a cycle. *)
Lemma for_alerts_ids (w : World) (st : Store) (table : list PriceAlert.t) :
  map PriceAlert.id (price_scraper.rows (price_scraper.for_alerts w st table))
  = map PriceAlert.id table.
Proof.
  induction table as [|a table IH]; simpl; [reflexivity|].
  destruct (PriceAlert.is_active a).
  - destruct (price_scraper.check_alert w st a) as [|a' log d|exc ds] eqn:Hc; simpl.
    + now rewrite IH.
    + now rewrite IH, (committed_keeps_id _ _ _ _ _ _ Hc).
    + reflexivity.
  - simpl. now rewrite IH.
Qed.

(** A row whose pass ends with [continue] is left as it is. *)
Lemma for_alerts_keeps_row (w : World) (st : Store) (table : list PriceAlert.t)
  (a : PriceAlert.t) :
  In a table ->
  price_scraper.check_alert w st a = price_scraper.Continue ->
  In a (price_scraper.rows (price_scraper.for_alerts w st table)).
Proof.
  intros Hin Hcont. induction table as [|b table IH]; simpl; [contradiction|].
  destruct Hin as [->|Hin].
  - destruct (PriceAlert.is_active a); [rewrite Hcont|]; simpl; now left.
  - destruct (PriceAlert.is_active b).
    + destruct (price_scraper.check_alert w st b) as [|b' log d|exc ds]; simpl.
      * right. now apply IH.
      * right. now apply IH.
      * now right.
    + simpl. right. now apply IH.
Qed.

(** Every log row that a cycle adds was written by the pass for an
    active row of the table. *)
Lemma for_alerts_log_origin (w : World) (st : Store) (table : list PriceAlert.t)
  (log : NotificationLog.t) :
  In log (price_scraper.new_logs (price_scraper.for_alerts w st table)) ->
  exists a a' d, In a table /\ PriceAlert.is_active a = true
    /\ price_scraper.check_alert w st a = price_scraper.Committed a' log d.
Proof.
  induction table as [|b table IH]; simpl; [contradiction|].
  destruct (PriceAlert.is_active b) eqn:Hact.
  - destruct (price_scraper.check_alert w st b) as [|b' log' d|exc ds] eqn:Hc; simpl.
    + intros Hin. destruct (IH Hin) as (a & a' & d & Ha & Hb & Hd). eauto 8.
    + intros [<-|Hin]; [eauto 8|].
      destruct (IH Hin) as (a & a' & d0 & Ha & Hb & Hd). eauto 8.
    + contradiction.
  - simpl. intros Hin. destruct (IH Hin) as (a & a' & d & Ha & Hb & Hd). eauto 8.
Qed.

(** Every delivery of a cycle was made by the pass for an active row of
    the table that went into the trigger branch. *)
Lemma for_alerts_delivery_origin (w : World) (st : Store) (table : list PriceAlert.t)
  (i : Z) (d : delivery) :
  In (i, d) (price_scraper.deliveries (price_scraper.for_alerts w st table)) ->
  exists a, In a table /\ PriceAlert.is_active a = true /\ PriceAlert.id a = i
    /\ price_scraper.fired (price_scraper.check_alert w st a) = true.
Proof.
  induction table as [|b table IH]; simpl; [contradiction|].
  destruct (PriceAlert.is_active b) eqn:Hact.
  - destruct (price_scraper.check_alert w st b) as [|b' log' d'|exc ds] eqn:Hc; simpl.
    + intros Hin. destruct (IH Hin) as (a & Ha & Hb & Hi & Hf). eauto 8.
    + intros [Heq|Hin].
      * injection Heq as <- <-. exists b. rewrite Hc. auto.
      * destruct (IH Hin) as (a & Ha & Hb & Hi & Hf). eauto 8.
    + intros Hin. apply in_map_iff in Hin as (d0 & Heq & _).
      injection Heq as <- <-. exists b. rewrite Hc. auto.
  - simpl. intros Hin. destruct (IH Hin) as (a & Ha & Hb & Hi & Hf). eauto 8.
Qed.

(** Two rows of a table with distinct primary keys that carry the same
    key are the same row. *)
Lemma same_id_same_row (table : list PriceAlert.t) (a b : PriceAlert.t) :
  NoDup (map PriceAlert.id table) ->
  In a table -> In b table -> PriceAlert.id a = PriceAlert.id b -> a = b.
Proof.
  induction table as [|c table IH]; simpl; [contradiction|].
  intros Hnd Ha Hb Hid. apply NoDup_cons in Hnd as [Hnotin Hnd].
  destruct Ha as [->|Ha], Hb as [->|Hb]; auto.
  - exfalso. apply Hnotin. rewrite Hid. apply list_elem_of_In. now apply in_map.
  - exfalso. apply Hnotin. rewrite <- Hid. apply list_elem_of_In. now apply in_map.
Qed.

(** In a table with distinct primary keys, the key of a row is the key
    of no row before it and of no row after it. *)
Lemma distinct_ids_around (pre post : list PriceAlert.t) (a : PriceAlert.t) :
  NoDup (map PriceAlert.id (pre ++ a :: post)) ->
  ~ In (PriceAlert.id a) (map PriceAlert.id pre)
  /\ ~ In (PriceAlert.id a) (map PriceAlert.id post).
Proof.
  rewrite map_app. simpl. intros Hnd.
  apply NoDup_app in Hnd as (_ & Hdisjoint & Hnd).
  apply NoDup_cons in Hnd as [Hnotin _]. split.
  - intros Hin. apply (Hdisjoint (PriceAlert.id a)).
    + now apply list_elem_of_In.
    + apply list_elem_of_here.
  - intros Hin. apply Hnotin. now apply list_elem_of_In.
Qed.

Lemma filter_all {A : Type} (f : A -> bool) (l : list A) :
  (forall x, In x l -> f x = true) -> List.filter f l = l.
Proof.
  induction l as [|x l IH]; simpl; [reflexivity|]. intros Hall.
  rewrite (Hall x (or_introl eq_refl)), IH; auto.
Qed.

Lemma filter_none {A : Type} (f : A -> bool) (l : list A) :
  (forall x, In x l -> f x = false) -> List.filter f l = [].
Proof.
  induction l as [|x l IH]; simpl; [reflexivity|]. intros Hall.
  rewrite (Hall x (or_introl eq_refl)), IH; auto.
Qed.

Lemma refers_to_true (i : Z) (log : NotificationLog.t) :
  price_scraper.refers_to i log = true <-> NotificationLog.price_alert_id log = Some i.
Proof. unfold price_scraper.refers_to. apply bool_decide_eq_true. Qed.

Lemma refers_to_false (i : Z) (log : NotificationLog.t) :
  price_scraper.refers_to i log = false <-> NotificationLog.price_alert_id log <> Some i.
Proof. unfold price_scraper.refers_to. apply bool_decide_eq_false. Qed.

(** The passes over a table write no log row for a key that no row of
    the table carries, and make no call for it. *)
Lemma logs_for_absent (w : World) (st : Store) (table : list PriceAlert.t) (i : Z) :
  ~ In i (map PriceAlert.id table) ->
  List.filter (price_scraper.refers_to i)
    (price_scraper.new_logs (price_scraper.for_alerts w st table)) = [].
Proof.
  intros Hnotin. apply filter_none. intros log Hin.
  apply for_alerts_log_origin in Hin as (a & a' & d & Ha & _ & Hc).
  apply check_alert_committed in Hc as (_ & Hid & _).
  apply refers_to_false. intros Hi. apply Hnotin.
  assert (i = PriceAlert.id a) as -> by congruence. now apply in_map.
Qed.

Lemma no_delivery_for_absent (w : World) (st : Store) (table : list PriceAlert.t)
  (i : Z) (d : delivery) :
  ~ In i (map PriceAlert.id table) ->
  ~ In (i, d) (price_scraper.deliveries (price_scraper.for_alerts w st table)).
Proof.
  intros Hnotin Hin.
  apply for_alerts_delivery_origin in Hin as (a & Ha & _ & Hid & _).
  apply Hnotin. rewrite <- Hid. now apply in_map.
Qed.

(** [check_and_trigger_alerts] returns normally, whatever happens. *)
Lemma check_and_trigger_alerts_returns (w : World) (st : Store) :
  price_scraper.returned (price_scraper.check_and_trigger_alerts w st) = Ok tt.
Proof.
  unfold price_scraper.check_and_trigger_alerts.
  destruct (price_scraper.returned (price_scraper.check_and_trigger_alerts_try w st))
    as [[]|exc] eqn:Hr; [exact Hr|reflexivity].
Qed.

(** The store and the deliveries of a cycle, when the query went through. *)
Lemma check_and_trigger_alerts_effects (w : World) (st : Store) :
  query_raises w = None ->
  let c := price_scraper.for_alerts w st (price_alerts st) in
  let p := price_scraper.check_and_trigger_alerts w st in
  price_alerts (price_scraper.store_after p) = price_scraper.rows c
  /\ notification_logs (price_scraper.store_after p)
     = (notification_logs st ++ price_scraper.new_logs c)%list
  /\ telegram_configs (price_scraper.store_after p) = telegram_configs st
  /\ price_scraper.sent p = price_scraper.deliveries c
  /\ price_scraper.error_logged p
     = match price_scraper.raised c with
       | Some exc => Some ("Error checking price alerts: " ++ exc)
       | None => None
       end.
Proof.
  intros Hq. unfold price_scraper.check_and_trigger_alerts,
    price_scraper.check_and_trigger_alerts_try. rewrite Hq. simpl.
  destruct (price_scraper.raised _); simpl; auto.
Qed.

(** When the query itself raises, the cycle does nothing. *)
Lemma check_and_trigger_alerts_query_fault (w : World) (st : Store) (exc : string) :
  query_raises w = Some exc ->
  let p := price_scraper.check_and_trigger_alerts w st in
  price_scraper.store_after p = st /\ price_scraper.sent p = [].
Proof.
  intros Hq. unfold price_scraper.check_and_trigger_alerts,
    price_scraper.check_and_trigger_alerts_try. rewrite Hq. simpl. auto.
Qed.

(** A cycle whose query goes through and in which no pass before the
    one for the active row [a] raises comes to that pass; what the cycle
    leaves behind is then made of what the passes before it did, of what
    that pass does and, unless it raises, of what the passes after it
    do. *)
Lemma cycle_reaches (w : World) (st : Store) (pre post : list PriceAlert.t)
  (a : PriceAlert.t) :
  query_raises w = None ->
  price_alerts st = (pre ++ a :: post)%list ->
  price_scraper.raised (price_scraper.for_alerts w st pre) = None ->
  PriceAlert.is_active a = true ->
  let p := price_scraper.check_and_trigger_alerts w st in
  let c := price_scraper.for_alerts w st pre in
  let c' := price_scraper.for_alerts w st post in
  match price_scraper.check_alert w st a with
  | price_scraper.Continue =>
      price_alerts (price_scraper.store_after p)
      = (price_scraper.rows c ++ a :: price_scraper.rows c')%list
      /\ notification_logs (price_scraper.store_after p)
         = (notification_logs st ++ price_scraper.new_logs c ++ price_scraper.new_logs c')%list
      /\ price_scraper.sent p
         = (price_scraper.deliveries c ++ price_scraper.deliveries c')%list
  | price_scraper.Committed a' log d =>
      price_alerts (price_scraper.store_after p)
      = (price_scraper.rows c ++ a' :: price_scraper.rows c')%list
      /\ notification_logs (price_scraper.store_after p)
         = (notification_logs st ++ price_scraper.new_logs c
            ++ log :: price_scraper.new_logs c')%list
      /\ price_scraper.sent p
         = (price_scraper.deliveries c
            ++ (PriceAlert.id a, d) :: price_scraper.deliveries c')%list
  | price_scraper.Raised exc ds =>
      price_alerts (price_scraper.store_after p) = (price_scraper.rows c ++ a :: post)%list
      /\ notification_logs (price_scraper.store_after p)
         = (notification_logs st ++ price_scraper.new_logs c)%list
      /\ price_scraper.sent p
         = (price_scraper.deliveries c ++ map (pair (PriceAlert.id a)) ds)%list
      /\ price_scraper.error_logged p = Some ("Error checking price alerts: " ++ exc)
  end.
Proof.
  intros Hq Htable Hpre Hact p c c'.
  destruct (check_and_trigger_alerts_effects w st Hq) as (Hrows & Hlogs & _ & Hsent & Herr).
  fold p in Hrows, Hlogs, Hsent, Herr.
  rewrite Hrows, Hlogs, Hsent, Herr, Htable, (for_alerts_app w st pre (a :: post) Hpre).
  simpl. rewrite Hact. fold c c'.
  destruct (price_scraper.check_alert w st a) as [|a' log d|exc ds]; simpl;
    rewrite ?app_nil_r; auto.
Qed.

(** A cycle leaves alone a row whose pass ends with [continue]: the row
    stays as it is, nothing is sent for it and no log row refers to it. *)
Lemma cycle_skips_row (w : World) (st : Store) (a : PriceAlert.t) :
  NoDup (map PriceAlert.id (price_alerts st)) ->
  In a (price_alerts st) ->
  price_scraper.check_alert w st a = price_scraper.Continue ->
  let p := price_scraper.check_and_trigger_alerts w st in
  In a (price_alerts (price_scraper.store_after p))
  /\ map PriceAlert.id (price_alerts (price_scraper.store_after p))
     = map PriceAlert.id (price_alerts st)
  /\ (forall d, ~ In (PriceAlert.id a, d) (price_scraper.sent p))
  /\ (exists added,
        notification_logs (price_scraper.store_after p)
        = (notification_logs st ++ added)%list
        /\ forall log, In log added ->
             NotificationLog.price_alert_id log <> Some (PriceAlert.id a)).
Proof.
  intros Hnd Hin Hcont p. subst p.
  destruct (query_raises w) as [exc|] eqn:Hq.
  - destruct (check_and_trigger_alerts_query_fault w st exc Hq) as [-> ->].
    repeat split; auto. exists []. split; [now rewrite app_nil_r|contradiction].
  - destruct (check_and_trigger_alerts_effects w st Hq) as (-> & -> & _ & -> & _).
    split; [now apply for_alerts_keeps_row|].
    split; [apply for_alerts_ids|]. split.
    + intros d Hd. apply for_alerts_delivery_origin in Hd as (b & Hb & _ & Hid & Hf).
      assert (b = a) as -> by (eapply same_id_same_row; eauto).
      rewrite Hcont in Hf. discriminate.
    + eexists. split; [reflexivity|]. intros log Hlog Hid.
      apply for_alerts_log_origin in Hlog as (b & b' & d & Hb & _ & Hc).
      apply check_alert_committed in Hc as Hfacts.
      destruct Hfacts as (_ & Hid' & _).
      assert (b = a) as -> by (eapply same_id_same_row; eauto; congruence).
      congruence.
Qed.

(** The primary keys of the price alerts are not touched by a cycle. *)
Lemma cycle_keeps_ids (w : World) (st : Store) :
  map PriceAlert.id
    (price_alerts (price_scraper.store_after (price_scraper.check_and_trigger_alerts w st)))
  = map PriceAlert.id (price_alerts st).
Proof.
  destruct (query_raises w) as [exc|] eqn:Hq.
  - now destruct (check_and_trigger_alerts_query_fault w st exc Hq) as [-> _].
  - destruct (check_and_trigger_alerts_effects w st Hq) as (-> & _).
    apply for_alerts_ids.
Qed.

(** C8. When no price is available for the symbol of an alert, a poll
    cycle passes the alert by: the call returns normally, nothing is
    sent for the alert, none of the log rows that the cycle adds refers
    to it, and its row stays as it is. *)
Theorem unpriced_alert_is_skipped (w : World) (st : Store) (a : PriceAlert.t) :
  NoDup (map PriceAlert.id (price_alerts st)) ->
  In a (price_alerts st) ->
  PriceAlert.is_active a = true ->
  price_scraper.get_price_data w (PriceAlert.symbol a) = None ->
  let p := price_scraper.check_and_trigger_alerts w st in
  price_scraper.returned p = Ok tt
  /\ (forall d, ~ In (PriceAlert.id a, d) (price_scraper.sent p))
  /\ (exists added,
        notification_logs (price_scraper.store_after p)
        = (notification_logs st ++ added)%list
        /\ forall log, In log added ->
             NotificationLog.price_alert_id log <> Some (PriceAlert.id a))
  /\ In a (price_alerts (price_scraper.store_after p)).
Proof.
  intros Hnd Hin _ Hprice p.
  destruct (cycle_skips_row w st a Hnd Hin (check_alert_skips_unpriced w st a Hprice))
    as (Hrow & _ & Hsent & Hlogs).
  split; [apply check_and_trigger_alerts_returns|]. auto.
Qed.

End Poller.

Lemma unpriced_alert_is_skipped_witness :
  let a := examples.price_alert 1 "above" 100 false false in
  let b := examples.price_alert 2 "below" 100 false false in
  let st := examples.store true [] [a; b] in
  let p := price_scraper.check_and_trigger_alerts (H := examples.runtime)
             examples.world_without_prices st in
  price_scraper.returned p = Ok tt
  /\ (forall d, ~ In (PriceAlert.id a, d) (price_scraper.sent p))
  /\ (exists added,
        notification_logs (price_scraper.store_after p)
        = (notification_logs st ++ added)%list
        /\ forall log, In log added ->
             NotificationLog.price_alert_id log <> Some (PriceAlert.id a))
  /\ In a (price_alerts (price_scraper.store_after p)).
Proof.
  intros a b st.
  apply (unpriced_alert_is_skipped (H := examples.runtime)
           examples.world_without_prices st a).
  - vm_compute. apply (bool_decide_unpack _). vm_compute. exact I.
  - left. reflexivity.
  - reflexivity.
  - vm_compute. reflexivity.
Defined.

(** ** Faults inside the loop *)

Section Faults.
Context `{PyRuntime}.

(** C4, as the code has it. The only handler is around the whole loop:
    when the pass for an active alert raises, and no pass before it did,
    the call still returns normally and its handler logs the error; what
    the earlier passes committed and sent stays; of the failing pass
    nothing is written (the row of the alert is left as it was and no
    log row is added for it), while the calls to Telegram that it had
    made before it raised stay made; and the cycle ends there: the rows
    after the failing one are left as they were, and nothing is sent or
    logged for them. *)
Theorem fault_ends_cycle (w : World) (st : Store) (pre post : list PriceAlert.t)
  (a : PriceAlert.t) (exc : string) (ds : list delivery) :
  query_raises w = None ->
  price_alerts st = (pre ++ a :: post)%list ->
  price_scraper.raised (price_scraper.for_alerts w st pre) = None ->
  PriceAlert.is_active a = true ->
  price_scraper.check_alert w st a = price_scraper.Raised exc ds ->
  let p := price_scraper.check_and_trigger_alerts w st in
  let c := price_scraper.for_alerts w st pre in
  price_scraper.returned p = Ok tt
  /\ price_scraper.error_logged p = Some ("Error checking price alerts: " ++ exc)
  /\ price_alerts (price_scraper.store_after p)
     = (price_scraper.rows c ++ a :: post)%list
  /\ notification_logs (price_scraper.store_after p)
     = (notification_logs st ++ price_scraper.new_logs c)%list
  /\ price_scraper.sent p
     = (price_scraper.deliveries c ++ map (pair (PriceAlert.id a)) ds)%list.
Proof.
  intros Hq Htable Hpre Hact Hraise p c.
  split; [apply check_and_trigger_alerts_returns|].
  pose proof (cycle_reaches w st pre post a Hq Htable Hpre Hact) as Hcycle.
  rewrite Hraise in Hcycle. cbv zeta in Hcycle.
  destruct Hcycle as (Hrows & Hlogs & Hsent & Herr). auto.
Qed.

End Faults.

Lemma fault_ends_cycle_witness :
  let a1 := examples.price_alert 1 "above" 100 false false in
  let a2 := examples.price_alert 2 "above" 100 false false in
  let w := examples.world_commit_fails 101 1 in
  let st := examples.store true [] [a1; a2] in
  let p := price_scraper.check_and_trigger_alerts (H := examples.runtime) w st in
  let c := price_scraper.for_alerts (H := examples.runtime) w st [] in
  let d := {| to_bot := "TOKEN"; to_chat := "42";
              text_sent := price_scraper.format_message (H := examples.runtime) a1
                             (examples.float_of_pos 101);
              delivered := true |} in
  price_scraper.returned p = Ok tt
  /\ price_scraper.error_logged p
     = Some ("Error checking price alerts: " ++ "OperationalError: database is locked")
  /\ price_alerts (price_scraper.store_after p)
     = (price_scraper.rows c ++ a1 :: [a2])%list
  /\ notification_logs (price_scraper.store_after p)
     = (notification_logs st ++ price_scraper.new_logs c)%list
  /\ price_scraper.sent p
     = (price_scraper.deliveries c ++ map (pair (PriceAlert.id a1)) [d])%list.
Proof.
  intros a1 a2 w st p c d.
  apply (fault_ends_cycle (H := examples.runtime) w st [] [a2] a1
           "OperationalError: database is locked" [d]);
    vm_compute; reflexivity.
Defined.

(** C4 as stated fails: the commit for the first alert raises, and the
    second alert, whose own pass would trigger and commit, is not
    processed in that cycle. *)
Lemma fault_in_one_alert_stops_the_next :
  let a1 := examples.price_alert 1 "above" 100 false false in
  let a2 := examples.price_alert 2 "above" 100 false false in
  let w := examples.world_commit_fails 101 1 in
  let st := examples.store true [] [a1; a2] in
  let p := price_scraper.check_and_trigger_alerts (H := examples.runtime) w st in
  (exists ds, price_scraper.check_alert (H := examples.runtime) w st a1
              = price_scraper.Raised "OperationalError: database is locked" ds)
  /\ (exists a' log d, price_scraper.check_alert (H := examples.runtime) w st a2
                       = price_scraper.Committed a' log d)
  /\ (forall d, ~ In (PriceAlert.id a2, d) (price_scraper.sent p))
  /\ notification_logs (price_scraper.store_after p) = [].
Proof.
  intros a1 a2 w st p. split; [|split; [|split]].
  - eexists. vm_compute. reflexivity.
  - do 3 eexists. vm_compute. reflexivity.
  - intros d Hin. vm_compute in Hin. destruct Hin as [Heq|[]]. discriminate Heq.
  - vm_compute. reflexivity.
Qed.

(** ** One-time and repeating alerts *)

Section Repetition.
Context `{PyRuntime}.

(** A one-time alert that has fired is passed by in every later cycle:
    however many cycles run and whatever the worlds they run in, its row
    stays as it is, nothing is sent for it and no new log row refers to
    it. *)
Lemma consumed_alert_stays_silent (ws : list World) (st : Store) (a : PriceAlert.t) :
  NoDup (map PriceAlert.id (price_alerts st)) ->
  In a (price_alerts st) ->
  PriceAlert.is_one_time a = true ->
  PriceAlert.is_triggered a = true ->
  let r := price_scraper.run_checker ws st in
  In a (price_alerts (fst r))
  /\ (forall d, ~ In (PriceAlert.id a, d) (snd r))
  /\ (exists added,
        notification_logs (fst r) = (notification_logs st ++ added)%list
        /\ forall log, In log added ->
             NotificationLog.price_alert_id log <> Some (PriceAlert.id a)).
Proof.
  intros Hnd Hin Hone Htrig. revert st Hnd Hin.
  induction ws as [|w ws IH]; intros st Hnd Hin; simpl.
  - repeat split; auto. exists []. split; [now rewrite app_nil_r|contradiction].
  - destruct (cycle_skips_row w st a Hnd Hin (check_alert_skips_consumed w st a Hone Htrig))
      as (Hrow & Hids & Hsent & added & Hlogs & Hadded).
    rewrite <- Hids in Hnd.
    specialize (IH _ Hnd Hrow).
    destruct (price_scraper.run_checker ws _) as [st' ds] eqn:Hrun. simpl in *.
    destruct IH as (Hrow' & Hsent' & added' & Hlogs' & Hadded').
    split; [exact Hrow'|]. split.
    + intros d Hd. apply in_app_or in Hd as [Hd|Hd]; [now apply (Hsent d)|now apply (Hsent' d)].
    + exists (added ++ added')%list. split.
      * now rewrite Hlogs', Hlogs, app_assoc.
      * intros log Hlog. apply in_app_or in Hlog as [Hlog|Hlog]; auto.
Qed.

(** The pass of a cycle for an alert that is not one-time and whose
    condition holds at the price observed goes into the trigger branch,
    provided that the cycle comes to it: the message of the alert is sent
    to its Telegram configuration, whatever the commit does afterwards,
    and its row stays as it is. *)
Lemma repeating_alert_fires_when_reached (w : World) (st : Store)
  (pre post : list PriceAlert.t) (a : PriceAlert.t) (pd : price_scraper.price_data) :
  query_raises w = None ->
  price_alerts st = (pre ++ a :: post)%list ->
  price_scraper.raised (price_scraper.for_alerts w st pre) = None ->
  PriceAlert.is_active a = true ->
  PriceAlert.is_one_time a = false ->
  price_scraper.get_price_data w (PriceAlert.symbol a) = Some pd ->
  price_scraper.alert_triggered a (price_scraper.price pd) = true ->
  let p := price_scraper.check_and_trigger_alerts w st in
  let message := price_scraper.format_message a (price_scraper.price pd) in
  price_scraper.fired (price_scraper.check_alert w st a) = true
  /\ (forall tc,
        telegram_configs st !! PriceAlert.telegram_config_id a = Some tc ->
        In (PriceAlert.id a,
            {| to_bot := TelegramConfig.bot_token tc;
               to_chat := TelegramConfig.chat_id tc;
               text_sent := message;
               delivered :=
                 telegram_bot.success
                   (telegram_bot.send_telegram_message w (TelegramConfig.bot_token tc)
                      (TelegramConfig.chat_id tc) message) |})
           (price_scraper.sent p))
  /\ In a (price_alerts (price_scraper.store_after p)).
Proof.
  intros Hq Htable Hpre Hact Hone Hprice Hcond p message.
  assert (Hguard : PriceAlert.is_one_time a && PriceAlert.is_triggered a = false)
    by now rewrite Hone.
  pose proof (check_alert_fires w st a pd Hguard Hprice Hcond) as Hpass.
  pose proof (cycle_reaches w st pre post a Hq Htable Hpre Hact) as Hcycle.
  cbv zeta in Hpass, Hcycle. fold p message in Hpass, Hcycle.
  rewrite Hone in Hpass.
  split; [|split].
  - rewrite (check_alert_evaluated w st a pd Hguard Hprice). exact Hcond.
  - intros tc Htc. rewrite Htc in Hpass.
    destruct (commit_raises w _) as [exc|]; rewrite Hpass in Hcycle.
    + destruct Hcycle as (_ & _ & -> & _). apply in_or_app. right. now left.
    + destruct Hcycle as (_ & _ & ->). apply in_or_app. right. now left.
  - destruct (telegram_configs st !! PriceAlert.telegram_config_id a) as [tc|].
    + destruct (commit_raises w _) as [exc|]; rewrite Hpass in Hcycle.
      * destruct Hcycle as (-> & _). apply in_or_app. right. now left.
      * destruct Hcycle as (-> & _). apply in_or_app. right. now left.
    + rewrite Hpass in Hcycle. destruct Hcycle as (-> & _).
      apply in_or_app. right. now left.
Qed.

Lemma find_update_first {A : Type} (p : A -> bool) (f : A -> A) (l : list A) :
  (forall x, p x = true -> p (f x) = true) ->
  List.find p (config.update_first p f l) = option_map f (List.find p l).
Proof.
  intros Hp. induction l as [|x l IH]; simpl; [reflexivity|].
  destruct (p x) eqn:Hx; simpl.
  - now rewrite (Hp x Hx).
  - now rewrite Hx.
Qed.

(** The admin action [edit], once committed, clears [is_triggered] and
    [last_triggered_at] when [reset_triggered] is set, and leaves both as
    they were when it is not. *)
Lemma edit_resets_on_request_only (w : World) (st st' : Store) (form : gmap string string)
  (a : PriceAlert.t) :
  config.query_get PriceAlert.id (price_alerts st) (form !! "alert_id") = Some a ->
  config.edit_price_alert w st form = (st', ("Price alert updated successfully", "success")) ->
  exists a',
    config.query_get PriceAlert.id (price_alerts st') (form !! "alert_id") = Some a'
    /\ PriceAlert.id a' = PriceAlert.id a
    /\ (form !! "reset_triggered" = Some "true" ->
        PriceAlert.is_triggered a' = false /\ PriceAlert.last_triggered_at a' = None)
    /\ (form !! "reset_triggered" <> Some "true" ->
        PriceAlert.is_triggered a' = PriceAlert.is_triggered a
        /\ PriceAlert.last_triggered_at a' = PriceAlert.last_triggered_at a).
Proof.
  intros Hget. unfold config.edit_price_alert.
  rewrite Hget.
  destruct (query_raises w); [simpl; intros Heq; discriminate Heq|].
  destruct (form !! "symbol"); [|simpl; intros Heq; discriminate Heq].
  destruct (form !! "target_price") as [tp|]; [|simpl; intros Heq; discriminate Heq].
  destruct (py_float (JStr tp)); [|simpl; intros Heq; discriminate Heq].
  destruct (form !! "name"); [|simpl; intros Heq; discriminate Heq].
  destruct (form !! "alert_type"); [|simpl; intros Heq; discriminate Heq].
  destruct (form !! "telegram_config_id" ≫= py_int); [|simpl; intros Heq; discriminate Heq].
  destruct (form !! "message_template"); [|simpl; intros Heq; discriminate Heq].
  simpl. intros Heq. injection Heq as <-. simpl.
  unfold config.query_get in *.
  destruct (form !! "alert_id" ≫= py_int) as [i|]; [|discriminate]. simpl in *.
  apply find_some in Hget as Hfound. destruct Hfound as [_ Hid].
  apply Z.eqb_eq in Hid. subst i.
  rewrite find_update_first by auto. rewrite Hget. simpl.
  eexists. split; [reflexivity|]. simpl. split; [reflexivity|].
  split; intros Hreset.
  - now rewrite bool_decide_eq_true_2.
  - now rewrite bool_decide_eq_false_2.
Qed.

(** C2, as the code has it. (1) A one-time alert that has fired is
    passed by in every later poll cycle, whatever the prices: its row
    stays as it is, nothing is sent for it and no log row is added for
    it. (2) The committed admin edit clears [is_triggered] and
    [last_triggered_at] when [reset_triggered] is set, and only then.
    (3) An alert that is not one-time triggers in every cycle in which
    its condition holds at the price observed and which comes to it (the
    query of the cycle does not raise and no pass for an alert before it
    raises): its pass goes into the trigger branch, its message is sent
    to its Telegram configuration, and its row stays as it is for the
    next cycle. *)
Theorem one_time_fires_once_and_repeating_every_cycle :
  (forall (ws : list World) (st : Store) (a : PriceAlert.t),
     NoDup (map PriceAlert.id (price_alerts st)) ->
     In a (price_alerts st) ->
     PriceAlert.is_one_time a = true ->
     PriceAlert.is_triggered a = true ->
     let r := price_scraper.run_checker ws st in
     In a (price_alerts (fst r))
     /\ (forall d, ~ In (PriceAlert.id a, d) (snd r))
     /\ (exists added,
           notification_logs (fst r) = (notification_logs st ++ added)%list
           /\ forall log, In log added ->
                NotificationLog.price_alert_id log <> Some (PriceAlert.id a)))
  /\ (forall (w : World) (st st' : Store) (form : gmap string string) (a : PriceAlert.t),
        config.query_get PriceAlert.id (price_alerts st) (form !! "alert_id") = Some a ->
        config.edit_price_alert w st form
        = (st', ("Price alert updated successfully", "success")) ->
        exists a',
          config.query_get PriceAlert.id (price_alerts st') (form !! "alert_id") = Some a'
          /\ PriceAlert.id a' = PriceAlert.id a
          /\ (form !! "reset_triggered" = Some "true" ->
              PriceAlert.is_triggered a' = false /\ PriceAlert.last_triggered_at a' = None)
          /\ (form !! "reset_triggered" <> Some "true" ->
              PriceAlert.is_triggered a' = PriceAlert.is_triggered a
              /\ PriceAlert.last_triggered_at a' = PriceAlert.last_triggered_at a))
  /\ (forall (w : World) (st : Store) (pre post : list PriceAlert.t) (a : PriceAlert.t)
             (pd : price_scraper.price_data),
        query_raises w = None ->
        price_alerts st = (pre ++ a :: post)%list ->
        price_scraper.raised (price_scraper.for_alerts w st pre) = None ->
        PriceAlert.is_active a = true ->
        PriceAlert.is_one_time a = false ->
        price_scraper.get_price_data w (PriceAlert.symbol a) = Some pd ->
        price_scraper.alert_triggered a (price_scraper.price pd) = true ->
        let p := price_scraper.check_and_trigger_alerts w st in
        let message := price_scraper.format_message a (price_scraper.price pd) in
        price_scraper.fired (price_scraper.check_alert w st a) = true
        /\ (forall tc,
              telegram_configs st !! PriceAlert.telegram_config_id a = Some tc ->
              In (PriceAlert.id a,
                  {| to_bot := TelegramConfig.bot_token tc;
                     to_chat := TelegramConfig.chat_id tc;
                     text_sent := message;
                     delivered :=
                       telegram_bot.success
                         (telegram_bot.send_telegram_message w (TelegramConfig.bot_token tc)
                            (TelegramConfig.chat_id tc) message) |})
                 (price_scraper.sent p))
        /\ In a (price_alerts (price_scraper.store_after p))).
Proof.
  split; [|split].
  - exact consumed_alert_stays_silent.
  - exact edit_resets_on_request_only.
  - exact repeating_alert_fires_when_reached.
Qed.

End Repetition.

Lemma one_time_fires_once_and_repeating_every_cycle_witness :
  let consumed := examples.price_alert 1 "above" 100 true true in
  let repeating := examples.price_alert 2 "above" 100 false false in
  let st := examples.store true [] [consumed; repeating] in
  let r := price_scraper.run_checker (H := examples.runtime)
             [examples.world 105 200; examples.world 110 200] st in
  let w := examples.world 101 200 in
  let p := price_scraper.check_and_trigger_alerts (H := examples.runtime) w st in
  let message := price_scraper.format_message (H := examples.runtime) repeating
                   (examples.float_of_pos 101) in
  (In consumed (price_alerts (fst r))
   /\ (forall d, ~ In (PriceAlert.id consumed, d) (snd r))
   /\ (exists added,
         notification_logs (fst r) = (notification_logs st ++ added)%list
         /\ forall log, In log added ->
              NotificationLog.price_alert_id log <> Some (PriceAlert.id consumed)))
  /\ (exists a',
        config.query_get (H := examples.runtime) PriceAlert.id
          (price_alerts (fst (config.edit_price_alert (H := examples.runtime) w st
                                examples.reset_form)))
          (examples.reset_form !! "alert_id") = Some a'
        /\ PriceAlert.id a' = PriceAlert.id consumed
        /\ (examples.reset_form !! "reset_triggered" = Some "true" ->
            PriceAlert.is_triggered a' = false /\ PriceAlert.last_triggered_at a' = None)
        /\ (examples.reset_form !! "reset_triggered" <> Some "true" ->
            PriceAlert.is_triggered a' = PriceAlert.is_triggered consumed
            /\ PriceAlert.last_triggered_at a' = PriceAlert.last_triggered_at consumed))
  /\ (price_scraper.fired (price_scraper.check_alert (H := examples.runtime) w st repeating)
      = true
      /\ (forall tc,
            telegram_configs st !! PriceAlert.telegram_config_id repeating = Some tc ->
            In (PriceAlert.id repeating,
                {| to_bot := TelegramConfig.bot_token tc;
                   to_chat := TelegramConfig.chat_id tc;
                   text_sent := message;
                   delivered :=
                     telegram_bot.success
                       (telegram_bot.send_telegram_message w (TelegramConfig.bot_token tc)
                          (TelegramConfig.chat_id tc) message) |})
               (price_scraper.sent p))
      /\ In repeating (price_alerts (price_scraper.store_after p))).
Proof.
  intros consumed repeating st r w p message.
  destruct (one_time_fires_once_and_repeating_every_cycle (H := examples.runtime))
    as (Honce & Hreset & Hrepeat).
  split; [|split].
  - apply (Honce [examples.world 105 200; examples.world 110 200] st consumed).
    + vm_compute. apply (bool_decide_unpack _). vm_compute. exact I.
    + left. reflexivity.
    + reflexivity.
    + reflexivity.
  - apply (Hreset w st _ examples.reset_form consumed).
    + vm_compute. reflexivity.
    + vm_compute. reflexivity.
  - apply (Hrepeat w st [consumed] [] repeating
             {| price_scraper.pd_symbol := "AAPL";
                price_scraper.price := examples.float_of_pos 101;
                price_scraper.timestamp := "5" |}).
    + reflexivity.
    + reflexivity.
    + vm_compute. reflexivity.
    + reflexivity.
    + reflexivity.
    + vm_compute. reflexivity.
    + vm_compute. reflexivity.
Defined.

(** C2 as stated fails: in each of these cycles an alert that is not
    one-time and whose condition holds at the price observed, 150 above
    100, does not trigger. (1) The commit of the pass for the alert
    before it raises: the cycle ends there, and nothing is sent or logged
    for the alert. (2) The query of the cycle raises: nothing is sent or
    logged. (3) The alert is switched off: the cycle passes it by. *)
Lemma repeating_alert_not_reached_does_not_trigger :
  let a1 := examples.price_alert 1 "below" 200 false false in
  let a2 := examples.price_alert 2 "above" 100 false false in
  let st := examples.store true [] [a1; a2] in
  let holds (w : World) (a : PriceAlert.t) :=
    exists pd,
      price_scraper.get_price_data (H := examples.runtime) w (PriceAlert.symbol a) = Some pd
      /\ price_scraper.alert_triggered a (price_scraper.price pd) = true in
  PriceAlert.is_one_time a2 = false
  /\ (let w := examples.world_commit_fails 150 1 in
      let p := price_scraper.check_and_trigger_alerts (H := examples.runtime) w st in
      holds w a2
      /\ price_scraper.returned p = Ok tt
      /\ (forall d, ~ In (PriceAlert.id a2, d) (price_scraper.sent p))
      /\ notification_logs (price_scraper.store_after p) = [])
  /\ (let w := examples.world_query_fails 150 in
      let p := price_scraper.check_and_trigger_alerts (H := examples.runtime) w st in
      holds w a2
      /\ price_scraper.returned p = Ok tt
      /\ price_scraper.sent p = []
      /\ notification_logs (price_scraper.store_after p) = [])
  /\ (let w := examples.world 150 200 in
      let off := examples.paused a2 in
      let p := price_scraper.check_and_trigger_alerts (H := examples.runtime) w
                 (examples.store true [] [off]) in
      PriceAlert.is_one_time off = false
      /\ holds w off
      /\ price_scraper.returned p = Ok tt
      /\ price_scraper.sent p = []
      /\ notification_logs (price_scraper.store_after p) = []).
Proof.
  intros a1 a2 st holds. split; [reflexivity|]. split; [|split].
  - split; [eexists; split; vm_compute; reflexivity|].
    split; [vm_compute; reflexivity|]. split; [|vm_compute; reflexivity].
    intros d Hin. vm_compute in Hin. destruct Hin as [Heq|[]]. discriminate Heq.
  - split; [eexists; split; vm_compute; reflexivity|].
    repeat split; vm_compute; reflexivity.
  - split; [reflexivity|]. split; [eexists; split; vm_compute; reflexivity|].
    repeat split; vm_compute; reflexivity.
Qed.

Section OneTime.
Context `{PyRuntime}.

(** C10, as the code has it. A poll cycle comes to an active one-time
    alert that has not fired, whose condition holds at the price observed
    and whose Telegram configuration exists: the message is sent. When
    the database accepts the commit of the pass, the alert is marked as
    triggered and stamped with the time of the cycle whatever the gateway
    answered, the log row of the call, whose status records the answer,
    is written, and in no later cycle, whatever the prices, is anything
    sent or logged for the alert. When the database refuses the commit,
    the row of the alert is left as it was. *)
Theorem one_time_alert_consumed_whatever_the_delivery (w : World) (st : Store)
  (pre post : list PriceAlert.t) (a : PriceAlert.t) (pd : price_scraper.price_data)
  (tc : TelegramConfig.t) :
  NoDup (map PriceAlert.id (price_alerts st)) ->
  query_raises w = None ->
  price_alerts st = (pre ++ a :: post)%list ->
  price_scraper.raised (price_scraper.for_alerts w st pre) = None ->
  PriceAlert.is_active a = true ->
  PriceAlert.is_one_time a = true ->
  PriceAlert.is_triggered a = false ->
  price_scraper.get_price_data w (PriceAlert.symbol a) = Some pd ->
  price_scraper.alert_triggered a (price_scraper.price pd) = true ->
  telegram_configs st !! PriceAlert.telegram_config_id a = Some tc ->
  let message := price_scraper.format_message a (price_scraper.price pd) in
  let result :=
    telegram_bot.send_telegram_message w (TelegramConfig.bot_token tc)
      (TelegramConfig.chat_id tc) message in
  let log := price_scraper.notification_log w a pd message result in
  let p := price_scraper.check_and_trigger_alerts w st in
  let a' := price_scraper.mark_triggered w a in
  In (PriceAlert.id a,
      {| to_bot := TelegramConfig.bot_token tc;
         to_chat := TelegramConfig.chat_id tc;
         text_sent := message;
         delivered := telegram_bot.success result |})
     (price_scraper.sent p)
  /\ map PriceAlert.id (price_alerts (price_scraper.store_after p))
     = map PriceAlert.id (price_alerts st)
  /\ (commit_raises w log = None ->
      In a' (price_alerts (price_scraper.store_after p))
      /\ PriceAlert.id a' = PriceAlert.id a
      /\ PriceAlert.is_triggered a' = true
      /\ PriceAlert.last_triggered_at a' = Some (utcnow w)
      /\ In log (notification_logs (price_scraper.store_after p))
      /\ NotificationLog.price_alert_id log = Some (PriceAlert.id a)
      /\ NotificationLog.status log
         = (if telegram_bot.success result then "success" else "failed")
      /\ forall ws : list World,
           let r := price_scraper.run_checker ws (price_scraper.store_after p) in
           In a' (price_alerts (fst r))
           /\ (forall d, ~ In (PriceAlert.id a, d) (snd r))
           /\ (exists added,
                 notification_logs (fst r)
                 = (notification_logs (price_scraper.store_after p) ++ added)%list
                 /\ forall log', In log' added ->
                      NotificationLog.price_alert_id log' <> Some (PriceAlert.id a)))
  /\ (commit_raises w log <> None ->
      In a (price_alerts (price_scraper.store_after p))).
Proof.
  intros Hnd Hq Htable Hpre Hact Hone Htrig Hprice Hcond Htc message result log p a'.
  assert (Hguard : PriceAlert.is_one_time a && PriceAlert.is_triggered a = false)
    by now rewrite Hone, Htrig.
  pose proof (check_alert_fires w st a pd Hguard Hprice Hcond) as Hpass.
  pose proof (cycle_reaches w st pre post a Hq Htable Hpre Hact) as Hcycle.
  pose proof (cycle_keeps_ids w st) as Hids. fold p in Hids.
  cbv zeta in Hpass, Hcycle. rewrite Htc in Hpass.
  fold message result log in Hpass. rewrite Hone in Hpass. fold p a' in Hcycle, Hpass.
  destruct (commit_raises w log) as [exc|] eqn:Hcommit; rewrite Hpass in Hcycle.
  - destruct Hcycle as (Hrows & _ & Hsent & _).
    split; [rewrite Hsent; apply in_or_app; right; now left|].
    split; [exact Hids|]. split; [discriminate|]. intros _.
    rewrite Hrows. apply in_or_app. right. now left.
  - destruct Hcycle as (Hrows & Hlogs & Hsent).
    assert (Hin : In a' (price_alerts (price_scraper.store_after p)))
      by (rewrite Hrows; apply in_or_app; right; now left).
    split; [rewrite Hsent; apply in_or_app; right; now left|].
    split; [exact Hids|]. split; [|intros Hne; now destruct Hne]. intros _.
    split; [exact Hin|].
    split; [reflexivity|]. split; [reflexivity|]. split; [reflexivity|].
    split; [rewrite Hlogs; apply in_or_app; right; apply in_or_app; right; now left|].
    split; [reflexivity|]. split; [reflexivity|].
    intros ws.
    apply (consumed_alert_stays_silent ws (price_scraper.store_after p) a').
    + now rewrite Hids.
    + exact Hin.
    + exact Hone.
    + reflexivity.
Qed.

End OneTime.

Lemma one_time_alert_consumed_whatever_the_delivery_witness :
  let a := examples.price_alert 1 "above" 100 true false in
  let st := examples.store true [] [a] in
  let pd := {| price_scraper.pd_symbol := "AAPL";
               price_scraper.price := examples.float_of_pos 101;
               price_scraper.timestamp := "5" |} in
  let message := price_scraper.format_message (H := examples.runtime) a
                   (examples.float_of_pos 101) in
  (let w := examples.world 101 500 in
   let result := telegram_bot.send_telegram_message w "TOKEN" "42" message in
   let log := price_scraper.notification_log (H := examples.runtime) w a pd message result in
   let p := price_scraper.check_and_trigger_alerts (H := examples.runtime) w st in
   let a' := price_scraper.mark_triggered w a in
   telegram_bot.success result = false
   /\ In (PriceAlert.id a,
          {| to_bot := "TOKEN"; to_chat := "42"; text_sent := message; delivered := false |})
         (price_scraper.sent p)
   /\ In a' (price_alerts (price_scraper.store_after p))
   /\ PriceAlert.is_triggered a' = true
   /\ PriceAlert.last_triggered_at a' = Some (utcnow w)
   /\ In log (notification_logs (price_scraper.store_after p))
   /\ NotificationLog.status log = "failed"
   /\ forall ws : list World,
        let r := price_scraper.run_checker (H := examples.runtime) ws
                   (price_scraper.store_after p) in
        In a' (price_alerts (fst r))
        /\ (forall d, ~ In (PriceAlert.id a, d) (snd r))
        /\ (exists added,
              notification_logs (fst r)
              = (notification_logs (price_scraper.store_after p) ++ added)%list
              /\ forall log', In log' added ->
                   NotificationLog.price_alert_id log' <> Some (PriceAlert.id a)))
  /\ (let w := examples.world_commit_fails 101 1 in
      let p := price_scraper.check_and_trigger_alerts (H := examples.runtime) w st in
      In (PriceAlert.id a,
          {| to_bot := "TOKEN"; to_chat := "42"; text_sent := message; delivered := true |})
         (price_scraper.sent p)
      /\ In a (price_alerts (price_scraper.store_after p))).
Proof.
  intros a st pd message. split.
  - intros w result log p a'. split; [vm_compute; reflexivity|].
    destruct (one_time_alert_consumed_whatever_the_delivery (H := examples.runtime) w st
                [] [] a pd (examples.chat true))
      as (Hsent & _ & Hcommitted & _).
    + vm_compute. apply (bool_decide_unpack _). vm_compute. exact I.
    + reflexivity.
    + reflexivity.
    + reflexivity.
    + reflexivity.
    + reflexivity.
    + reflexivity.
    + vm_compute. reflexivity.
    + vm_compute. reflexivity.
    + vm_compute. reflexivity.
    + destruct Hcommitted as (Hrow & _ & Htrig & Hstamp & Hlog & _ & Hstatus & Hlater);
        [reflexivity|].
      split; [exact Hsent|]. split; [exact Hrow|]. split; [exact Htrig|].
      split; [exact Hstamp|]. split; [exact Hlog|]. split; [exact Hstatus|]. exact Hlater.
  - intros w p.
    destruct (one_time_alert_consumed_whatever_the_delivery (H := examples.runtime) w st
                [] [] a pd (examples.chat true))
      as (Hsent & _ & _ & Hrefused).
    + vm_compute. apply (bool_decide_unpack _). vm_compute. exact I.
    + reflexivity.
    + reflexivity.
    + reflexivity.
    + reflexivity.
    + reflexivity.
    + reflexivity.
    + vm_compute. reflexivity.
    + vm_compute. reflexivity.
    + vm_compute. reflexivity.
    + split; [exact Hsent|]. apply Hrefused. vm_compute. discriminate.
Defined.

(** C10 as stated fails: in each of these cycles the condition of a
    one-time alert holds at the price observed, 101 above 100, and the
    cycle leaves the alert as it was, not triggered and not stamped.
    (1) The message is delivered and the database refuses the commit of
    the pass; the alert is delivered again in each of the next cycles,
    with no reset in between. (2) The Telegram configuration of the alert
    is missing: its pass raises, and nothing is sent. (3) The commit of
    the pass for the alert before it raises: the cycle ends there.
    (4) The query of the cycle raises. (5) The alert is switched off.
    (6) The alert has fired before, at the time 3: the cycle, at the
    time 7, passes it by and its stamp stays as it was. *)
Lemma one_time_alert_left_armed :
  let a := examples.price_alert 1 "above" 100 true false in
  let b := examples.price_alert 2 "above" 100 true false in
  let holds (w : World) (a : PriceAlert.t) :=
    exists pd,
      price_scraper.get_price_data (H := examples.runtime) w (PriceAlert.symbol a) = Some pd
      /\ price_scraper.alert_triggered a (price_scraper.price pd) = true in
  PriceAlert.is_one_time a = true
  /\ PriceAlert.is_one_time b = true
  /\ (let w := examples.world_commit_fails 101 1 in
      let st := examples.store true [] [a] in
      let p := price_scraper.check_and_trigger_alerts (H := examples.runtime) w st in
      let r := price_scraper.run_checker (H := examples.runtime) [w; w; w] st in
      holds w a
      /\ map (fun e => (fst e, delivered (snd e))) (price_scraper.sent p) = [(1%Z, true)]
      /\ price_scraper.store_after p = st
      /\ map (fun e => (fst e, delivered (snd e))) (snd r)
         = [(1%Z, true); (1%Z, true); (1%Z, true)]
      /\ fst r = st)
  /\ (let w := examples.world 101 200 in
      let st := examples.store_without_chat [] [a] in
      let p := price_scraper.check_and_trigger_alerts (H := examples.runtime) w st in
      holds w a
      /\ price_scraper.sent p = []
      /\ price_scraper.store_after p = st)
  /\ (let w := examples.world_commit_fails 101 1 in
      let st := examples.store true [] [a; b] in
      let p := price_scraper.check_and_trigger_alerts (H := examples.runtime) w st in
      holds w b
      /\ (forall d, ~ In (PriceAlert.id b, d) (price_scraper.sent p))
      /\ price_scraper.store_after p = st)
  /\ (let w := examples.world_query_fails 101 in
      let st := examples.store true [] [a] in
      let p := price_scraper.check_and_trigger_alerts (H := examples.runtime) w st in
      holds w a
      /\ price_scraper.sent p = []
      /\ price_scraper.store_after p = st)
  /\ (let w := examples.world 101 200 in
      let off := examples.paused a in
      let st := examples.store true [] [off] in
      let p := price_scraper.check_and_trigger_alerts (H := examples.runtime) w st in
      PriceAlert.is_one_time off = true
      /\ holds w off
      /\ price_scraper.sent p = []
      /\ price_scraper.store_after p = st)
  /\ (let w := examples.world 101 200 in
      let fired := examples.price_alert 1 "above" 100 true true in
      let st := examples.store true [] [fired] in
      let p := price_scraper.check_and_trigger_alerts (H := examples.runtime) w st in
      PriceAlert.is_one_time fired = true
      /\ holds w fired
      /\ utcnow w = 7%Z
      /\ price_scraper.sent p = []
      /\ map PriceAlert.last_triggered_at (price_alerts (price_scraper.store_after p))
         = [Some 3%Z]).
Proof.
  intros a b holds.
  assert (Hholds : forall w a,
            (exists pd,
               price_scraper.get_price_data (H := examples.runtime) w (PriceAlert.symbol a)
               = Some pd
               /\ price_scraper.alert_triggered a (price_scraper.price pd) = true)
            -> holds w a) by (intros w0 a0 Hex; exact Hex).
  split; [reflexivity|]. split; [reflexivity|].
  split; [|split; [|split; [|split; [|split]]]].
  - split; [apply Hholds; eexists; split; vm_compute; reflexivity|].
    repeat split; vm_compute; reflexivity.
  - split; [apply Hholds; eexists; split; vm_compute; reflexivity|].
    repeat split; vm_compute; reflexivity.
  - split; [apply Hholds; eexists; split; vm_compute; reflexivity|].
    split; [|vm_compute; reflexivity].
    intros d Hin. vm_compute in Hin. destruct Hin as [Heq|[]]. discriminate Heq.
  - split; [apply Hholds; eexists; split; vm_compute; reflexivity|].
    repeat split; vm_compute; reflexivity.
  - split; [reflexivity|].
    split; [apply Hholds; eexists; split; vm_compute; reflexivity|].
    repeat split; vm_compute; reflexivity.
  - split; [reflexivity|].
    split; [apply Hholds; eexists; split; vm_compute; reflexivity|].
    repeat split; vm_compute; reflexivity.
Qed.

(** ** The Notification Log *)

Section Logging.
Context `{PyRuntime}.

(** Reading the payload fails only when there is no truthy JSON body and
    the body cannot be decoded; the text that the log row of an error
    keeps cannot be read then either. *)
Lemma unreadable_payload (req : webhook.Request) (exc : string) :
  webhook.parse_payload req = Raise exc -> webhook.error_payload req = Raise exc.
Proof.
  unfold webhook.parse_payload, webhook.error_payload, webhook.loads.
  destruct (truthy (webhook.get_json req)); [discriminate|].
  destruct (webhook.data_decode req) as [body|e]; simpl.
  - destruct (json_loads body); intros Heq; discriminate Heq.
  - intros Heq. injection Heq as ->. reflexivity.
Qed.

(** A webhook request whose key resolves to a configuration whose
    Telegram configuration is active and whose payload is read makes one
    call to Telegram; when the database accepts the commit, the one log
    row added refers to the configuration and has the status of the
    call; when it refuses it, no log row is added. *)
Lemma webhook_dispatch_logs_once (w : World) (st : Store) (webhook_key : string)
  (req : webhook.Request) (alert_config : TradingViewAlert.t)
  (tc : TelegramConfig.t) (payload : json) :
  query_raises w = None ->
  webhook.find_alert_config st webhook_key = Some alert_config ->
  telegram_configs st !! TradingViewAlert.telegram_config_id alert_config = Some tc ->
  TelegramConfig.is_active tc = true ->
  webhook.parse_payload req = Ok payload ->
  let h := webhook.receive_alert w st webhook_key req in
  let message := webhook.render alert_config payload in
  let result :=
    telegram_bot.send_telegram_message w (TelegramConfig.bot_token tc)
      (TelegramConfig.chat_id tc) message in
  let log := webhook.notification_log w alert_config payload message result in
  map delivered (webhook.sent h) = [telegram_bot.success result]
  /\ (commit_raises w log = None ->
      notification_logs (webhook.store_after h) = (notification_logs st ++ [log])%list
      /\ NotificationLog.alert_id log = Some (TradingViewAlert.id alert_config)
      /\ NotificationLog.status log
         = (if telegram_bot.success result then "success" else "failed"))
  /\ (commit_raises w log <> None ->
      notification_logs (webhook.store_after h) = notification_logs st
      /\ webhook.code (webhook.response h) = 500%Z).
Proof.
  intros Hq Hfind Htc Hact Hparse h message result log. subst h.
  unfold webhook.receive_alert, webhook.receive_alert_try.
  rewrite Hq, Hfind, Htc, Hact, Hparse. cbv zeta. cbn [negb].
  fold message result log.
  destruct (commit_raises w log) as [exc|] eqn:Hcommit.
  - cbn [webhook.sent webhook.store_after webhook.response webhook.code map delivered].
    split; [reflexivity|]. split; [discriminate|]. intros _.
    split; [|reflexivity].
    unfold webhook.log_error.
    destruct (webhook.error_payload req); reflexivity.
  - cbn [webhook.sent webhook.store_after webhook.response webhook.code map delivered].
    split; [reflexivity|]. split; [|intros Hne; now destruct Hne].
    intros _. repeat split; reflexivity.
Qed.

(** A webhook request whose key resolves and that goes no further: the
    Telegram configuration is switched off, or the payload cannot be
    read. Nothing is sent and no log row is added. *)
Lemma webhook_dispatch_stopped (w : World) (st : Store) (webhook_key : string)
  (req : webhook.Request) (alert_config : TradingViewAlert.t) (tc : TelegramConfig.t) :
  query_raises w = None ->
  webhook.find_alert_config st webhook_key = Some alert_config ->
  telegram_configs st !! TradingViewAlert.telegram_config_id alert_config = Some tc ->
  let h := webhook.receive_alert w st webhook_key req in
  (TelegramConfig.is_active tc = false ->
   webhook.code (webhook.response h) = 400%Z
   /\ webhook.sent h = []
   /\ notification_logs (webhook.store_after h) = notification_logs st)
  /\ (forall exc,
        TelegramConfig.is_active tc = true ->
        webhook.parse_payload req = Raise exc ->
        webhook.code (webhook.response h) = 500%Z
        /\ webhook.sent h = []
        /\ notification_logs (webhook.store_after h) = notification_logs st).
Proof.
  intros Hq Hfind Htc h. subst h.
  unfold webhook.receive_alert, webhook.receive_alert_try.
  rewrite Hq, Hfind, Htc. split.
  - intros ->. simpl. auto.
  - intros exc -> Hparse. rewrite Hparse. simpl.
    unfold webhook.log_error. rewrite (unreadable_payload req exc Hparse). auto.
Qed.

(** A webhook request whose key resolves to a configuration whose
    Telegram configuration is missing raises before anything is sent;
    its handler logs the error with one row, which refers to the
    configuration and has status "failed", when the text of the request
    can be read and the database accepts the commit of that row, and
    with none otherwise. *)
Lemma webhook_dispatch_without_chat (w : World) (st : Store) (webhook_key : string)
  (req : webhook.Request) (alert_config : TradingViewAlert.t) :
  query_raises w = None ->
  webhook.find_alert_config st webhook_key = Some alert_config ->
  telegram_configs st !! TradingViewAlert.telegram_config_id alert_config = None ->
  let h := webhook.receive_alert w st webhook_key req in
  webhook.sent h = []
  /\ exists exc,
       (forall text,
          webhook.error_payload req = Ok text ->
          let log := webhook.error_log w exc (Some alert_config) text in
          NotificationLog.alert_id log = Some (TradingViewAlert.id alert_config)
          /\ NotificationLog.status log = "failed"
          /\ (commit_raises w log = None ->
              notification_logs (webhook.store_after h)
              = (notification_logs st ++ [log])%list)
          /\ (commit_raises w log <> None ->
              notification_logs (webhook.store_after h) = notification_logs st))
       /\ (forall e,
             webhook.error_payload req = Raise e ->
             notification_logs (webhook.store_after h) = notification_logs st).
Proof.
  intros Hq Hfind Htc h. subst h.
  unfold webhook.receive_alert, webhook.receive_alert_try.
  rewrite Hq, Hfind, Htc.
  cbn [webhook.sent webhook.store_after]. split; [reflexivity|].
  exists "'NoneType' object has no attribute 'is_active'".
  unfold webhook.log_error. split.
  - intros text ->. cbv zeta. cbn [mbind outcome_bind bind_outcome].
    split; [reflexivity|]. split; [reflexivity|].
    destruct (commit_raises w _) as [exc'|]; simpl.
    + split; [discriminate|reflexivity].
    + split; [reflexivity|intros Hne; now destruct Hne].
  - intros e ->. reflexivity.
Qed.

(** A price alert that triggers in a poll cycle: the cycle comes to the
    alert, its pass is not skipped and its condition holds at the price
    observed. With a Telegram configuration the message is sent, and the
    log rows that the cycle adds for the alert are the one row of that
    call, with its status, when the database accepts the commit of the
    pass, and none when it refuses it; without a Telegram configuration
    nothing is sent and no log row is added for the alert. *)
Lemma triggered_alert_logs_once (w : World) (st : Store) (pre post : list PriceAlert.t)
  (a : PriceAlert.t) (pd : price_scraper.price_data) :
  NoDup (map PriceAlert.id (price_alerts st)) ->
  query_raises w = None ->
  price_alerts st = (pre ++ a :: post)%list ->
  price_scraper.raised (price_scraper.for_alerts w st pre) = None ->
  PriceAlert.is_active a = true ->
  PriceAlert.is_one_time a && PriceAlert.is_triggered a = false ->
  price_scraper.get_price_data w (PriceAlert.symbol a) = Some pd ->
  price_scraper.alert_triggered a (price_scraper.price pd) = true ->
  let p := price_scraper.check_and_trigger_alerts w st in
  let message := price_scraper.format_message a (price_scraper.price pd) in
  exists added,
    notification_logs (price_scraper.store_after p) = (notification_logs st ++ added)%list
    /\ (forall tc,
          telegram_configs st !! PriceAlert.telegram_config_id a = Some tc ->
          let result :=
            telegram_bot.send_telegram_message w (TelegramConfig.bot_token tc)
              (TelegramConfig.chat_id tc) message in
          let log := price_scraper.notification_log w a pd message result in
          In (PriceAlert.id a,
              {| to_bot := TelegramConfig.bot_token tc;
                 to_chat := TelegramConfig.chat_id tc;
                 text_sent := message;
                 delivered := telegram_bot.success result |})
             (price_scraper.sent p)
          /\ NotificationLog.price_alert_id log = Some (PriceAlert.id a)
          /\ NotificationLog.status log
             = (if telegram_bot.success result then "success" else "failed")
          /\ (commit_raises w log = None ->
              List.filter (price_scraper.refers_to (PriceAlert.id a)) added = [log])
          /\ (commit_raises w log <> None ->
              List.filter (price_scraper.refers_to (PriceAlert.id a)) added = []))
    /\ (telegram_configs st !! PriceAlert.telegram_config_id a = None ->
        (forall d, ~ In (PriceAlert.id a, d) (price_scraper.sent p))
        /\ List.filter (price_scraper.refers_to (PriceAlert.id a)) added = []).
Proof.
  intros Hnd Hq Htable Hpre Hact Hguard Hprice Hcond p message.
  pose proof (check_alert_fires w st a pd Hguard Hprice Hcond) as Hpass.
  pose proof (cycle_reaches w st pre post a Hq Htable Hpre Hact) as Hcycle.
  rewrite Htable in Hnd. destruct (distinct_ids_around pre post a Hnd) as [Hpre_id Hpost_id].
  pose proof (logs_for_absent w st pre _ Hpre_id) as Hlogs_pre.
  pose proof (logs_for_absent w st post _ Hpost_id) as Hlogs_post.
  cbv zeta in Hpass, Hcycle. fold p message in Hpass, Hcycle.
  destruct (telegram_configs st !! PriceAlert.telegram_config_id a) as [tc|] eqn:Htc.
  - set (result := telegram_bot.send_telegram_message w (TelegramConfig.bot_token tc)
                     (TelegramConfig.chat_id tc) message) in *.
    set (log := price_scraper.notification_log w a pd message result) in *.
    assert (Hrefers : price_scraper.refers_to (PriceAlert.id a) log = true)
      by now apply refers_to_true.
    destruct (commit_raises w log) as [exc|] eqn:Hcommit; rewrite Hpass in Hcycle.
    + destruct Hcycle as (_ & Hlogs & Hsent & _).
      eexists. split; [exact Hlogs|]. split; [|discriminate].
      intros tc' Heq. injection Heq as <-. cbv zeta. fold result log.
      split; [rewrite Hsent; apply in_or_app; right; now left|].
      split; [reflexivity|]. split; [reflexivity|].
      rewrite Hcommit. split; [discriminate|]. intros _. exact Hlogs_pre.
    + destruct Hcycle as (_ & Hlogs & Hsent).
      eexists. split; [exact Hlogs|]. split; [|discriminate].
      intros tc' Heq. injection Heq as <-. cbv zeta. fold result log.
      split; [rewrite Hsent; apply in_or_app; right; now left|].
      split; [reflexivity|]. split; [reflexivity|].
      rewrite Hcommit. split; [|intros Hne; now destruct Hne]. intros _.
      rewrite List.filter_app, Hlogs_pre. simpl. now rewrite Hrefers, Hlogs_post.
  - rewrite Hpass in Hcycle. destruct Hcycle as (_ & Hlogs & Hsent & _).
    eexists. split; [exact Hlogs|]. split; [discriminate|]. intros _. split.
    + intros d. rewrite Hsent. simpl. rewrite app_nil_r.
      now apply no_delivery_for_absent.
    + exact Hlogs_pre.
Qed.

(** C3, as the code has it. A dispatch that resolves a configuration
    produces exactly one log row that refers to that configuration, with
    status "success" when the gateway returned success and "failed"
    otherwise, in these cases and in no other.

    (1) A webhook request whose key resolves: (a) when the Telegram
    configuration is active and the payload is read, one call is made,
    and the row of that call is the one row added if the database
    accepts the commit, while no row is added if it refuses it; (b) when
    the Telegram configuration is switched off the answer is 400, and
    when the payload cannot be read it is 500, with nothing sent and no
    row added; (c) when the Telegram configuration is missing nothing is
    sent, and the handler adds one row, with status "failed", if the
    text of the request can be read and the database accepts the commit
    of that row, and no row otherwise.

    (2) A price alert that triggers in a poll cycle (the cycle comes to
    it, its pass is not skipped and its condition holds at the price
    observed): with a Telegram configuration the message is sent, and
    the rows that the cycle adds for the alert are the one row of that
    call if the database accepts the commit of the pass, and none if it
    refuses it; without a Telegram configuration nothing is sent and no
    row is added for the alert. *)
Theorem dispatch_logs_exactly_once :
  (forall (w : World) (st : Store) (webhook_key : string) (req : webhook.Request)
          (alert_config : TradingViewAlert.t) (tc : TelegramConfig.t) (payload : json),
     query_raises w = None ->
     webhook.find_alert_config st webhook_key = Some alert_config ->
     telegram_configs st !! TradingViewAlert.telegram_config_id alert_config = Some tc ->
     TelegramConfig.is_active tc = true ->
     webhook.parse_payload req = Ok payload ->
     let h := webhook.receive_alert w st webhook_key req in
     let message := webhook.render alert_config payload in
     let result :=
       telegram_bot.send_telegram_message w (TelegramConfig.bot_token tc)
         (TelegramConfig.chat_id tc) message in
     let log := webhook.notification_log w alert_config payload message result in
     map delivered (webhook.sent h) = [telegram_bot.success result]
     /\ (commit_raises w log = None ->
         notification_logs (webhook.store_after h) = (notification_logs st ++ [log])%list
         /\ NotificationLog.alert_id log = Some (TradingViewAlert.id alert_config)
         /\ NotificationLog.status log
            = (if telegram_bot.success result then "success" else "failed"))
     /\ (commit_raises w log <> None ->
         notification_logs (webhook.store_after h) = notification_logs st
         /\ webhook.code (webhook.response h) = 500%Z))
  /\ (forall (w : World) (st : Store) (webhook_key : string) (req : webhook.Request)
             (alert_config : TradingViewAlert.t) (tc : TelegramConfig.t),
        query_raises w = None ->
        webhook.find_alert_config st webhook_key = Some alert_config ->
        telegram_configs st !! TradingViewAlert.telegram_config_id alert_config = Some tc ->
        let h := webhook.receive_alert w st webhook_key req in
        (TelegramConfig.is_active tc = false ->
         webhook.code (webhook.response h) = 400%Z
         /\ webhook.sent h = []
         /\ notification_logs (webhook.store_after h) = notification_logs st)
        /\ (forall exc,
              TelegramConfig.is_active tc = true ->
              webhook.parse_payload req = Raise exc ->
              webhook.code (webhook.response h) = 500%Z
              /\ webhook.sent h = []
              /\ notification_logs (webhook.store_after h) = notification_logs st))
  /\ (forall (w : World) (st : Store) (webhook_key : string) (req : webhook.Request)
             (alert_config : TradingViewAlert.t),
        query_raises w = None ->
        webhook.find_alert_config st webhook_key = Some alert_config ->
        telegram_configs st !! TradingViewAlert.telegram_config_id alert_config = None ->
        let h := webhook.receive_alert w st webhook_key req in
        webhook.sent h = []
        /\ exists exc,
             (forall text,
                webhook.error_payload req = Ok text ->
                let log := webhook.error_log w exc (Some alert_config) text in
                NotificationLog.alert_id log = Some (TradingViewAlert.id alert_config)
                /\ NotificationLog.status log = "failed"
                /\ (commit_raises w log = None ->
                    notification_logs (webhook.store_after h)
                    = (notification_logs st ++ [log])%list)
                /\ (commit_raises w log <> None ->
                    notification_logs (webhook.store_after h) = notification_logs st))
             /\ (forall e,
                   webhook.error_payload req = Raise e ->
                   notification_logs (webhook.store_after h) = notification_logs st))
  /\ (forall (w : World) (st : Store) (pre post : list PriceAlert.t) (a : PriceAlert.t)
             (pd : price_scraper.price_data),
        NoDup (map PriceAlert.id (price_alerts st)) ->
        query_raises w = None ->
        price_alerts st = (pre ++ a :: post)%list ->
        price_scraper.raised (price_scraper.for_alerts w st pre) = None ->
        PriceAlert.is_active a = true ->
        PriceAlert.is_one_time a && PriceAlert.is_triggered a = false ->
        price_scraper.get_price_data w (PriceAlert.symbol a) = Some pd ->
        price_scraper.alert_triggered a (price_scraper.price pd) = true ->
        let p := price_scraper.check_and_trigger_alerts w st in
        let message := price_scraper.format_message a (price_scraper.price pd) in
        exists added,
          notification_logs (price_scraper.store_after p)
          = (notification_logs st ++ added)%list
          /\ (forall tc,
                telegram_configs st !! PriceAlert.telegram_config_id a = Some tc ->
                let result :=
                  telegram_bot.send_telegram_message w (TelegramConfig.bot_token tc)
                    (TelegramConfig.chat_id tc) message in
                let log := price_scraper.notification_log w a pd message result in
                In (PriceAlert.id a,
                    {| to_bot := TelegramConfig.bot_token tc;
                       to_chat := TelegramConfig.chat_id tc;
                       text_sent := message;
                       delivered := telegram_bot.success result |})
                   (price_scraper.sent p)
                /\ NotificationLog.price_alert_id log = Some (PriceAlert.id a)
                /\ NotificationLog.status log
                   = (if telegram_bot.success result then "success" else "failed")
                /\ (commit_raises w log = None ->
                    List.filter (price_scraper.refers_to (PriceAlert.id a)) added = [log])
                /\ (commit_raises w log <> None ->
                    List.filter (price_scraper.refers_to (PriceAlert.id a)) added = []))
          /\ (telegram_configs st !! PriceAlert.telegram_config_id a = None ->
              (forall d, ~ In (PriceAlert.id a, d) (price_scraper.sent p))
              /\ List.filter (price_scraper.refers_to (PriceAlert.id a)) added = [])).
Proof.
  split; [|split; [|split]].
  - exact webhook_dispatch_logs_once.
  - exact webhook_dispatch_stopped.
  - exact webhook_dispatch_without_chat.
  - exact triggered_alert_logs_once.
Qed.

End Logging.

Lemma dispatch_logs_exactly_once_witness :
  let hook := examples.webhook_alert 1 "key" "Alert: $strategy - $ticker - $close" in
  let a := examples.price_alert 1 "below" 100 false false in
  let st := examples.store true [hook] [a] in
  let tc := examples.chat true in
  let posted := examples.request examples.breakout_payload in
  let pd := {| price_scraper.pd_symbol := "AAPL";
               price_scraper.price := examples.float_of_pos 99;
               price_scraper.timestamp := "5" |} in
  let poll_message := price_scraper.format_message (H := examples.runtime) a
                        (examples.float_of_pos 99) in
  (let w := examples.world 99 500 in
   let h := webhook.receive_alert (H := examples.runtime) w st "key" posted in
   let message := webhook.render (H := examples.runtime) hook examples.breakout_payload in
   let result := telegram_bot.send_telegram_message w "TOKEN" "42" message in
   let log := webhook.notification_log (H := examples.runtime) w hook
                examples.breakout_payload message result in
   notification_logs (webhook.store_after h) = (notification_logs st ++ [log])%list
   /\ NotificationLog.alert_id log = Some 1%Z
   /\ NotificationLog.status log = "failed"
   /\ map delivered (webhook.sent h) = [false])
  /\ (let w := examples.world_database_down 99 in
      let h := webhook.receive_alert (H := examples.runtime) w st "key" posted in
      notification_logs (webhook.store_after h) = notification_logs st
      /\ webhook.code (webhook.response h) = 500%Z
      /\ map delivered (webhook.sent h) = [true])
  /\ (let st := examples.store false [hook] [a] in
      let h := webhook.receive_alert (H := examples.runtime) (examples.world 99 200) st "key"
                 posted in
      webhook.code (webhook.response h) = 400%Z
      /\ webhook.sent h = []
      /\ notification_logs (webhook.store_after h) = notification_logs st)
  /\ (let h := webhook.receive_alert (H := examples.runtime) (examples.world 99 200) st "key"
                 examples.undecodable_request in
      webhook.code (webhook.response h) = 500%Z
      /\ webhook.sent h = []
      /\ notification_logs (webhook.store_after h) = notification_logs st)
  /\ (let st := examples.store_without_chat [hook] [a] in
      let w := examples.world 99 200 in
      let h := webhook.receive_alert (H := examples.runtime) w st "key" posted in
      webhook.sent h = []
      /\ exists log,
           notification_logs (webhook.store_after h) = (notification_logs st ++ [log])%list
           /\ NotificationLog.alert_id log = Some 1%Z
           /\ NotificationLog.status log = "failed")
  /\ (let w := examples.world 99 500 in
      let p := price_scraper.check_and_trigger_alerts (H := examples.runtime) w st in
      let result := telegram_bot.send_telegram_message w "TOKEN" "42" poll_message in
      let log := price_scraper.notification_log (H := examples.runtime) w a pd poll_message
                   result in
      exists added,
        notification_logs (price_scraper.store_after p) = (notification_logs st ++ added)%list
        /\ List.filter (price_scraper.refers_to 1) added = [log]
        /\ NotificationLog.status log = "failed"
        /\ In (1%Z, {| to_bot := "TOKEN"; to_chat := "42"; text_sent := poll_message;
                       delivered := false |})
              (price_scraper.sent p))
  /\ (let w := examples.world_commit_fails 99 1 in
      let p := price_scraper.check_and_trigger_alerts (H := examples.runtime) w st in
      exists added,
        notification_logs (price_scraper.store_after p) = (notification_logs st ++ added)%list
        /\ List.filter (price_scraper.refers_to 1) added = []
        /\ In (1%Z, {| to_bot := "TOKEN"; to_chat := "42"; text_sent := poll_message;
                       delivered := true |})
              (price_scraper.sent p))
  /\ (let st := examples.store_without_chat [hook] [a] in
      let w := examples.world 99 200 in
      let p := price_scraper.check_and_trigger_alerts (H := examples.runtime) w st in
      exists added,
        notification_logs (price_scraper.store_after p) = (notification_logs st ++ added)%list
        /\ List.filter (price_scraper.refers_to 1) added = []
        /\ forall d, ~ In (1%Z, d) (price_scraper.sent p)).
Proof.
  intros hook a st tc posted pd poll_message.
  destruct (dispatch_logs_exactly_once (H := examples.runtime))
    as (Hhook & Hstopped & Hmissing & Hpoll).
  split; [|split; [|split; [|split; [|split; [|split; [|split]]]]]].
  - intros w h message result log.
    destruct (Hhook w st "key" posted hook tc examples.breakout_payload)
      as (Hsent & Hlogged & _).
    + reflexivity.
    + vm_compute. reflexivity.
    + vm_compute. reflexivity.
    + reflexivity.
    + vm_compute. reflexivity.
    + destruct Hlogged as (Hlogs & Hid & Hstatus); [reflexivity|].
      split; [exact Hlogs|]. split; [exact Hid|]. split; [exact Hstatus|]. exact Hsent.
  - intros w h.
    destruct (Hhook w st "key" posted hook tc examples.breakout_payload)
      as (Hsent & _ & Hrefused).
    + reflexivity.
    + vm_compute. reflexivity.
    + vm_compute. reflexivity.
    + reflexivity.
    + vm_compute. reflexivity.
    + destruct Hrefused as (Hlogs & Hcode); [vm_compute; discriminate|].
      split; [exact Hlogs|]. split; [exact Hcode|]. exact Hsent.
  - intros st' h.
    destruct (Hstopped (examples.world 99 200) st' "key" posted hook (examples.chat false))
      as (Hoff & _).
    + reflexivity.
    + vm_compute. reflexivity.
    + vm_compute. reflexivity.
    + apply Hoff. reflexivity.
  - intros h.
    destruct (Hstopped (examples.world 99 200) st "key" examples.undecodable_request hook tc)
      as (_ & Hunread).
    + reflexivity.
    + vm_compute. reflexivity.
    + vm_compute. reflexivity.
    + apply (Hunread "'utf-8' codec can't decode byte 0xff"); reflexivity.
  - intros st' w h.
    destruct (Hmissing w st' "key" posted hook) as (Hsent & exc & Htext & _).
    + reflexivity.
    + vm_compute. reflexivity.
    + vm_compute. reflexivity.
    + split; [exact Hsent|].
      destruct (Htext (json_dumps (PyRuntime := examples.runtime) examples.breakout_payload))
        as (Hid & Hstatus & Haccepted & _); [reflexivity|].
      eexists. split; [apply Haccepted; reflexivity|]. split; [exact Hid|exact Hstatus].
  - intros w p result log.
    destruct (Hpoll w st [] [] a pd) as (added & Hlogs & Hchat & _).
    + vm_compute. apply (bool_decide_unpack _). vm_compute. exact I.
    + reflexivity.
    + reflexivity.
    + reflexivity.
    + reflexivity.
    + reflexivity.
    + vm_compute. reflexivity.
    + vm_compute. reflexivity.
    + destruct (Hchat tc) as (Hsent & _ & Hstatus & Hone & _); [vm_compute; reflexivity|].
      exists added. split; [exact Hlogs|].
      split; [apply Hone; reflexivity|]. split; [exact Hstatus|]. exact Hsent.
  - intros w p.
    destruct (Hpoll w st [] [] a pd) as (added & Hlogs & Hchat & _).
    + vm_compute. apply (bool_decide_unpack _). vm_compute. exact I.
    + reflexivity.
    + reflexivity.
    + reflexivity.
    + reflexivity.
    + reflexivity.
    + vm_compute. reflexivity.
    + vm_compute. reflexivity.
    + destruct (Hchat tc) as (Hsent & _ & _ & _ & Hnone); [vm_compute; reflexivity|].
      exists added. split; [exact Hlogs|].
      split; [apply Hnone; vm_compute; discriminate|]. exact Hsent.
  - intros st' w p.
    destruct (Hpoll w st' [] [] a pd) as (added & Hlogs & _ & Hnochat).
    + vm_compute. apply (bool_decide_unpack _). vm_compute. exact I.
    + reflexivity.
    + reflexivity.
    + reflexivity.
    + reflexivity.
    + reflexivity.
    + vm_compute. reflexivity.
    + vm_compute. reflexivity.
    + destruct Hnochat as (Hsent & Hnone); [vm_compute; reflexivity|].
      exists added. split; [exact Hlogs|]. split; [exact Hnone|exact Hsent].
Defined.

(** C3 as stated fails, in each of these dispatches that resolve a
    configuration. (1) The key resolves and the Telegram configuration is
    switched off: the answer is 400 and no log row is written. (2) The
    key resolves and the body cannot be decoded: the answer is 500 and
    no log row is written. (3) The key resolves, the message is
    delivered and the database refuses the commit: no log row is
    written. (4) A price alert triggers and its Telegram configuration is
    missing: nothing is sent and no log row is written. (5) A price alert
    triggers, its message is delivered and the database refuses the
    commit: no log row is written. *)
Lemma dispatch_without_log_row :
  let hook := examples.webhook_alert 1 "key" TradingViewAlert.default_message_template in
  let a := examples.price_alert 1 "above" 100 false false in
  let posted := examples.request examples.breakout_payload in
  (let st := examples.store false [hook] [] in
   let h := webhook.receive_alert (H := examples.runtime) (examples.world 101 200) st "key"
              posted in
   webhook.find_alert_config st "key" = Some hook
   /\ webhook.code (webhook.response h) = 400%Z
   /\ webhook.sent h = []
   /\ notification_logs (webhook.store_after h) = [])
  /\ (let st := examples.store true [hook] [] in
      let h := webhook.receive_alert (H := examples.runtime) (examples.world 101 200) st "key"
                 examples.undecodable_request in
      webhook.find_alert_config st "key" = Some hook
      /\ webhook.code (webhook.response h) = 500%Z
      /\ webhook.sent h = []
      /\ notification_logs (webhook.store_after h) = [])
  /\ (let st := examples.store true [hook] [] in
      let h := webhook.receive_alert (H := examples.runtime)
                 (examples.world_database_down 101) st "key" posted in
      webhook.find_alert_config st "key" = Some hook
      /\ webhook.code (webhook.response h) = 500%Z
      /\ map delivered (webhook.sent h) = [true]
      /\ notification_logs (webhook.store_after h) = [])
  /\ (let st := examples.store_without_chat [] [a] in
      let w := examples.world 101 200 in
      let p := price_scraper.check_and_trigger_alerts (H := examples.runtime) w st in
      price_scraper.fired (price_scraper.check_alert (H := examples.runtime) w st a) = true
      /\ price_scraper.sent p = []
      /\ notification_logs (price_scraper.store_after p) = [])
  /\ (let st := examples.store true [] [a] in
      let w := examples.world_commit_fails 101 1 in
      let p := price_scraper.check_and_trigger_alerts (H := examples.runtime) w st in
      price_scraper.fired (price_scraper.check_alert (H := examples.runtime) w st a) = true
      /\ map (fun e => (fst e, delivered (snd e))) (price_scraper.sent p) = [(1%Z, true)]
      /\ notification_logs (price_scraper.store_after p) = []).
Proof. intros hook a posted. repeat split; vm_compute; reflexivity. Qed.

(** ** Webhook keys *)

Section Keys.
Context `{PyRuntime}.

Lemma find_none_intro {A : Type} (f : A -> bool) (l : list A) :
  (forall x, In x l -> f x = false) -> List.find f l = None.
Proof.
  induction l as [|x l IH]; simpl; [reflexivity|]. intros Hall.
  rewrite (Hall x (or_introl eq_refl)). apply IH. auto.
Qed.

(** After the key of the row found by [p] is replaced by a different
    one, no row of a table with distinct keys carries the old key. *)
Lemma old_key_is_gone (p : TradingViewAlert.t -> bool) (fresh : string) (updated_at : Z)
  (table : list TradingViewAlert.t) (alert r : TradingViewAlert.t) :
  config.unique_webhook_keys table ->
  List.find p table = Some alert ->
  fresh <> TradingViewAlert.webhook_key alert ->
  In r (config.update_first p (config.set_webhook_key fresh updated_at) table) ->
  TradingViewAlert.webhook_key r <> TradingViewAlert.webhook_key alert.
Proof.
  unfold config.unique_webhook_keys. intros Hnd Hfind Hfresh.
  induction table as [|x table IH]; simpl in *; [discriminate|].
  apply NoDup_cons in Hnd as [Hnotin Hnd].
  destruct (p x) eqn:Hx.
  - injection Hfind as ->. intros [<-|Hin]; simpl; [congruence|].
    intros Hkey. apply Hnotin. rewrite <- Hkey.
    apply list_elem_of_In. now apply in_map.
  - intros [<-|Hin]; [|now apply IH].
    intros Hkey. apply Hnotin. rewrite Hkey.
    apply list_elem_of_In. apply in_map. now apply find_some in Hfind as [Hin _].
Qed.

(** C9. Once the action [regenerate_webhook] has committed a key that
    differs from the prior one, the prior key resolves to no
    configuration: a request that bears it is answered 404, nothing is
    sent and nothing is logged. *)
Theorem regenerated_key_invalidates_old (w : World) (st st' : Store)
  (form : gmap string string) (alert : TradingViewAlert.t) :
  config.unique_webhook_keys (tradingview_alerts st) ->
  config.query_get TradingViewAlert.id (tradingview_alerts st) (form !! "alert_id")
  = Some alert ->
  config.regenerate_webhook w st form
  = (st', ("Webhook key regenerated successfully", "success")) ->
  config.generate_webhook_key w 16 <> TradingViewAlert.webhook_key alert ->
  (exists alert',
     config.query_get TradingViewAlert.id (tradingview_alerts st') (form !! "alert_id")
     = Some alert'
     /\ TradingViewAlert.webhook_key alert' = config.generate_webhook_key w 16)
  /\ webhook.find_alert_config st' (TradingViewAlert.webhook_key alert) = None
  /\ forall (w' : World) (req : webhook.Request),
       query_raises w' = None ->
       let h := webhook.receive_alert w' st' (TradingViewAlert.webhook_key alert) req in
       webhook.code (webhook.response h) = 404%Z
       /\ webhook.sent h = []
       /\ webhook.store_after h = st'.
Proof.
  intros Hnd Hget Hregen Hfresh.
  unfold config.regenerate_webhook in Hregen. rewrite Hget in Hregen.
  destruct (query_raises w); [discriminate Hregen|].
  destruct (bool_decide _); [|discriminate Hregen].
  simpl in Hregen. injection Hregen as <-.
  unfold config.query_get in *.
  destruct (form !! "alert_id" ≫= py_int) as [i|]; [|discriminate]. simpl in *.
  apply find_some in Hget as Hfound. destruct Hfound as [_ Hid].
  apply Z.eqb_eq in Hid. rewrite Hid.
  assert (Hgone : webhook.find_alert_config
                    {| telegram_configs := telegram_configs st;
                       tradingview_alerts :=
                         config.update_first (fun r => (TradingViewAlert.id r =? i)%Z)
                           (config.set_webhook_key (config.generate_webhook_key w 16)
                              (utcnow w))
                           (tradingview_alerts st);
                       price_alerts := price_alerts st;
                       notification_logs := notification_logs st |}
                    (TradingViewAlert.webhook_key alert) = None).
  { unfold webhook.find_alert_config. simpl. apply find_none_intro.
    intros r Hr. apply andb_false_iff. left. apply String.eqb_neq.
    eapply old_key_is_gone; eauto. }
  split; [|split].
  - rewrite find_update_first by auto. rewrite Hget. simpl. eauto.
  - exact Hgone.
  - intros w' req Hq. unfold webhook.receive_alert, webhook.receive_alert_try.
    rewrite Hq, Hgone. simpl. auto.
Qed.

End Keys.

Lemma regenerated_key_invalidates_old_witness :
  let hook := examples.webhook_alert 1 "0123456789abcdef" TradingViewAlert.default_message_template in
  let st := examples.store true [hook] [] in
  let w := examples.world 101 200 in
  let st' := fst (config.regenerate_webhook (H := examples.runtime) w st
                    examples.regenerate_form) in
  (exists alert',
     config.query_get (H := examples.runtime) TradingViewAlert.id (tradingview_alerts st')
       (examples.regenerate_form !! "alert_id") = Some alert'
     /\ TradingViewAlert.webhook_key alert' = "abcdefghijklmnop")
  /\ webhook.find_alert_config st' "0123456789abcdef" = None
  /\ forall (w' : World) (req : webhook.Request),
       query_raises w' = None ->
       let h := webhook.receive_alert (H := examples.runtime) w' st' "0123456789abcdef" req in
       webhook.code (webhook.response h) = 404%Z
       /\ webhook.sent h = []
       /\ webhook.store_after h = st'.
Proof.
  intros hook st w st'.
  apply (regenerated_key_invalidates_old (H := examples.runtime) w st st'
           examples.regenerate_form hook).
  - unfold config.unique_webhook_keys. vm_compute.
    apply (bool_decide_unpack _). vm_compute. exact I.
  - vm_compute. reflexivity.
  - vm_compute. reflexivity.
  - vm_compute. discriminate.
Defined.

(** ** The scenario of a one-time alert

    AAPL above 100, one-time: the feed returns 101 and the alert
    triggers, one log row is created and the alert is marked; in the
    next cycle the feed returns 105 and nothing more happens. *)
Example one_time_alert_scenario :
  let a := examples.price_alert 1 "above" 100 true false in
  let st := examples.store true [] [a] in
  let first := price_scraper.check_and_trigger_alerts (H := examples.runtime)
                 (examples.world 101 200) st in
  let second := price_scraper.check_and_trigger_alerts (H := examples.runtime)
                  (examples.world 105 200) (price_scraper.store_after first) in
  map fst (price_scraper.sent first) = [1%Z]
  /\ map NotificationLog.status (notification_logs (price_scraper.store_after first))
     = ["success"]
  /\ map PriceAlert.is_triggered (price_alerts (price_scraper.store_after first)) = [true]
  /\ price_scraper.sent second = []
  /\ price_scraper.store_after second = price_scraper.store_after first.
Proof. repeat split; vm_compute; reflexivity. Qed.

(** * Further properties of the code *)

(** ** Webhook keys *)

Lemma string_of_list_ascii_length (l : list ascii) :
  String.length (string_of_list_ascii l) = List.length l.
Proof. induction l as [|c l IH]; simpl; congruence. Qed.

Lemma string_forall_of_list (p : ascii -> bool) (l : list ascii) :
  Forall (fun c => p c = true) l -> string_forall p (string_of_list_ascii l) = true.
Proof.
  induction 1 as [|c l Hc _ IH]; simpl; [reflexivity|]. now rewrite Hc, IH.
Qed.

Lemma alphabet_is_alphanumeric (k : nat) :
  k < 62 ->
  match String.get k config.alphabet with
  | Some c => alphanumeric c = true
  | None => False
  end.
Proof.
  intros Hk. do 62 (destruct k as [|k]; [reflexivity|]). lia.
Qed.

(** X1. A generated webhook key has exactly the length asked for and
    consists of ASCII letters and digits only, whatever the draws. *)
Theorem generate_webhook_key_shape (w : World) (length : nat) :
  String.length (config.generate_webhook_key w length) = length
  /\ string_forall alphanumeric (config.generate_webhook_key w length) = true.
Proof.
  unfold config.generate_webhook_key. split.
  - now rewrite string_of_list_ascii_length, length_map, length_seq.
  - apply string_forall_of_list. apply Forall_forall. intros c Hc.
    apply list_elem_of_In, in_map_iff in Hc as (i & <- & _).
    unfold config.secrets_choice.
    assert (Hlt : secrets_draw w i `mod` String.length config.alphabet < 62).
    { change (String.length config.alphabet) with 62. apply Nat.mod_upper_bound. lia. }
    pose proof (alphabet_is_alphanumeric _ Hlt) as Hget.
    now destruct (String.get _ config.alphabet).
Qed.

(** ** The webhook handler *)

Section WebhookHandler.
Context `{PyRuntime}.

(** X2. A key that no active configuration carries (unknown, or of a
    configuration that is switched off) is answered 404; nothing is
    sent and the store is left as it is. *)
Theorem unknown_or_inactive_key_is_rejected (w : World) (st : Store)
  (webhook_key : string) (req : webhook.Request) :
  query_raises w = None ->
  (forall r, In r (tradingview_alerts st) ->
             TradingViewAlert.webhook_key r = webhook_key ->
             TradingViewAlert.is_active r = false) ->
  let h := webhook.receive_alert w st webhook_key req in
  webhook.response h
  = {| webhook.code := 404; webhook.status := "error";
       webhook.message := "Invalid webhook key or alert is inactive" |}
  /\ webhook.store_after h = st
  /\ webhook.sent h = [].
Proof.
  intros Hq Hnone.
  assert (Hfind : webhook.find_alert_config st webhook_key = None).
  { unfold webhook.find_alert_config. apply find_none_intro. intros r Hr.
    destruct (String.eqb_spec (TradingViewAlert.webhook_key r) webhook_key) as [Hk|_];
      [|reflexivity].
    now rewrite (Hnone r Hr Hk). }
  unfold webhook.receive_alert, webhook.receive_alert_try. rewrite Hq, Hfind. simpl. auto.
Qed.

(** X3. A request whose key resolves to a configuration whose Telegram
    configuration is switched off is answered 400; nothing is sent and
    the store is left as it is. *)
Theorem inactive_telegram_config_is_rejected (w : World) (st : Store)
  (webhook_key : string) (req : webhook.Request)
  (alert_config : TradingViewAlert.t) (telegram_config : TelegramConfig.t) :
  query_raises w = None ->
  webhook.find_alert_config st webhook_key = Some alert_config ->
  telegram_configs st !! TradingViewAlert.telegram_config_id alert_config
  = Some telegram_config ->
  TelegramConfig.is_active telegram_config = false ->
  let h := webhook.receive_alert w st webhook_key req in
  webhook.response h
  = {| webhook.code := 400; webhook.status := "error";
       webhook.message := "Telegram configuration is inactive" |}
  /\ webhook.store_after h = st
  /\ webhook.sent h = [].
Proof.
  intros Hq Hfind Htc Hact.
  unfold webhook.receive_alert, webhook.receive_alert_try.
  rewrite Hq, Hfind, Htc, Hact. simpl. auto.
Qed.

Lemma log_error_effects (w : World) (st : Store) (req : webhook.Request) (exc : string)
  (alert_config : option TradingViewAlert.t) (in_commit : bool) :
  webhook.log_error w st req exc alert_config in_commit = st
  \/ exists log,
       webhook.log_error w st req exc alert_config in_commit = webhook.add_log st log
       /\ NotificationLog.status log = "failed"
       /\ NotificationLog.error_message log = Some exc
       /\ NotificationLog.alert_id log = TradingViewAlert.id <$> alert_config
       /\ NotificationLog.price_alert_id log = None
       /\ NotificationLog.message_sent log = None.
Proof.
  unfold webhook.log_error.
  destruct (webhook.error_payload req) as [text|e]; simpl; [|now left].
  destruct in_commit; simpl; [now left|].
  destruct (commit_raises w _); simpl; [now left|].
  right. eexists. split; [reflexivity|]. simpl. auto.
Qed.

(** How the [try] block of the handler can end. *)
Lemma receive_alert_try_cases (w : World) (st : Store) (webhook_key : string)
  (req : webhook.Request) :
  match webhook.receive_alert_try w st webhook_key req with
  | webhook.Done h =>
      (webhook.store_after h = st /\ webhook.sent h = []
       /\ (webhook.code (webhook.response h) = 404%Z
           \/ webhook.code (webhook.response h) = 400%Z))
      \/ (exists log d,
            webhook.store_after h = webhook.add_log st log
            /\ webhook.sent h = [d]
            /\ NotificationLog.price_alert_id log = None
            /\ NotificationLog.status log = (if delivered d then "success" else "failed")
            /\ webhook.code (webhook.response h) = (if delivered d then 200%Z else 500%Z))
  | webhook.Failed exc alert_config ds in_commit => List.length ds <= 1
  end.
Proof.
  unfold webhook.receive_alert_try.
  destruct (query_raises w); [simpl; lia|].
  destruct (webhook.find_alert_config st webhook_key) as [alert_config|]; [|left; simpl; auto].
  destruct (telegram_configs st !! _) as [tc|]; [|simpl; lia].
  destruct (TelegramConfig.is_active tc); simpl; [|left; auto].
  destruct (webhook.parse_payload req) as [payload|exc]; [|simpl; lia].
  match goal with |- context [commit_raises w ?l] =>
    destruct (commit_raises w l) end; [simpl; lia|].
  right. unfold webhook.notification_log. destruct (telegram_bot.success _);
    do 2 eexists; (split; [reflexivity|]); simpl; auto.
Qed.

(** X4. Whatever the request and whatever fails, the handler answers
    with one of 200, 400, 404 and 500, calls Telegram at most once,
    leaves the three configuration tables as they are and the existing
    log rows in place, and adds at most one log row, which refers to no
    price alert. *)
Theorem receive_alert_effects_are_bounded (w : World) (st : Store)
  (webhook_key : string) (req : webhook.Request) :
  let h := webhook.receive_alert w st webhook_key req in
  In (webhook.code (webhook.response h)) [200%Z; 400%Z; 404%Z; 500%Z]
  /\ List.length (webhook.sent h) <= 1
  /\ telegram_configs (webhook.store_after h) = telegram_configs st
  /\ tradingview_alerts (webhook.store_after h) = tradingview_alerts st
  /\ price_alerts (webhook.store_after h) = price_alerts st
  /\ exists added,
       notification_logs (webhook.store_after h) = (notification_logs st ++ added)%list
       /\ List.length added <= 1
       /\ Forall (fun log => NotificationLog.price_alert_id log = None) added.
Proof.
  intros h. subst h. unfold webhook.receive_alert.
  pose proof (receive_alert_try_cases w st webhook_key req) as Hcases.
  destruct (webhook.receive_alert_try w st webhook_key req)
    as [h|exc alert_config ds in_commit].
  - destruct Hcases as [(-> & -> & Hcode)|(log & d & -> & -> & Hid & _ & Hcode)].
    + split; [destruct Hcode as [-> | ->]; simpl; auto|].
      repeat split; auto. exists []. rewrite app_nil_r. repeat split; auto.
    + split; [rewrite Hcode; destruct (delivered d); simpl; auto|].
      repeat split; auto. exists [log]. repeat split; auto.
  - simpl. split; [auto|]. split; [exact Hcases|].
    destruct (log_error_effects w st req exc alert_config in_commit)
      as [->|(log & -> & _ & _ & _ & Hid & _)].
    + repeat split; auto. exists []. rewrite app_nil_r. repeat split; auto.
    + repeat split; auto. exists [log]. repeat split; auto.
Qed.

(** X5. The handler answers 200 exactly when it has made one call to
    Telegram that succeeded and has added the log row of that call, with
    status "success". *)
Theorem answer_200_iff_delivered_and_logged (w : World) (st : Store)
  (webhook_key : string) (req : webhook.Request) :
  let h := webhook.receive_alert w st webhook_key req in
  webhook.code (webhook.response h) = 200%Z <->
  exists d log,
    webhook.sent h = [d] /\ delivered d = true
    /\ notification_logs (webhook.store_after h) = (notification_logs st ++ [log])%list
    /\ NotificationLog.status log = "success".
Proof.
  intros h. subst h. unfold webhook.receive_alert.
  pose proof (receive_alert_try_cases w st webhook_key req) as Hcases.
  destruct (webhook.receive_alert_try w st webhook_key req)
    as [h|exc alert_config ds in_commit].
  - destruct Hcases as [(-> & -> & Hcode)|(log & d & -> & -> & _ & Hstatus & Hcode)].
    + split.
      * intros H200. destruct Hcode as [Hc|Hc]; rewrite Hc in H200; discriminate.
      * intros (d & log & Hsent & _). discriminate.
    + rewrite Hcode. split.
      * intros H200. exists d, log. destruct (delivered d); [auto|discriminate].
      * intros (d' & log' & Hsent & Hd & _). injection Hsent as <-. now rewrite Hd.
  - simpl. split; [discriminate|].
    intros (d & log & -> & _ & Hlogs & Hstatus).
    destruct (log_error_effects w st req exc alert_config in_commit)
      as [Heq|(log' & Heq & Hfailed & _)]; rewrite Heq in Hlogs.
    + apply (f_equal List.length) in Hlogs. rewrite length_app in Hlogs. simpl in Hlogs. lia.
    + simpl in Hlogs. apply app_inv_head in Hlogs. injection Hlogs as <-.
      rewrite Hfailed in Hstatus. discriminate.
Qed.

End WebhookHandler.

Lemma unknown_or_inactive_key_is_rejected_witness :
  let st := examples.store true [more_examples.inactive_hook 1 "key"] [] in
  let h := webhook.receive_alert (H := examples.runtime) (examples.world 101 200) st "key"
             (examples.request examples.breakout_payload) in
  webhook.response h
  = {| webhook.code := 404; webhook.status := "error";
       webhook.message := "Invalid webhook key or alert is inactive" |}
  /\ webhook.store_after h = st
  /\ webhook.sent h = [].
Proof.
  intros st.
  apply (unknown_or_inactive_key_is_rejected (H := examples.runtime)
           (examples.world 101 200) st "key" (examples.request examples.breakout_payload)).
  - reflexivity.
  - intros r [<-|[]] _. reflexivity.
Defined.

Lemma inactive_telegram_config_is_rejected_witness :
  let hook := examples.webhook_alert 1 "key" TradingViewAlert.default_message_template in
  let st := examples.store false [hook] [] in
  let h := webhook.receive_alert (H := examples.runtime) (examples.world 101 200) st "key"
             (examples.request examples.breakout_payload) in
  webhook.response h
  = {| webhook.code := 400; webhook.status := "error";
       webhook.message := "Telegram configuration is inactive" |}
  /\ webhook.store_after h = st
  /\ webhook.sent h = [].
Proof.
  intros hook st.
  apply (inactive_telegram_config_is_rejected (H := examples.runtime)
           (examples.world 101 200) st "key" (examples.request examples.breakout_payload)
           hook (examples.chat false)); vm_compute; reflexivity.
Defined.

Section WebhookPayload.
Context `{PyRuntime}.

(** X6. The payload of a request: a JSON body that is truthy is the
    payload; otherwise (no JSON body, or an empty object, an empty list,
    zero, ...) the payload is the decoded body parsed as JSON, or the
    object with the sole key "raw_data" holding the decoded body when
    that is not JSON; and the only failure is a body that cannot be
    decoded while there is no truthy JSON body. *)
Theorem parse_payload_cases (req : webhook.Request) :
  (truthy (webhook.get_json req) = true ->
   webhook.parse_payload req = Ok (webhook.get_json req))
  /\ (truthy (webhook.get_json req) = false ->
      forall body, webhook.data_decode req = Ok body ->
        webhook.parse_payload req
        = Ok (default (JObj {[ "raw_data" := JStr body ]}) (json_loads body)))
  /\ (forall exc,
        webhook.parse_payload req = Raise exc <->
        truthy (webhook.get_json req) = false /\ webhook.data_decode req = Raise exc).
Proof.
  unfold webhook.parse_payload, webhook.loads.
  destruct (truthy (webhook.get_json req)).
  - split; [reflexivity|]. split; [discriminate|].
    intros exc. split; [discriminate|intros [Hf _]; discriminate].
  - split; [discriminate|]. split.
    + intros _ body ->. simpl. now destruct (json_loads body).
    + intros exc. destruct (webhook.data_decode req) as [body|e]; simpl.
      * destruct (json_loads body); simpl; split;
          try discriminate; intros [_ Hr]; discriminate.
      * split; [intros Hr; split; congruence|intros [_ Hr]; congruence].
Qed.

(** X7. When the key resolves, the Telegram configuration is active and
    the payload is read, but the database refuses every commit, the
    message has been sent once all the same; the caller is answered 500
    and no log row records the call. *)
Theorem sent_but_not_logged_when_commits_fail (w : World) (st : Store)
  (webhook_key : string) (req : webhook.Request) (alert_config : TradingViewAlert.t)
  (telegram_config : TelegramConfig.t) (payload : json) :
  query_raises w = None ->
  webhook.find_alert_config st webhook_key = Some alert_config ->
  telegram_configs st !! TradingViewAlert.telegram_config_id alert_config
  = Some telegram_config ->
  TelegramConfig.is_active telegram_config = true ->
  webhook.parse_payload req = Ok payload ->
  (forall log, commit_raises w log <> None) ->
  let h := webhook.receive_alert w st webhook_key req in
  let message := webhook.render alert_config payload in
  webhook.sent h
  = [{| to_bot := TelegramConfig.bot_token telegram_config;
        to_chat := TelegramConfig.chat_id telegram_config;
        text_sent := message;
        delivered :=
          telegram_bot.success
            (telegram_bot.send_telegram_message w
               (TelegramConfig.bot_token telegram_config)
               (TelegramConfig.chat_id telegram_config) message) |}]
  /\ webhook.store_after h = st
  /\ webhook.code (webhook.response h) = 500%Z.
Proof.
  intros Hq Hfind Htc Hact Hparse Hcommit.
  unfold webhook.receive_alert, webhook.receive_alert_try.
  rewrite Hq, Hfind, Htc, Hact, Hparse. simpl.
  match goal with |- context [commit_raises w ?l] =>
    destruct (commit_raises w l) as [exc|] eqn:Hc; [|now destruct (Hcommit l)] end.
  simpl. split; [reflexivity|]. split; [|reflexivity].
  unfold webhook.log_error.
  destruct (webhook.error_payload req); reflexivity.
Qed.

Lemma substitute_from_object (m : gmap string json) (s : string) (skip : nat) :
  is_Some (substitute_from skip (JObj m) s).
Proof.
  revert skip. induction s as [|c rest IH]; intros skip; simpl; [eauto|].
  destruct skip as [|k]; [|apply IH].
  destruct (Ascii.eqb c "$").
  - destruct (match_after_dollar rest) as [|name|name|].
    + destruct (IH 1) as [t ->]. simpl. eauto.
    + unfold convert, subscript.
      destruct (IH (String.length name)) as [t ->].
      destruct (m !! name); simpl; eauto.
    + unfold convert, subscript.
      destruct (IH (String.length name + 2)) as [t ->].
      destruct (m !! name); simpl; eauto.
    + destruct (IH 0) as [t ->]. simpl. eauto.
  - destruct (IH 0) as [t ->]. simpl. eauto.
Qed.

(** X8. When the payload is a JSON object, substitution never raises,
    whatever the template: the message sent is the substituted template
    and the fallback message is not used. *)
Theorem object_payload_never_falls_back (alert_config : TradingViewAlert.t)
  (m : gmap string json) :
  exists message,
    safe_substitute (TradingViewAlert.message_template alert_config) (JObj m) = Some message
    /\ webhook.render alert_config (JObj m) = message.
Proof.
  unfold webhook.render, safe_substitute.
  destruct (substitute_from_object m (TradingViewAlert.message_template alert_config) 0)
    as [message ->].
  eauto.
Qed.

(** X9. A template in which the delimiter "$" does not occur is sent as
    it is, whatever the payload, be it an object or not. *)
Theorem template_without_delimiter_is_sent_verbatim (alert_config : TradingViewAlert.t)
  (payload : json) :
  has_delimiter (TradingViewAlert.message_template alert_config) = false ->
  webhook.render alert_config payload = TradingViewAlert.message_template alert_config.
Proof.
  intros Hd. unfold webhook.render, safe_substitute.
  now rewrite substitute_without_delimiter.
Qed.

End WebhookPayload.

Lemma sent_but_not_logged_when_commits_fail_witness :
  let hook := examples.webhook_alert 1 "key" "Alert: $ticker" in
  let st := examples.store true [hook] [] in
  let w := examples.world_database_down 101 in
  let h := webhook.receive_alert (H := examples.runtime) w st "key"
             (examples.request examples.breakout_payload) in
  webhook.sent h
  = [{| to_bot := "TOKEN"; to_chat := "42"; text_sent := "Alert: AAPL"; delivered := true |}]
  /\ webhook.store_after h = st
  /\ webhook.code (webhook.response h) = 500%Z.
Proof.
  intros hook st w.
  apply (sent_but_not_logged_when_commits_fail (H := examples.runtime) w st "key"
           (examples.request examples.breakout_payload) hook (examples.chat true)
           examples.breakout_payload); try (vm_compute; reflexivity).
  intros log. discriminate.
Defined.

Lemma template_without_delimiter_is_sent_verbatim_witness :
  webhook.render (H := examples.runtime)
    (examples.webhook_alert 1 "key" TradingViewAlert.default_message_template) (JArr [])
  = TradingViewAlert.default_message_template.
Proof.
  apply (template_without_delimiter_is_sent_verbatim (H := examples.runtime)
           (examples.webhook_alert 1 "key" TradingViewAlert.default_message_template)
           (JArr [])).
  reflexivity.
Defined.

(** ** The poll cycle *)

Section PollCycle.
Context `{PyRuntime}.

Lemma committed_was_armed (w : World) (st : Store) (a a' : PriceAlert.t)
  (log : NotificationLog.t) (d : delivery) :
  price_scraper.check_alert w st a = price_scraper.Committed a' log d ->
  PriceAlert.is_one_time a && PriceAlert.is_triggered a = false.
Proof.
  unfold price_scraper.check_alert.
  now destruct (PriceAlert.is_one_time a && PriceAlert.is_triggered a).
Qed.

Lemma for_alerts_rows_relation (w : World) (st : Store) (table : list PriceAlert.t) :
  Forall2
    (fun a a' =>
       a' = a
       \/ (PriceAlert.is_active a = true /\ PriceAlert.is_one_time a = true
           /\ PriceAlert.is_triggered a = false
           /\ a' = price_scraper.mark_triggered w a))
    table (price_scraper.rows (price_scraper.for_alerts w st table)).
Proof.
  induction table as [|a table IH]; simpl; [constructor|].
  destruct (PriceAlert.is_active a) eqn:Hact.
  - destruct (price_scraper.check_alert w st a) as [|a' log d|exc ds] eqn:Hc; simpl.
    + constructor; [now left|exact IH].
    + constructor; [|exact IH].
      pose proof (committed_was_armed _ _ _ _ _ _ Hc) as Hguard.
      apply check_alert_committed in Hc as (-> & _).
      destruct (PriceAlert.is_one_time a); [|now left].
      right. simpl in Hguard. auto.
    + constructor; [now left|]. clear. induction table; constructor; auto.
  - simpl. constructor; [now left|exact IH].
Qed.

(** X10. A poll cycle, however it ends, leaves the Telegram
    configurations and the webhook alerts as they are, keeps the existing
    log rows and adds only rows that refer to a price alert of the
    table; and each row of the price alerts is either left as it is,
    [updated_at] included, or is an active one-time alert that had not
    fired and is now marked: [is_triggered] is set, and [last_triggered_at]
    and [updated_at] hold the time of the cycle. No other column of a
    price alert changes. *)
Theorem cycle_changes_only_trigger_state (w : World) (st : Store) :
  let p := price_scraper.check_and_trigger_alerts w st in
  telegram_configs (price_scraper.store_after p) = telegram_configs st
  /\ tradingview_alerts (price_scraper.store_after p) = tradingview_alerts st
  /\ (exists added,
        notification_logs (price_scraper.store_after p)
        = (notification_logs st ++ added)%list
        /\ Forall (fun log =>
                     NotificationLog.alert_id log = None
                     /\ exists a, In a (price_alerts st)
                          /\ NotificationLog.price_alert_id log = Some (PriceAlert.id a))
             added)
  /\ Forall2
       (fun a a' =>
          a' = a
          \/ (PriceAlert.is_active a = true /\ PriceAlert.is_one_time a = true
              /\ PriceAlert.is_triggered a = false
              /\ a' = price_scraper.mark_triggered w a))
       (price_alerts st) (price_alerts (price_scraper.store_after p)).
Proof.
  intros p. subst p. destruct (query_raises w) as [exc|] eqn:Hq.
  - destruct (check_and_trigger_alerts_query_fault w st exc Hq) as [-> _].
    repeat split; auto.
    + exists []. rewrite app_nil_r. split; auto.
    + clear. induction (price_alerts st); constructor; auto.
  - destruct (check_and_trigger_alerts_effects w st Hq) as (-> & -> & -> & _ & _).
    split; [reflexivity|]. split.
    + unfold price_scraper.check_and_trigger_alerts,
        price_scraper.check_and_trigger_alerts_try. rewrite Hq. simpl.
      now destruct (price_scraper.raised _).
    + split; [|apply for_alerts_rows_relation].
      eexists. split; [reflexivity|]. apply Forall_forall. intros log Hlog.
      apply list_elem_of_In, for_alerts_log_origin in Hlog as (a & a' & d & Ha & _ & Hc).
      apply check_alert_committed in Hc as (_ & Hid & Hnone & _). eauto.
Qed.

(** A cycle leaves alone a row that is not active or whose pass ends
    with [continue]. *)
Lemma cycle_skips_quiet_row (w : World) (st : Store) (a : PriceAlert.t) :
  NoDup (map PriceAlert.id (price_alerts st)) ->
  In a (price_alerts st) ->
  PriceAlert.is_active a = false
  \/ price_scraper.check_alert w st a = price_scraper.Continue ->
  let p := price_scraper.check_and_trigger_alerts w st in
  In a (price_alerts (price_scraper.store_after p))
  /\ map PriceAlert.id (price_alerts (price_scraper.store_after p))
     = map PriceAlert.id (price_alerts st)
  /\ (forall d, ~ In (PriceAlert.id a, d) (price_scraper.sent p))
  /\ (exists added,
        notification_logs (price_scraper.store_after p)
        = (notification_logs st ++ added)%list
        /\ forall log, In log added ->
             NotificationLog.price_alert_id log <> Some (PriceAlert.id a)).
Proof.
  intros Hnd Hin [Hoff|Hcont]; [|now apply cycle_skips_row].
  intros p. subst p. destruct (query_raises w) as [exc|] eqn:Hq.
  - destruct (check_and_trigger_alerts_query_fault w st exc Hq) as [-> ->].
    repeat split; auto. exists []. split; [now rewrite app_nil_r|contradiction].
  - destruct (check_and_trigger_alerts_effects w st Hq) as (-> & -> & _ & -> & _).
    split; [|split; [apply for_alerts_ids|split]].
    + clear Hnd. induction (price_alerts st) as [|b table IH]; simpl; [contradiction|].
      destruct Hin as [->|Hin].
      * rewrite Hoff. simpl. now left.
      * destruct (PriceAlert.is_active b); [|simpl; right; now apply IH].
        destruct (price_scraper.check_alert w st b); simpl; auto.
    + intros d Hd. apply for_alerts_delivery_origin in Hd as (b & Hb & Hact & Hid & _).
      assert (b = a) as -> by (eapply same_id_same_row; eauto). congruence.
    + eexists. split; [reflexivity|]. intros log Hlog Hid.
      apply for_alerts_log_origin in Hlog as (b & b' & d & Hb & Hact & Hc).
      apply check_alert_committed in Hc as (_ & Hid' & _).
      assert (b = a) as -> by (eapply same_id_same_row; eauto; congruence).
      congruence.
Qed.

(** Over any number of cycles, a row that is not active, or whose pass
    ends with [continue] in every world, stays as it is, and nothing is
    sent or logged for it. *)
Lemma quiet_row_stays_silent (ws : list World) (st : Store) (a : PriceAlert.t) :
  NoDup (map PriceAlert.id (price_alerts st)) ->
  In a (price_alerts st) ->
  PriceAlert.is_active a = false
  \/ (forall w st', price_scraper.check_alert w st' a = price_scraper.Continue) ->
  let r := price_scraper.run_checker ws st in
  In a (price_alerts (fst r))
  /\ (forall d, ~ In (PriceAlert.id a, d) (snd r))
  /\ (exists added,
        notification_logs (fst r) = (notification_logs st ++ added)%list
        /\ forall log, In log added ->
             NotificationLog.price_alert_id log <> Some (PriceAlert.id a)).
Proof.
  intros Hnd Hin Hquiet. revert st Hnd Hin.
  induction ws as [|w ws IH]; intros st Hnd Hin; simpl.
  - repeat split; auto. exists []. split; [now rewrite app_nil_r|contradiction].
  - assert (Hq : PriceAlert.is_active a = false
                 \/ price_scraper.check_alert w st a = price_scraper.Continue)
      by (destruct Hquiet; auto).
    destruct (cycle_skips_quiet_row w st a Hnd Hin Hq)
      as (Hrow & Hids & Hsent & added & Hlogs & Hadded).
    rewrite <- Hids in Hnd.
    specialize (IH _ Hnd Hrow).
    destruct (price_scraper.run_checker ws _) as [st' ds] eqn:Hrun. simpl in *.
    destruct IH as (Hrow' & Hsent' & added' & Hlogs' & Hadded').
    split; [exact Hrow'|]. split.
    + intros d Hd. apply in_app_or in Hd as [Hd|Hd]; [now apply (Hsent d)|now apply (Hsent' d)].
    + exists (added ++ added')%list. split.
      * now rewrite Hlogs', Hlogs, app_assoc.
      * intros log Hlog. apply in_app_or in Hlog as [Hlog|Hlog]; auto.
Qed.

(** X11. An alert that is switched off is never evaluated: over any
    number of poll cycles, whatever the prices, its row stays as it is,
    nothing is sent for it and no log row is added for it. *)
Theorem inactive_alert_is_never_evaluated (ws : list World) (st : Store)
  (a : PriceAlert.t) :
  NoDup (map PriceAlert.id (price_alerts st)) ->
  In a (price_alerts st) ->
  PriceAlert.is_active a = false ->
  let r := price_scraper.run_checker ws st in
  In a (price_alerts (fst r))
  /\ (forall d, ~ In (PriceAlert.id a, d) (snd r))
  /\ (exists added,
        notification_logs (fst r) = (notification_logs st ++ added)%list
        /\ forall log, In log added ->
             NotificationLog.price_alert_id log <> Some (PriceAlert.id a)).
Proof.
  intros Hnd Hin Hoff. apply quiet_row_stays_silent; auto.
Qed.

(** X12. The type of an alert is not validated when it is saved; an
    alert whose type is neither "above" nor "below" never triggers: over
    any number of poll cycles, whatever the prices, nothing is sent for
    it and no log row is added for it. *)
Theorem alert_of_unknown_type_never_triggers (ws : list World) (st : Store)
  (a : PriceAlert.t) :
  NoDup (map PriceAlert.id (price_alerts st)) ->
  In a (price_alerts st) ->
  PriceAlert.alert_type a <> "above" ->
  PriceAlert.alert_type a <> "below" ->
  let r := price_scraper.run_checker ws st in
  In a (price_alerts (fst r))
  /\ (forall d, ~ In (PriceAlert.id a, d) (snd r))
  /\ (exists added,
        notification_logs (fst r) = (notification_logs st ++ added)%list
        /\ forall log, In log added ->
             NotificationLog.price_alert_id log <> Some (PriceAlert.id a)).
Proof.
  intros Hnd Hin Habove Hbelow. apply quiet_row_stays_silent; auto.
  right. intros w st'. unfold price_scraper.check_alert, price_scraper.alert_triggered.
  destruct (PriceAlert.is_one_time a && PriceAlert.is_triggered a); [reflexivity|].
  destruct (price_scraper.get_price_data w (PriceAlert.symbol a)); [|reflexivity].
  destruct (String.eqb_spec (PriceAlert.alert_type a) "above"); [contradiction|].
  destruct (String.eqb_spec (PriceAlert.alert_type a) "below"); [contradiction|].
  reflexivity.
Qed.

End PollCycle.

Lemma inactive_alert_is_never_evaluated_witness :
  let off := examples.paused (examples.price_alert 3 "above" 100 false false) in
  let st := examples.store true [] [examples.price_alert 1 "above" 100 false false; off] in
  let r := price_scraper.run_checker (H := examples.runtime)
             [examples.world 105 200; examples.world 110 200] st in
  In off (price_alerts (fst r))
  /\ (forall d, ~ In (PriceAlert.id off, d) (snd r))
  /\ (exists added,
        notification_logs (fst r) = (notification_logs st ++ added)%list
        /\ forall log, In log added ->
             NotificationLog.price_alert_id log <> Some (PriceAlert.id off)).
Proof.
  intros off st.
  apply (inactive_alert_is_never_evaluated (H := examples.runtime)
           [examples.world 105 200; examples.world 110 200] st off).
  - vm_compute. apply (bool_decide_unpack _). vm_compute. exact I.
  - right. left. reflexivity.
  - reflexivity.
Defined.

Lemma alert_of_unknown_type_never_triggers_witness :
  let odd := examples.price_alert 1 "Above" 100 false false in
  let st := examples.store true [] [odd] in
  let r := price_scraper.run_checker (H := examples.runtime)
             [examples.world 105 200; examples.world 110 200] st in
  In odd (price_alerts (fst r))
  /\ (forall d, ~ In (PriceAlert.id odd, d) (snd r))
  /\ (exists added,
        notification_logs (fst r) = (notification_logs st ++ added)%list
        /\ forall log, In log added ->
             NotificationLog.price_alert_id log <> Some (PriceAlert.id odd)).
Proof.
  intros odd st.
  apply (alert_of_unknown_type_never_triggers (H := examples.runtime)
           [examples.world 105 200; examples.world 110 200] st odd).
  - vm_compute. apply (bool_decide_unpack _). vm_compute. exact I.
  - left. reflexivity.
  - vm_compute. discriminate.
  - vm_compute. discriminate.
Defined.

Section Counting.
Context `{PyRuntime}.

Lemma raised_after_one_call_at_most (w : World) (st : Store) (a : PriceAlert.t)
  (exc : string) (ds : list delivery) :
  price_scraper.check_alert w st a = price_scraper.Raised exc ds -> List.length ds <= 1.
Proof.
  unfold price_scraper.check_alert.
  destruct (PriceAlert.is_one_time a && PriceAlert.is_triggered a); [discriminate|].
  destruct (price_scraper.get_price_data w (PriceAlert.symbol a)) as [pd|]; [|discriminate].
  destruct (price_scraper.alert_triggered a (price_scraper.price pd)); [|discriminate].
  destruct (telegram_configs st !! PriceAlert.telegram_config_id a) as [tc|].
  - match goal with |- context [commit_raises w ?l] =>
      destruct (commit_raises w l) end; [|discriminate].
    intros Heq. injection Heq as _ <-. simpl. lia.
  - intros Heq. injection Heq as _ <-. simpl. lia.
Qed.

Lemma deliveries_for_absent (w : World) (st : Store) (table : list PriceAlert.t) (i : Z) :
  ~ In i (map PriceAlert.id table) ->
  deliveries_for i (price_scraper.deliveries (price_scraper.for_alerts w st table)) = [].
Proof.
  intros Hnotin. unfold deliveries_for. apply filter_none. intros [j d] Hin. simpl.
  apply for_alerts_delivery_origin in Hin as (a & Ha & _ & Hid & _).
  apply Z.eqb_neq. intros ->. apply Hnotin. rewrite <- Hid. now apply in_map.
Qed.

Lemma for_alerts_one_delivery (w : World) (st : Store) (table : list PriceAlert.t) (i : Z) :
  NoDup (map PriceAlert.id table) ->
  List.length
    (deliveries_for i (price_scraper.deliveries (price_scraper.for_alerts w st table))) <= 1.
Proof.
  induction table as [|a table IH]; simpl; [lia|].
  intros Hnd. apply NoDup_cons in Hnd as [Hnotin Hnd].
  rewrite list_elem_of_In in Hnotin.
  destruct (PriceAlert.is_active a); [|simpl; auto].
  destruct (price_scraper.check_alert w st a) as [|a' log d|exc ds] eqn:Hc; simpl; auto.
  - unfold deliveries_for in *. simpl.
    destruct (Z.eqb_spec (PriceAlert.id a) i) as [<-|_]; [|auto].
    fold (deliveries_for (PriceAlert.id a)
            (price_scraper.deliveries (price_scraper.for_alerts w st table))).
    rewrite deliveries_for_absent by exact Hnotin. simpl. lia.
  - apply raised_after_one_call_at_most in Hc.
    unfold deliveries_for.
    etransitivity; [apply List.filter_length_le|]. now rewrite length_map.
Qed.

(** X13. In one poll cycle, however it ends, at most one call to
    Telegram is made for each price alert. *)
Theorem one_delivery_per_alert_per_cycle (w : World) (st : Store) (i : Z) :
  NoDup (map PriceAlert.id (price_alerts st)) ->
  List.length
    (deliveries_for i (price_scraper.sent (price_scraper.check_and_trigger_alerts w st)))
  <= 1.
Proof.
  intros Hnd. destruct (query_raises w) as [exc|] eqn:Hq.
  - destruct (check_and_trigger_alerts_query_fault w st exc Hq) as [_ ->]. simpl. lia.
  - destruct (check_and_trigger_alerts_effects w st Hq) as (_ & _ & _ & -> & _).
    now apply for_alerts_one_delivery.
Qed.

(** What one cycle does for a one-time alert: either no log row is added
    for it and its row stays, or one log row is added for it and its row
    is marked. *)
Lemma for_alerts_one_time_step (w : World) (st : Store) (table : list PriceAlert.t)
  (a : PriceAlert.t) :
  NoDup (map PriceAlert.id table) ->
  In a table ->
  PriceAlert.is_one_time a = true ->
  let c := price_scraper.for_alerts w st table in
  (List.filter (price_scraper.refers_to (PriceAlert.id a)) (price_scraper.new_logs c) = []
   /\ In a (price_scraper.rows c))
  \/ (exists log,
        List.filter (price_scraper.refers_to (PriceAlert.id a)) (price_scraper.new_logs c)
        = [log]
        /\ In (price_scraper.mark_triggered w a) (price_scraper.rows c)).
Proof.
  intros Hnd Hin Hone. induction table as [|b table IH]; simpl; [contradiction|].
  simpl in Hnd. apply NoDup_cons in Hnd as [Hnotin Hnd].
  rewrite list_elem_of_In in Hnotin.
  destruct Hin as [->|Hin].
  - pose proof (logs_for_absent w st table _ Hnotin) as Hrest.
    destruct (PriceAlert.is_active a); [|simpl; left; auto].
    destruct (price_scraper.check_alert w st a) as [|a' log d|exc ds] eqn:Hc; simpl.
    + left. auto.
    + right. exists log.
      apply check_alert_committed in Hc as (-> & Hid & _). rewrite Hone.
      apply refers_to_true in Hid. rewrite Hid, Hrest. auto.
    + left. auto.
  - assert (Hne : PriceAlert.id b <> PriceAlert.id a).
    { intros Heq. apply Hnotin. rewrite Heq. now apply in_map. }
    specialize (IH Hnd Hin).
    destruct (PriceAlert.is_active b).
    + destruct (price_scraper.check_alert w st b) as [|b' log d|exc ds] eqn:Hc; simpl.
      * destruct IH as [[Hl Hr]|(log & Hl & Hr)]; [left|right]; eauto.
      * apply check_alert_committed in Hc as (_ & Hid & _).
        assert (Hf : price_scraper.refers_to (PriceAlert.id a) log = false)
          by (apply refers_to_false; congruence).
        rewrite Hf.
        destruct IH as [[Hl Hr]|(log' & Hl & Hr)]; [left|right]; eauto.
      * left. auto.
    + simpl. destruct IH as [[Hl Hr]|(log & Hl & Hr)]; [left|right]; eauto.
Qed.

Lemma mark_triggered_facts (w : World) (a : PriceAlert.t) :
  PriceAlert.id (price_scraper.mark_triggered w a) = PriceAlert.id a
  /\ PriceAlert.is_triggered (price_scraper.mark_triggered w a) = true
  /\ PriceAlert.is_one_time (price_scraper.mark_triggered w a) = PriceAlert.is_one_time a.
Proof. now unfold price_scraper.mark_triggered. Qed.

(** X14. A one-time alert is logged at most once: over any number of
    poll cycles, whatever the prices and however the cycles end, the log
    rows added for it are at most one. *)
Theorem one_time_alert_is_logged_at_most_once (ws : list World) (st : Store)
  (a : PriceAlert.t) :
  NoDup (map PriceAlert.id (price_alerts st)) ->
  In a (price_alerts st) ->
  PriceAlert.is_one_time a = true ->
  exists added,
    notification_logs (fst (price_scraper.run_checker ws st))
    = (notification_logs st ++ added)%list
    /\ List.length (List.filter (price_scraper.refers_to (PriceAlert.id a)) added) <= 1.
Proof.
  intros Hnd Hin Hone. revert st Hnd Hin.
  induction ws as [|w ws IH]; intros st Hnd Hin; simpl.
  - exists []. rewrite app_nil_r. simpl. split; [reflexivity|lia].
  - destruct (query_raises w) as [exc|] eqn:Hq.
    + destruct (check_and_trigger_alerts_query_fault w st exc Hq) as [Hst _].
      rewrite Hst. specialize (IH st Hnd Hin).
      destruct (price_scraper.run_checker ws st) as [st' ds]. exact IH.
    + destruct (check_and_trigger_alerts_effects w st Hq) as (Hrows & Hlogs & _ & _ & _).
      pose proof (for_alerts_ids w st (price_alerts st)) as Hids.
      rewrite <- Hrows in Hids.
      assert (Hnd' : NoDup (map PriceAlert.id
                (price_alerts (price_scraper.store_after
                                 (price_scraper.check_and_trigger_alerts w st)))))
        by now rewrite Hids.
      destruct (for_alerts_one_time_step w st _ a Hnd Hin Hone) as [[Hnone Hrow]|(log & Hlog & Hrow)];
        rewrite <- Hrows in Hrow.
      * destruct (IH _ Hnd' Hrow) as (added & Hadded & Hcount).
        destruct (price_scraper.run_checker ws _) as [st' ds]. simpl in *.
        eexists. rewrite Hadded, Hlogs, <- app_assoc. split; [reflexivity|].
        now rewrite List.filter_app, Hnone.
      * destruct (mark_triggered_facts w a) as (Hid & Htrig & Hone').
        rewrite Hone in Hone'.
        destruct (consumed_alert_stays_silent ws _ _ Hnd' Hrow Hone' Htrig)
          as (_ & _ & added & Hadded & Hsilent).
        destruct (price_scraper.run_checker ws _) as [st' ds]. simpl in *.
        eexists. rewrite Hadded, Hlogs, <- app_assoc. split; [reflexivity|].
        rewrite List.filter_app, Hlog, (filter_none _ added); [simpl; lia|].
        intros l Hl. apply refers_to_false. now apply Hsilent.
Qed.

End Counting.

Lemma one_delivery_per_alert_per_cycle_witness :
  let st := examples.store true []
              [examples.price_alert 1 "above" 100 false false;
               examples.price_alert 2 "above" 100 true false] in
  List.length
    (deliveries_for 1
       (price_scraper.sent
          (price_scraper.check_and_trigger_alerts (H := examples.runtime)
             (examples.world 101 200) st)))
  <= 1.
Proof.
  intros st.
  apply (one_delivery_per_alert_per_cycle (H := examples.runtime)
           (examples.world 101 200) st 1).
  vm_compute. apply (bool_decide_unpack _). vm_compute. exact I.
Defined.

Lemma one_time_alert_is_logged_at_most_once_witness :
  let a := examples.price_alert 1 "above" 100 true false in
  let st := examples.store true [] [a] in
  exists added,
    notification_logs
      (fst (price_scraper.run_checker (H := examples.runtime)
              [examples.world 99 200; examples.world 101 200; examples.world 105 200] st))
    = (notification_logs st ++ added)%list
    /\ List.length (List.filter (price_scraper.refers_to (PriceAlert.id a)) added) <= 1.
Proof.
  intros a st.
  apply (one_time_alert_is_logged_at_most_once (H := examples.runtime)
           [examples.world 99 200; examples.world 101 200; examples.world 105 200] st a).
  - vm_compute. apply (bool_decide_unpack _). vm_compute. exact I.
  - left. reflexivity.
  - reflexivity.
Defined.

(** ** Reading the price out of a quote *)

Section Extraction.
Context `{PyRuntime}.

Lemma py_getitem_ok (d : json) (k : string) (v : json) :
  py_getitem d k = Ok v -> exists m, d = JObj m /\ m !! k = Some v.
Proof.
  unfold py_getitem, subscript. destruct d as [| | | | s|l|m]; try discriminate.
  destruct (m !! k) eqn:Hk; [|discriminate]. intros Heq. injection Heq as ->. eauto.
Qed.

Lemma py_in_object (k : string) (m : gmap string json) (v : json) :
  m !! k = Some v -> py_in k (JObj m) = Ok true.
Proof. intros Hk. simpl. rewrite bool_decide_eq_true_2; eauto. Qed.

Lemma py_getitem_object (k : string) (m : gmap string json) (v : json) :
  m !! k = Some v -> py_getitem (JObj m) k = Ok v.
Proof. intros Hk. unfold py_getitem, subscript. now rewrite Hk. Qed.

Lemma py_first_object (results : json) (r : gmap string json) :
  py_first results = Ok (JObj r) -> exists rest, results = JArr (JObj r :: rest).
Proof.
  destruct results as [| | | | [|c s]|[|first rest]|m]; simpl; try discriminate.
  intros Heq. injection Heq as ->. eauto.
Qed.

(** X15. The secondary source gives a price exactly when it answers 200
    with a JSON object whose "chart" is an object, whose "result" is a
    list that starts with an object, whose "meta" is an object with a
    "regularMarketPrice" that [float] accepts; the price is that value,
    for the symbol asked, stamped with the time of the call. Every other
    answer (another status, no JSON, a list or a string where an object
    is expected, an empty result, a value that is not a number) gives
    nothing. *)
Theorem alternative_source_price_iff (w : World) (symbol : string)
  (pd : price_scraper.price_data) :
  price_scraper.get_price_from_alternative_source w symbol = Some pd <->
  exists text m chart r rest meta v,
    requests_get w (price_scraper.yahoo_url symbol) = Response 200 text (Some (JObj m))
    /\ m !! "chart" = Some (JObj chart)
    /\ chart !! "result" = Some (JArr (JObj r :: rest))
    /\ r !! "meta" = Some (JObj meta)
    /\ meta !! "regularMarketPrice" = Some v
    /\ py_float v = Some (price_scraper.price pd)
    /\ price_scraper.pd_symbol pd = symbol
    /\ price_scraper.timestamp pd = isoformat (now w).
Proof.
  unfold price_scraper.get_price_from_alternative_source,
    price_scraper.get_price_from_alternative_source_try.
  split.
  - destruct (requests_get w _) as [exc|status_code text body]; [discriminate|].
    destruct (Z.eqb_spec status_code 200) as [->|_]; [|discriminate].
    destruct body as [data|]; [|discriminate]. simpl.
    destruct (py_in "chart" data) as [[|]|e] eqn:Hin; simpl; try discriminate.
    destruct (py_getitem data "chart") as [chart|e] eqn:Hchart; simpl; [|discriminate].
    destruct (py_in "result" chart) as [[|]|e] eqn:Hin2; simpl; try discriminate.
    destruct (py_getitem chart "result") as [results|e] eqn:Hresults; simpl; [|discriminate].
    destruct (py_len results) as [n|e] eqn:Hlen; simpl; [|discriminate].
    destruct (Nat.ltb 0 n); simpl; [|discriminate].
    destruct (py_first results) as [result|e] eqn:Hfirst; simpl; [|discriminate].
    destruct (py_in "meta" result) as [[|]|e] eqn:Hin3; simpl; try discriminate.
    destruct (py_getitem result "meta") as [meta|e] eqn:Hmeta; simpl; [|discriminate].
    destruct (py_in "regularMarketPrice" meta) as [[|]|e] eqn:Hin4; simpl; try discriminate.
    destruct (py_getitem meta "regularMarketPrice") as [v|e] eqn:Hv; simpl; [|discriminate].
    unfold price_scraper.to_float.
    destruct (py_float v) as [f|] eqn:Hf; simpl; [|discriminate].
    intros Heq. injection Heq as <-. simpl.
    apply py_getitem_ok in Hchart as (m & -> & Hm).
    apply py_getitem_ok in Hresults as (c & -> & Hc).
    apply py_getitem_ok in Hmeta as (r & -> & Hr).
    apply py_getitem_ok in Hv as (mt & -> & Hmt).
    apply py_first_object in Hfirst as (rest & ->).
    exists text, m, c, r, rest, mt, v. repeat split; auto.
  - intros (text & m & chart & r & rest & meta & v & -> & Hm & Hc & Hr & Hmt & Hf & Hs & Ht).
    cbn -[py_in py_getitem].
    rewrite (py_in_object _ _ _ Hm). cbn -[py_in py_getitem].
    rewrite (py_getitem_object _ _ _ Hm). cbn -[py_in py_getitem].
    rewrite (py_in_object _ _ _ Hc). cbn -[py_in py_getitem].
    rewrite (py_getitem_object _ _ _ Hc). cbn -[py_in py_getitem].
    rewrite (py_in_object _ _ _ Hr). cbn -[py_in py_getitem].
    rewrite (py_getitem_object _ _ _ Hr). cbn -[py_in py_getitem].
    rewrite (py_in_object _ _ _ Hmt). cbn -[py_in py_getitem].
    rewrite (py_getitem_object _ _ _ Hmt). cbn -[py_in py_getitem].
    unfold price_scraper.to_float. rewrite Hf. simpl.
    destruct pd; simpl in *; congruence.
Qed.

(** X16. With an API key configured, [get_price_data] gives a price
    exactly when the primary source answers 200 with a JSON object whose
    "Global Quote" is an object with a "05. price" that [float] accepts;
    the price is that value, for the symbol asked, stamped with the time
    of the call. *)
Theorem primary_source_price_iff (w : World) (symbol : string)
  (pd : price_scraper.price_data) :
  ALPHA_VANTAGE_API_KEY w <> EmptyString ->
  price_scraper.get_price_data w symbol = Some pd <->
  exists text m quote v,
    requests_get w (price_scraper.alpha_vantage_url symbol (ALPHA_VANTAGE_API_KEY w))
    = Response 200 text (Some (JObj m))
    /\ m !! "Global Quote" = Some (JObj quote)
    /\ quote !! "05. price" = Some v
    /\ py_float v = Some (price_scraper.price pd)
    /\ price_scraper.pd_symbol pd = symbol
    /\ price_scraper.timestamp pd = isoformat (now w).
Proof.
  intros Hkey. unfold price_scraper.get_price_data, price_scraper.get_price_data_try.
  destruct (String.eqb_spec (ALPHA_VANTAGE_API_KEY w) EmptyString) as [Heq|_]; [contradiction|].
  split.
  - destruct (requests_get w _) as [exc|status_code text body]; [discriminate|].
    destruct (Z.eqb_spec status_code 200) as [->|_]; [|discriminate].
    destruct body as [data|]; [|discriminate]. simpl.
    destruct (py_in "Global Quote" data) as [[|]|e] eqn:Hin; simpl; try discriminate.
    destruct (py_getitem data "Global Quote") as [quote|e] eqn:Hget; simpl; [|discriminate].
    destruct (py_in "05. price" quote) as [[|]|e] eqn:Hin2; simpl; try discriminate.
    destruct (py_getitem quote "05. price") as [v|e] eqn:Hget2; simpl; [|discriminate].
    unfold price_scraper.to_float.
    destruct (py_float v) as [f|] eqn:Hf; simpl; [|discriminate].
    intros Heq. injection Heq as <-. simpl.
    apply py_getitem_ok in Hget as (m & -> & Hm).
    apply py_getitem_ok in Hget2 as (q & -> & Hq).
    exists text, m, q, v. repeat split; auto.
  - intros (text & m & quote & v & -> & Hm & Hq & Hf & Hs & Ht).
    cbn -[py_in py_getitem].
    rewrite (py_in_object _ _ _ Hm). cbn -[py_in py_getitem].
    rewrite (py_getitem_object _ _ _ Hm). cbn -[py_in py_getitem].
    rewrite (py_in_object _ _ _ Hq). cbn -[py_in py_getitem].
    rewrite (py_getitem_object _ _ _ Hq). cbn -[py_in py_getitem].
    unfold price_scraper.to_float. rewrite Hf. simpl.
    destruct pd; simpl in *; congruence.
Qed.

End Extraction.

Lemma primary_source_price_iff_witness :
  let w := more_examples.world_with_key "101" in
  let pd := {| price_scraper.pd_symbol := "AAPL";
               price_scraper.price := examples.float_of_pos 101;
               price_scraper.timestamp := "5" |} in
  price_scraper.get_price_data (H := examples.runtime) w "AAPL" = Some pd <->
  exists text m quote v,
    requests_get w (price_scraper.alpha_vantage_url "AAPL" (ALPHA_VANTAGE_API_KEY w))
    = Response 200 text (Some (JObj m))
    /\ m !! "Global Quote" = Some (JObj quote)
    /\ quote !! "05. price" = Some v
    /\ py_float (PyRuntime := examples.runtime) v = Some (price_scraper.price pd)
    /\ price_scraper.pd_symbol pd = "AAPL"
    /\ price_scraper.timestamp pd = isoformat (PyRuntime := examples.runtime) (now w).
Proof.
  intros w pd.
  apply (primary_source_price_iff (H := examples.runtime) w "AAPL" pd).
  vm_compute. discriminate.
Defined.

Example primary_source_quote :
  price_scraper.get_price_data (H := examples.runtime)
    (more_examples.world_with_key "101") "AAPL"
  = Some {| price_scraper.pd_symbol := "AAPL";
            price_scraper.price := examples.float_of_pos 101;
            price_scraper.timestamp := "5" |}.
Proof. vm_compute. reflexivity. Qed.

(** ** The admin actions on keys and price alerts *)

Section AdminEdits.
Context `{PyRuntime}.

Lemma find_update_first_other {A : Type} (p q : A -> bool) (f : A -> A) (l : list A)
  (a : A) :
  List.find p l = Some a -> q a = false -> q (f a) = false ->
  List.find q (config.update_first p f l) = List.find q l.
Proof.
  intros Hfind Ha Hfa. induction l as [|x l IH]; simpl in *; [reflexivity|].
  destruct (p x) eqn:Hx.
  - injection Hfind as ->. simpl. now rewrite Ha, Hfa.
  - simpl. destruct (q x); [reflexivity|]. now apply IH.
Qed.

(** X17. Regenerating the key of one webhook alert does not disturb the
    others: whether the action commits or not, every key other than the
    prior key and the key drawn resolves after the action exactly as it
    did before, and the other tables are left as they are. *)
Theorem regeneration_leaves_other_keys_alone (w : World) (st : Store)
  (form : gmap string string) (alert : TradingViewAlert.t) (key : string) :
  config.query_get TradingViewAlert.id (tradingview_alerts st) (form !! "alert_id")
  = Some alert ->
  key <> TradingViewAlert.webhook_key alert ->
  key <> config.generate_webhook_key w 16 ->
  let st' := fst (config.regenerate_webhook w st form) in
  webhook.find_alert_config st' key = webhook.find_alert_config st key
  /\ telegram_configs st' = telegram_configs st
  /\ price_alerts st' = price_alerts st
  /\ notification_logs st' = notification_logs st.
Proof.
  intros Hget Hold Hnew. unfold config.regenerate_webhook. rewrite Hget.
  destruct (query_raises w); [simpl; auto|].
  destruct (bool_decide _); simpl; [|auto].
  repeat split. unfold webhook.find_alert_config. simpl.
  unfold config.query_get in Hget.
  destruct (form !! "alert_id" ≫= py_int) as [i|]; [|discriminate]. simpl in Hget.
  apply find_some in Hget as Hfound. destruct Hfound as [_ Hid].
  apply Z.eqb_eq in Hid. subst i.
  apply (find_update_first_other _ _ _ _ alert Hget); cbv beta.
  - apply andb_false_iff. left. apply String.eqb_neq. congruence.
  - apply andb_false_iff. left. apply String.eqb_neq.
    intros Heq. apply Hnew. symmetry. exact Heq.
Qed.

Lemma update_first_ids {A : Type} (id_of : A -> Z) (p : A -> bool) (f : A -> A)
  (l : list A) :
  (forall x, id_of (f x) = id_of x) ->
  map id_of (config.update_first p f l) = map id_of l.
Proof.
  intros Hid. induction l as [|x l IH]; simpl; [reflexivity|].
  destruct (p x); simpl; [now rewrite Hid|now rewrite IH].
Qed.

(** X18. The edit of a price alert is all or nothing: unless it ends
    with the success message the store is exactly as it was; and in
    every case the primary keys of the price alerts, the log rows and the
    other tables are left as they are. *)
Theorem price_alert_edit_is_atomic (w : World) (st : Store) (form : gmap string string) :
  let r := config.edit_price_alert w st form in
  (snd r <> ("Price alert updated successfully", "success") -> fst r = st)
  /\ map PriceAlert.id (price_alerts (fst r)) = map PriceAlert.id (price_alerts st)
  /\ notification_logs (fst r) = notification_logs st
  /\ telegram_configs (fst r) = telegram_configs st
  /\ tradingview_alerts (fst r) = tradingview_alerts st.
Proof.
  unfold config.edit_price_alert.
  destruct (query_raises w); [simpl; auto|].
  destruct (config.query_get _ _ _); [|simpl; auto].
  destruct (form !! "symbol"); [|simpl; auto].
  destruct (form !! "target_price") as [tp|]; [|simpl; auto].
  destruct (py_float (JStr tp)); [|simpl; auto].
  destruct (form !! "name"); [|simpl; auto].
  destruct (form !! "alert_type"); [|simpl; auto].
  destruct (form !! "telegram_config_id" ≫= py_int); [|simpl; auto].
  destruct (form !! "message_template"); [|simpl; auto].
  simpl. split; [intros Hne; now destruct Hne|].
  split; [|auto]. now apply update_first_ids.
Qed.

End AdminEdits.

Lemma regeneration_leaves_other_keys_alone_witness :
  let hooks := [examples.webhook_alert 1 "0123456789abcdef" "one";
                examples.webhook_alert 2 "fedcba9876543210" "two"] in
  let st := examples.store true hooks [] in
  let st' := fst (config.regenerate_webhook (H := examples.runtime)
                    (examples.world 101 200) st examples.regenerate_form) in
  webhook.find_alert_config st' "fedcba9876543210"
  = webhook.find_alert_config st "fedcba9876543210"
  /\ telegram_configs st' = telegram_configs st
  /\ price_alerts st' = price_alerts st
  /\ notification_logs st' = notification_logs st.
Proof.
  intros hooks st.
  apply (regeneration_leaves_other_keys_alone (H := examples.runtime)
           (examples.world 101 200) st examples.regenerate_form
           (examples.webhook_alert 1 "0123456789abcdef" "one") "fedcba9876543210").
  - vm_compute. reflexivity.
  - vm_compute. discriminate.
  - vm_compute. discriminate.
Defined.

(** ** The database URL *)

Lemma prefix_split (p s : string) :
  String.prefix p s = true -> exists rest, s = p ++ rest.
Proof.
  revert s. induction p as [|c p IH]; intros s; simpl; [eauto|].
  destruct s as [|c' s]; simpl; [discriminate|].
  destruct (ascii_dec c c') as [->|_]; [|discriminate].
  intros Hp. destruct (IH s Hp) as [rest ->]. eauto.
Qed.

Lemma prefix_append (p rest : string) : String.prefix p (p ++ rest) = true.
Proof.
  induction p as [|c p IH]; simpl; [now destruct rest|].
  destruct (ascii_dec c c); [exact IH|contradiction].
Qed.

Lemma replace_first_at_head (old new s : string) :
  old <> EmptyString -> String.prefix old s = true ->
  app.replace_first old new s = new ++ app.string_drop (String.length old) s.
Proof.
  intros Hold Hp. destruct s as [|c s]; simpl.
  - destruct old; [contradiction|discriminate].
  - simpl in Hp. now rewrite Hp.
Qed.

Lemma database_url_postgres (rest : string) :
  app.database_url (Some ("postgres://" ++ rest)) = "postgresql://" ++ rest.
Proof.
  unfold app.database_url.
  change (default "sqlite:///tradingview_telegram.db" (Some ("postgres://" ++ rest)))
    with ("postgres://" ++ rest).
  rewrite (prefix_append "postgres://" rest).
  rewrite replace_first_at_head by (try discriminate; apply prefix_append).
  reflexivity.
Qed.

(** X19. The database URL handed to the engine never starts with
    "postgres://": a URL of the environment that does is rewritten to
    start with "postgresql://" and is otherwise kept, any other URL is
    used as it is, and without a URL the SQLite file is used. *)
Theorem database_url_scheme (env : option string) :
  String.prefix "postgres://" (app.database_url env) = false
  /\ (forall rest, env = Some ("postgres://" ++ rest) ->
        app.database_url env = "postgresql://" ++ rest)
  /\ (forall url, env = Some url -> String.prefix "postgres://" url = false ->
        app.database_url env = url)
  /\ (env = None -> app.database_url env = "sqlite:///tradingview_telegram.db").
Proof.
  split; [|split; [|split]].
  - destruct env as [url|]; [|reflexivity].
    destruct (String.prefix "postgres://" url) eqn:Hp.
    + destruct (prefix_split _ _ Hp) as [rest ->].
      rewrite database_url_postgres. reflexivity.
    + unfold app.database_url. simpl. rewrite Hp. now rewrite andb_false_r.
  - intros rest ->. apply database_url_postgres.
  - intros url -> Hp. unfold app.database_url. simpl. rewrite Hp.
    now rewrite andb_false_r.
  - intros ->. reflexivity.
Qed.

(** ** The Telegram configurations *)

Section TelegramConfigs.
Context `{PyRuntime}.

(** X20. The action that adds a Telegram configuration sends at most one
    message, the connection test, and saves a configuration only when
    both fields are filled in and that test message was delivered; the
    configuration saved is active and holds the token and the chat of
    the form. In every other case the store is left as it is. *)
Theorem configuration_is_saved_only_after_delivered_test (w : World) (new_id : Z)
  (st : Store) (form : gmap string string) :
  let r := telegram_config.add w new_id st form in
  List.length (admin_sent r) <= 1
  /\ (admin_store r = st
      \/ exists token chat,
           form !! "bot_token" = Some token /\ form !! "chat_id" = Some chat
           /\ token <> EmptyString /\ chat <> EmptyString
           /\ telegram_bot.success
                (telegram_bot.send_telegram_message w token chat test_message) = true
           /\ admin_sent r
              = [{| to_bot := token; to_chat := chat; text_sent := test_message;
                    delivered := true |}]
           /\ admin_store r
              = telegram_config.with_telegram_configs st
                  (<[new_id := {| TelegramConfig.bot_token := token;
                                  TelegramConfig.chat_id := chat;
                                  TelegramConfig.is_active := true;
                                  TelegramConfig.created_at := utcnow w;
                                  TelegramConfig.updated_at := utcnow w |}]>
                     (telegram_configs st))).
Proof.
  unfold telegram_config.add, blank, test_telegram_connection.
  destruct (form !! "bot_token") as [token|]; [|simpl; split; [lia|now left]].
  destruct (String.eqb_spec token EmptyString) as [->|Htoken]; [simpl; split; [lia|now left]|].
  destruct (form !! "chat_id") as [chat|]; [|simpl; split; [lia|now left]].
  destruct (String.eqb_spec chat EmptyString) as [->|Hchat]; [simpl; split; [lia|now left]|].
  cbn [orb default from_option id negb].
  destruct (telegram_bot.success _) eqn:Hok; cbn [negb].
  - destruct (telegram_configs st !! new_id); simpl; (split; [lia|]); [now left|].
    right. exists token, chat. repeat split; auto.
  - simpl. split; [lia|now left].
Qed.

(** X21. The action that deletes a Telegram configuration never deletes
    one: whatever the form and whatever the database answers, the store
    is left as it is, nothing is sent, and the action ends on one
    message of the category "danger", never on the message of success. *)
Theorem telegram_delete_never_deletes (w : World) (new_id : Z) (st : Store)
  (form : gmap string string) :
  form !! "action" = Some "delete" ->
  let r := telegram_config.post w new_id st form in
  admin_store r = st
  /\ admin_sent r = []
  /\ exists message, flashed r = [(message, "danger")].
Proof.
  intros Haction. unfold telegram_config.post. rewrite Haction.
  rewrite !bool_decide_eq_false_2 by discriminate.
  rewrite bool_decide_eq_true_2 by reflexivity.
  unfold telegram_config.delete.
  destruct (query_raises w); [simpl; eauto|].
  destruct (telegram_config.query_get st (form !! "config_id")) as [[i c]|]; simpl; eauto.
Qed.

(** X22. Once the edit of a Telegram configuration with the box "active"
    unchecked has committed, every webhook request whose key resolves to
    an alert of that configuration is answered 400, with nothing sent
    and nothing logged. *)
Theorem deactivated_configuration_stops_webhooks (w w' : World) (st : Store)
  (form : gmap string string) (i : Z) (c : TelegramConfig.t) (webhook_key : string)
  (alert_config : TradingViewAlert.t) (req : webhook.Request) :
  telegram_config.query_get st (form !! "config_id") = Some (i, c) ->
  flashed (telegram_config.edit w st form)
  = [("Configuration updated successfully", "success")] ->
  form !! "is_active" <> Some "on" ->
  webhook.find_alert_config st webhook_key = Some alert_config ->
  TradingViewAlert.telegram_config_id alert_config = i ->
  query_raises w' = None ->
  let st' := admin_store (telegram_config.edit w st form) in
  let h := webhook.receive_alert w' st' webhook_key req in
  webhook.code (webhook.response h) = 400%Z
  /\ webhook.sent h = []
  /\ webhook.store_after h = st'.
Proof.
  intros Hget Hflash Hoff Hfind Hid Hq'.
  unfold telegram_config.edit in *. rewrite Hget in *.
  destruct (query_raises w); [discriminate Hflash|].
  destruct (form !! "bot_token") as [token|]; [|discriminate Hflash].
  destruct (form !! "chat_id") as [chat|]; [|discriminate Hflash].
  cbn -[insert lookup] in *.
  unfold webhook.receive_alert, webhook.receive_alert_try.
  rewrite Hq'.
  change (webhook.find_alert_config
            (telegram_config.with_telegram_configs st _) webhook_key)
    with (webhook.find_alert_config st webhook_key).
  rewrite Hfind. cbn [telegram_configs telegram_config.with_telegram_configs].
  rewrite Hid, lookup_insert_eq. cbn [TelegramConfig.is_active].
  rewrite bool_decide_eq_false_2 by exact Hoff. simpl. auto.
Qed.

Lemma check_alert_ignores_active_flag (w : World) (st st' : Store) (a : PriceAlert.t) :
  (forall i,
     (fun c => (TelegramConfig.bot_token c, TelegramConfig.chat_id c))
       <$> (telegram_configs st' !! i)
     = (fun c => (TelegramConfig.bot_token c, TelegramConfig.chat_id c))
       <$> (telegram_configs st !! i)) ->
  price_scraper.check_alert w st' a = price_scraper.check_alert w st a.
Proof.
  intros Hsame. unfold price_scraper.check_alert.
  destruct (PriceAlert.is_one_time a && PriceAlert.is_triggered a); [reflexivity|].
  destruct (price_scraper.get_price_data w (PriceAlert.symbol a)) as [pd|]; [|reflexivity].
  destruct (price_scraper.alert_triggered a (price_scraper.price pd)); [|reflexivity].
  specialize (Hsame (PriceAlert.telegram_config_id a)).
  destruct (telegram_configs st' !! PriceAlert.telegram_config_id a) as [c'|],
    (telegram_configs st !! PriceAlert.telegram_config_id a) as [c|];
    simpl in Hsame; try discriminate; [|reflexivity].
  injection Hsame as -> ->. reflexivity.
Qed.

Lemma for_alerts_ignores_active_flag (w : World) (st st' : Store)
  (table : list PriceAlert.t) :
  (forall a, price_scraper.check_alert w st' a = price_scraper.check_alert w st a) ->
  price_scraper.for_alerts w st' table = price_scraper.for_alerts w st table.
Proof.
  intros Hsame. induction table as [|a table IH]; simpl; [reflexivity|].
  now rewrite Hsame, IH.
Qed.

(** X23. The poll cycle does not look at the active flag of a Telegram
    configuration: in two stores with the same price alerts whose
    Telegram configurations have the same tokens and chats, a cycle
    sends the same messages, leaves the same price alerts and adds the
    same log rows. *)
Theorem poll_cycle_ignores_telegram_active_flag (w : World) (st st' : Store) :
  price_alerts st' = price_alerts st ->
  (forall i,
     (fun c => (TelegramConfig.bot_token c, TelegramConfig.chat_id c))
       <$> (telegram_configs st' !! i)
     = (fun c => (TelegramConfig.bot_token c, TelegramConfig.chat_id c))
       <$> (telegram_configs st !! i)) ->
  let p := price_scraper.check_and_trigger_alerts w st in
  let p' := price_scraper.check_and_trigger_alerts w st' in
  price_scraper.sent p' = price_scraper.sent p
  /\ price_alerts (price_scraper.store_after p')
     = price_alerts (price_scraper.store_after p)
  /\ exists added,
       notification_logs (price_scraper.store_after p)
       = (notification_logs st ++ added)%list
       /\ notification_logs (price_scraper.store_after p')
          = (notification_logs st' ++ added)%list.
Proof.
  intros Hrows Hsame p p'. subst p p'.
  destruct (query_raises w) as [exc|] eqn:Hq.
  - destruct (check_and_trigger_alerts_query_fault w st exc Hq) as [-> ->].
    destruct (check_and_trigger_alerts_query_fault w st' exc Hq) as [-> ->].
    repeat split; auto. exists []. now rewrite !app_nil_r.
  - destruct (check_and_trigger_alerts_effects w st Hq) as (-> & -> & _ & -> & _).
    destruct (check_and_trigger_alerts_effects w st' Hq) as (-> & -> & _ & -> & _).
    rewrite Hrows.
    rewrite (for_alerts_ignores_active_flag w st st' (price_alerts st))
      by (intros a; now apply check_alert_ignores_active_flag).
    repeat split; auto. eauto.
Qed.

End TelegramConfigs.

Lemma telegram_delete_never_deletes_witness :
  let st := examples.store true [] [] in
  let r := telegram_config.post (H := examples.runtime) (examples.world 101 200) 2 st
             more_examples.delete_config_form in
  (telegram_config.query_get (H := examples.runtime) st
     (more_examples.delete_config_form !! "config_id") = Some (1%Z, examples.chat true))
  /\ admin_store r = st
  /\ admin_sent r = []
  /\ exists message, flashed r = [(message, "danger")].
Proof.
  intros st. split; [vm_compute; reflexivity|].
  apply (telegram_delete_never_deletes (H := examples.runtime) (examples.world 101 200) 2 st
           more_examples.delete_config_form).
  vm_compute. reflexivity.
Defined.

Lemma deactivated_configuration_stops_webhooks_witness :
  let hook := examples.webhook_alert 1 "key" TradingViewAlert.default_message_template in
  let st := examples.store true [hook] [] in
  let w := examples.world 101 200 in
  let st' := admin_store (telegram_config.edit (H := examples.runtime) w st
                            more_examples.deactivate_config_form) in
  let h := webhook.receive_alert (H := examples.runtime) w st' "key"
             (examples.request examples.breakout_payload) in
  webhook.code (webhook.response h) = 400%Z
  /\ webhook.sent h = []
  /\ webhook.store_after h = st'.
Proof.
  intros hook st w.
  apply (deactivated_configuration_stops_webhooks (H := examples.runtime) w w st
           more_examples.deactivate_config_form 1 (examples.chat true) "key" hook
           (examples.request examples.breakout_payload)).
  - vm_compute. reflexivity.
  - vm_compute. reflexivity.
  - vm_compute. discriminate.
  - vm_compute. reflexivity.
  - reflexivity.
  - reflexivity.
Defined.

Lemma poll_cycle_ignores_telegram_active_flag_witness :
  let alerts := [examples.price_alert 1 "above" 100 false false] in
  let st := examples.store true [] alerts in
  let st' := examples.store false [] alerts in
  let w := examples.world 101 200 in
  let p := price_scraper.check_and_trigger_alerts (H := examples.runtime) w st in
  let p' := price_scraper.check_and_trigger_alerts (H := examples.runtime) w st' in
  price_scraper.sent p' = price_scraper.sent p
  /\ price_alerts (price_scraper.store_after p')
     = price_alerts (price_scraper.store_after p)
  /\ exists added,
       notification_logs (price_scraper.store_after p)
       = (notification_logs st ++ added)%list
       /\ notification_logs (price_scraper.store_after p')
          = (notification_logs st' ++ added)%list.
Proof.
  intros alerts st st' w.
  apply (poll_cycle_ignores_telegram_active_flag (H := examples.runtime) w st st').
  - reflexivity.
  - intros i. unfold st, st', examples.store. cbn [telegram_configs].
    destruct (decide (i = 1%Z)) as [->|Hne].
    + rewrite !lookup_singleton_eq. reflexivity.
    + rewrite !lookup_singleton_ne by congruence. reflexivity.
Defined.

(** ** The admin actions on webhook alerts *)

Section WebhookAlerts.
Context `{PyRuntime}.

Lemma find_append {A : Type} (f : A -> bool) (l l' : list A) :
  List.find f (l ++ l') = match List.find f l with
                          | Some x => Some x
                          | None => List.find f l'
                          end.
Proof.
  induction l as [|x l IH]; simpl; [reflexivity|]. now destruct (f x).
Qed.

(** X24. A webhook alert that the admin action has added is reachable at
    once: the key drawn for it resolves to the new alert, which is
    active, carries the name of the form and is the last row of the
    table. *)
Theorem added_alert_is_reachable_by_its_key (w : World) (new_id : Z) (st : Store)
  (form : gmap string string) :
  flashed (alerts_config.add w new_id st form)
  = [("Alert configuration added successfully", "success")] ->
  let st' := admin_store (alerts_config.add w new_id st form) in
  exists alert_config,
    webhook.find_alert_config st' (config.generate_webhook_key w 16) = Some alert_config
    /\ tradingview_alerts st' = (tradingview_alerts st ++ [alert_config])%list
    /\ TradingViewAlert.id alert_config = new_id
    /\ TradingViewAlert.webhook_key alert_config = config.generate_webhook_key w 16
    /\ TradingViewAlert.is_active alert_config = true
    /\ form !! "name" = Some (TradingViewAlert.name alert_config).
Proof.
  unfold alerts_config.add.
  destruct (blank (form !! "name")) eqn:Hname; [discriminate|].
  destruct (blank (form !! "telegram_config_id")); [discriminate|].
  cbn [orb].
  destruct (form !! "telegram_config_id" ≫= py_int) as [tc|]; [|discriminate].
  cbn [config.not_null mbind outcome_bind bind_outcome].
  destruct (existsb _ (tradingview_alerts st)); [discriminate|].
  destruct (bool_decide _) eqn:Hunique; [|discriminate].
  intros _. cbn [try_except admin_store alerts_config.with_tradingview_alerts
                   tradingview_alerts].
  eexists. split; [|split; [reflexivity|]].
  - unfold webhook.find_alert_config.
    cbn [tradingview_alerts alerts_config.with_tradingview_alerts].
    rewrite find_append.
    apply bool_decide_eq_true in Hunique. unfold config.unique_webhook_keys in Hunique.
    rewrite map_app in Hunique. apply NoDup_app in Hunique as (_ & Hfresh & _).
    rewrite find_none_intro.
    + cbn [List.find TradingViewAlert.webhook_key TradingViewAlert.is_active].
      now rewrite String.eqb_refl.
    + intros r Hr. apply andb_false_iff. left. apply String.eqb_neq. intros Hkey.
      apply (Hfresh (TradingViewAlert.webhook_key r)).
      * apply list_elem_of_In. now apply in_map.
      * rewrite Hkey. cbn [map TradingViewAlert.webhook_key]. apply list_elem_of_here.
  - cbn [TradingViewAlert.id TradingViewAlert.webhook_key TradingViewAlert.is_active
           TradingViewAlert.name].
    repeat split. unfold blank in Hname.
    now destruct (form !! "name").
Qed.

Lemma rows_with_the_key (p : TradingViewAlert.t -> bool)
  (f : TradingViewAlert.t -> TradingViewAlert.t)
  (table : list TradingViewAlert.t) (alert r : TradingViewAlert.t) :
  (forall x, TradingViewAlert.webhook_key (f x) = TradingViewAlert.webhook_key x) ->
  config.unique_webhook_keys table ->
  List.find p table = Some alert ->
  In r (config.update_first p f table) ->
  TradingViewAlert.webhook_key r = TradingViewAlert.webhook_key alert ->
  r = f alert.
Proof.
  unfold config.unique_webhook_keys. intros Hkeep Hnd Hfind.
  induction table as [|x table IH]; simpl in *; [discriminate|].
  apply NoDup_cons in Hnd as [Hnotin Hnd].
  destruct (p x) eqn:Hx.
  - injection Hfind as ->. intros [<-|Hin]; [reflexivity|].
    intros Hkey. exfalso. apply Hnotin. rewrite <- Hkey.
    apply list_elem_of_In. now apply in_map.
  - intros [<-|Hin]; [|now apply IH].
    intros Hkey. exfalso. apply Hnotin. rewrite Hkey.
    apply list_elem_of_In. apply in_map. now apply find_some in Hfind as [Hin _].
Qed.

Lemma update_first_keys (p : TradingViewAlert.t -> bool)
  (f : TradingViewAlert.t -> TradingViewAlert.t) (table : list TradingViewAlert.t) :
  (forall x, TradingViewAlert.webhook_key (f x) = TradingViewAlert.webhook_key x) ->
  map TradingViewAlert.webhook_key (config.update_first p f table)
  = map TradingViewAlert.webhook_key table.
Proof.
  intros Hkeep. induction table as [|x table IH]; simpl; [reflexivity|].
  destruct (p x); simpl; [now rewrite Hkeep|now rewrite IH].
Qed.

(** X25. The edit of a webhook alert never changes a key, whatever the
    form and whether the edit commits or not; and once the edit of an
    alert with the box "active" unchecked has committed, a request that
    bears the key of that alert is answered 404, with nothing sent and
    nothing logged. *)
Theorem deactivated_alert_is_rejected (w : World) (st : Store)
  (form : gmap string string) :
  let st' := admin_store (alerts_config.edit w st form) in
  map TradingViewAlert.webhook_key (tradingview_alerts st')
  = map TradingViewAlert.webhook_key (tradingview_alerts st)
  /\ forall (w' : World) (alert : TradingViewAlert.t) (req : webhook.Request),
       config.unique_webhook_keys (tradingview_alerts st) ->
       config.query_get TradingViewAlert.id (tradingview_alerts st) (form !! "alert_id")
       = Some alert ->
       flashed (alerts_config.edit w st form) = [("Alert updated successfully", "success")] ->
       form !! "is_active" <> Some "on" ->
       query_raises w' = None ->
       let h := webhook.receive_alert w' st' (TradingViewAlert.webhook_key alert) req in
       webhook.code (webhook.response h) = 404%Z
       /\ webhook.sent h = []
       /\ webhook.store_after h = st'.
Proof.
  split.
  - unfold alerts_config.edit.
    destruct (query_raises w); [reflexivity|].
    destruct (config.query_get _ _ _) as [alert|]; [|reflexivity].
    destruct (form !! "name") as [name|]; [|reflexivity].
    destruct (form !! "telegram_config_id" ≫= py_int) as [tc|]; [|reflexivity].
    destruct (form !! "message_template") as [template|]; [|reflexivity].
    cbn [config.not_null mbind outcome_bind bind_outcome try_except admin_store
         tradingview_alerts alerts_config.with_tradingview_alerts].
    now apply update_first_keys.
  - intros w' alert req Hnd Hget Hflash Hoff Hq'.
    unfold alerts_config.edit in *. rewrite Hget in *.
    destruct (query_raises w); [discriminate Hflash|].
    destruct (form !! "name") as [name|]; [|discriminate Hflash].
    destruct (form !! "telegram_config_id" ≫= py_int) as [tc|]; [|discriminate Hflash].
    destruct (form !! "message_template") as [template|]; [|discriminate Hflash].
    cbn [config.not_null mbind outcome_bind bind_outcome try_except admin_store].
    rewrite bool_decide_eq_false_2 by exact Hoff.
    unfold config.query_get in Hget.
    destruct (form !! "alert_id" ≫= py_int) as [i|]; [|discriminate]. simpl in Hget.
    apply find_some in Hget as Hfound. destruct Hfound as [_ Hid].
    apply Z.eqb_eq in Hid. subst i.
    assert (Hnone : webhook.find_alert_config
                      (alerts_config.with_tradingview_alerts st
                         (config.update_first
                            (fun r => (TradingViewAlert.id r =? TradingViewAlert.id alert)%Z)
                            (fun r => alerts_config.edited r name template tc false (utcnow w))
                            (tradingview_alerts st)))
                      (TradingViewAlert.webhook_key alert) = None).
    { unfold webhook.find_alert_config.
      cbn [tradingview_alerts alerts_config.with_tradingview_alerts].
      apply find_none_intro. intros r Hr.
      destruct (String.eqb_spec (TradingViewAlert.webhook_key r)
                  (TradingViewAlert.webhook_key alert)) as [Hkey|_]; [|reflexivity].
      now rewrite (rows_with_the_key _
                     (fun r => alerts_config.edited r name template tc false (utcnow w))
                     _ alert r (fun x => eq_refl) Hnd Hget Hr Hkey). }
    unfold webhook.receive_alert, webhook.receive_alert_try. rewrite Hq', Hnone.
    simpl. auto.
Qed.

Lemma removed_row_key (p : TradingViewAlert.t -> bool)
  (table : list TradingViewAlert.t) (alert r : TradingViewAlert.t) :
  config.unique_webhook_keys table ->
  List.find p table = Some alert ->
  In r (remove_first p table) ->
  TradingViewAlert.webhook_key r <> TradingViewAlert.webhook_key alert.
Proof.
  unfold config.unique_webhook_keys. intros Hnd Hfind.
  induction table as [|x table IH]; simpl in *; [discriminate|].
  apply NoDup_cons in Hnd as [Hnotin Hnd].
  destruct (p x) eqn:Hx.
  - injection Hfind as ->. intros Hin Hkey. apply Hnotin. rewrite <- Hkey.
    apply list_elem_of_In. now apply in_map.
  - intros [<-|Hin]; [|now apply IH].
    intros Hkey. apply Hnotin. rewrite Hkey.
    apply list_elem_of_In. apply in_map. now apply find_some in Hfind as [Hin _].
Qed.

Lemma orphaned_status (i : Z) (log : NotificationLog.t) :
  NotificationLog.status (alerts_config.orphaned i log) = NotificationLog.status log
  /\ NotificationLog.message_sent (alerts_config.orphaned i log)
     = NotificationLog.message_sent log
  /\ NotificationLog.payload (alerts_config.orphaned i log) = NotificationLog.payload log
  /\ NotificationLog.alert_id (alerts_config.orphaned i log) <> Some i.
Proof.
  unfold alerts_config.orphaned.
  destruct (bool_decide _) eqn:Hd; simpl; repeat split; auto; try discriminate.
  now apply bool_decide_eq_false in Hd.
Qed.

(** X26. Once the deletion of a webhook alert has committed, a request
    that bears its key is answered 404, with nothing sent and nothing
    logged; and no log row is lost by the deletion: the rows are all
    kept, with their status, message and payload, and those of the
    deleted alert refer to no alert any more. *)
Theorem deleted_alert_is_rejected_and_its_logs_are_kept (w w' : World) (st : Store)
  (form : gmap string string) (alert : TradingViewAlert.t) (req : webhook.Request) :
  config.unique_webhook_keys (tradingview_alerts st) ->
  config.query_get TradingViewAlert.id (tradingview_alerts st) (form !! "alert_id")
  = Some alert ->
  flashed (alerts_config.delete w st form) = [("Alert deleted successfully", "success")] ->
  query_raises w' = None ->
  let st' := admin_store (alerts_config.delete w st form) in
  let h := webhook.receive_alert w' st' (TradingViewAlert.webhook_key alert) req in
  (webhook.code (webhook.response h) = 404%Z
   /\ webhook.sent h = []
   /\ webhook.store_after h = st')
  /\ map NotificationLog.status (notification_logs st')
     = map NotificationLog.status (notification_logs st)
  /\ map NotificationLog.message_sent (notification_logs st')
     = map NotificationLog.message_sent (notification_logs st)
  /\ map NotificationLog.payload (notification_logs st')
     = map NotificationLog.payload (notification_logs st)
  /\ Forall (fun log => NotificationLog.alert_id log <> Some (TradingViewAlert.id alert))
       (notification_logs st').
Proof.
  intros Hnd Hget Hflash Hq'.
  unfold alerts_config.delete in *. rewrite Hget in *.
  destruct (query_raises w); [discriminate Hflash|].
  cbn [try_except admin_store notification_logs].
  unfold config.query_get in Hget.
  destruct (form !! "alert_id" ≫= py_int) as [i|]; [|discriminate]. simpl in Hget.
  apply find_some in Hget as Hfound. destruct Hfound as [_ Hid].
  apply Z.eqb_eq in Hid. subst i.
  split; [|split; [|split; [|split]]].
  - match goal with |- context [webhook.receive_alert w' ?s _ _] => set (st' := s) end.
    assert (Hnone : webhook.find_alert_config st' (TradingViewAlert.webhook_key alert) = None).
    { unfold webhook.find_alert_config, st'. cbn [tradingview_alerts].
      apply find_none_intro. intros r Hr. apply andb_false_iff. left.
      apply String.eqb_neq. eapply removed_row_key; eauto. }
    unfold webhook.receive_alert, webhook.receive_alert_try. rewrite Hq', Hnone.
    simpl. auto.
  - rewrite map_map. apply map_ext. intros log. apply orphaned_status.
  - rewrite map_map. apply map_ext. intros log. apply orphaned_status.
  - rewrite map_map. apply map_ext. intros log. apply orphaned_status.
  - apply Forall_forall. intros log Hlog.
    apply list_elem_of_In, in_map_iff in Hlog as (log0 & <- & _). apply orphaned_status.
Qed.

End WebhookAlerts.

Lemma added_alert_is_reachable_by_its_key_witness :
  let st := examples.store true
              [examples.webhook_alert 1 "0123456789abcdef" "one"] [] in
  let w := examples.world 101 200 in
  let st' := admin_store (alerts_config.add (H := examples.runtime) w 2 st
                            more_examples.add_alert_form) in
  exists alert_config,
    webhook.find_alert_config st' (config.generate_webhook_key w 16) = Some alert_config
    /\ tradingview_alerts st' = (tradingview_alerts st ++ [alert_config])%list
    /\ TradingViewAlert.id alert_config = 2%Z
    /\ TradingViewAlert.webhook_key alert_config = config.generate_webhook_key w 16
    /\ TradingViewAlert.is_active alert_config = true
    /\ more_examples.add_alert_form !! "name" = Some (TradingViewAlert.name alert_config).
Proof.
  intros st w.
  apply (added_alert_is_reachable_by_its_key (H := examples.runtime) w 2 st
           more_examples.add_alert_form).
  vm_compute. reflexivity.
Defined.

Lemma deactivated_alert_is_rejected_witness :
  let hook := examples.webhook_alert 1 "0123456789abcdef" "Alert: $ticker" in
  let st := examples.store true [hook] [] in
  let w := examples.world 101 200 in
  let st' := admin_store (alerts_config.edit (H := examples.runtime) w st
                            more_examples.deactivate_alert_form) in
  let h := webhook.receive_alert (H := examples.runtime) w st' "0123456789abcdef"
             (examples.request examples.breakout_payload) in
  map TradingViewAlert.webhook_key (tradingview_alerts st')
  = map TradingViewAlert.webhook_key (tradingview_alerts st)
  /\ webhook.code (webhook.response h) = 404%Z
  /\ webhook.sent h = []
  /\ webhook.store_after h = st'.
Proof.
  intros hook st w.
  destruct (deactivated_alert_is_rejected (H := examples.runtime) w st
              more_examples.deactivate_alert_form) as [Hkeys Hrejected].
  split; [exact Hkeys|].
  apply (Hrejected w hook (examples.request examples.breakout_payload)).
  - unfold config.unique_webhook_keys. vm_compute.
    apply (bool_decide_unpack _). vm_compute. exact I.
  - vm_compute. reflexivity.
  - vm_compute. reflexivity.
  - vm_compute. discriminate.
  - reflexivity.
Defined.

Lemma deleted_alert_is_rejected_and_its_logs_are_kept_witness :
  let alert := examples.webhook_alert 1 "0123456789abcdef" "one" in
  let st := more_examples.store_with_logs in
  let w := examples.world 101 200 in
  let st' := admin_store (alerts_config.delete (H := examples.runtime) w st
                            more_examples.delete_alert_form) in
  let h := webhook.receive_alert (H := examples.runtime) w st'
             (TradingViewAlert.webhook_key alert)
             (examples.request examples.breakout_payload) in
  (webhook.code (webhook.response h) = 404%Z
   /\ webhook.sent h = []
   /\ webhook.store_after h = st')
  /\ map NotificationLog.status (notification_logs st')
     = map NotificationLog.status (notification_logs st)
  /\ map NotificationLog.message_sent (notification_logs st')
     = map NotificationLog.message_sent (notification_logs st)
  /\ map NotificationLog.payload (notification_logs st')
     = map NotificationLog.payload (notification_logs st)
  /\ Forall (fun log => NotificationLog.alert_id log <> Some (TradingViewAlert.id alert))
       (notification_logs st').
Proof.
  intros alert st w.
  apply (deleted_alert_is_rejected_and_its_logs_are_kept (H := examples.runtime) w w st
           more_examples.delete_alert_form alert
           (examples.request examples.breakout_payload)).
  - unfold config.unique_webhook_keys. vm_compute.
    apply (bool_decide_unpack _). vm_compute. exact I.
  - vm_compute. reflexivity.
  - vm_compute. reflexivity.
  - reflexivity.
Defined.

(** ** The admin actions on price alerts *)

Section PriceAlertActions.
Context `{PyRuntime}.

(** No cycle sends or logs anything for a primary key that no row of the
    table has. *)
Lemma absent_id_stays_silent (ws : list World) (st : Store) (i : Z) :
  ~ In i (map PriceAlert.id (price_alerts st)) ->
  let r := price_scraper.run_checker ws st in
  (forall d, ~ In (i, d) (snd r))
  /\ (exists added,
        notification_logs (fst r) = (notification_logs st ++ added)%list
        /\ forall log, In log added -> NotificationLog.price_alert_id log <> Some i).
Proof.
  revert st. induction ws as [|w ws IH]; intros st Hnotin; simpl.
  - split; [auto|]. exists []. split; [now rewrite app_nil_r|contradiction].
  - assert (Hcycle :
      map PriceAlert.id
        (price_alerts (price_scraper.store_after
                         (price_scraper.check_and_trigger_alerts w st)))
      = map PriceAlert.id (price_alerts st)
      /\ (forall d, ~ In (i, d)
                      (price_scraper.sent (price_scraper.check_and_trigger_alerts w st)))
      /\ exists added,
           notification_logs (price_scraper.store_after
                                (price_scraper.check_and_trigger_alerts w st))
           = (notification_logs st ++ added)%list
           /\ forall log, In log added -> NotificationLog.price_alert_id log <> Some i).
    { destruct (query_raises w) as [exc|] eqn:Hq.
      - destruct (check_and_trigger_alerts_query_fault w st exc Hq) as [-> ->].
        repeat split; auto. exists []. split; [now rewrite app_nil_r|contradiction].
      - destruct (check_and_trigger_alerts_effects w st Hq) as (-> & -> & _ & -> & _).
        split; [apply for_alerts_ids|]. split.
        + intros d Hd. apply for_alerts_delivery_origin in Hd as (a & Ha & _ & Hid & _).
          apply Hnotin. rewrite <- Hid. now apply in_map.
        + eexists. split; [reflexivity|]. intros log Hlog Hid.
          apply for_alerts_log_origin in Hlog as (a & a' & d & Ha & _ & Hc).
          apply check_alert_committed in Hc as (_ & Hid' & _).
          apply Hnotin. assert (i = PriceAlert.id a) as -> by congruence.
          now apply in_map. }
    destruct Hcycle as (Hids & Hsent & added & Hlogs & Hadded).
    rewrite <- Hids in Hnotin. specialize (IH _ Hnotin).
    destruct (price_scraper.run_checker ws _) as [st' ds]. simpl in *.
    destruct IH as (Hsent' & added' & Hlogs' & Hadded').
    split.
    + intros d Hd. apply in_app_or in Hd as [Hd|Hd]; [now apply (Hsent d)|now apply (Hsent' d)].
    + exists (added ++ added')%list. split.
      * now rewrite Hlogs', Hlogs, app_assoc.
      * intros log Hlog. apply in_app_or in Hlog as [Hlog|Hlog]; auto.
Qed.

Lemma removed_id_is_absent (table : list PriceAlert.t) (a : PriceAlert.t) :
  NoDup (map PriceAlert.id table) ->
  In a table ->
  ~ In (PriceAlert.id a)
      (map PriceAlert.id
         (remove_first (fun r => (PriceAlert.id r =? PriceAlert.id a)%Z) table)).
Proof.
  induction table as [|x table IH]; simpl; [auto|].
  intros Hnd Hin. apply NoDup_cons in Hnd as [Hnotin Hnd].
  rewrite list_elem_of_In in Hnotin.
  destruct (Z.eqb_spec (PriceAlert.id x) (PriceAlert.id a)) as [Heq|Hne].
  - now rewrite <- Heq.
  - simpl. intros [Hx|Hrest]; [contradiction|].
    destruct Hin as [->|Hin]; [contradiction|]. now apply (IH Hnd Hin).
Qed.

Lemma price_orphaned_facts (i : Z) (log : NotificationLog.t) :
  NotificationLog.status (price_alerts.orphaned i log) = NotificationLog.status log
  /\ NotificationLog.message_sent (price_alerts.orphaned i log)
     = NotificationLog.message_sent log
  /\ NotificationLog.price_alert_id (price_alerts.orphaned i log) <> Some i.
Proof.
  unfold price_alerts.orphaned.
  destruct (bool_decide _) eqn:Hd; simpl; repeat split; auto; try discriminate.
  now apply bool_decide_eq_false in Hd.
Qed.

(** X29. Once the deletion of a price alert has committed, no later poll
    cycle sends or logs anything for it, whatever the prices; and no log
    row is lost by the deletion: the rows are all kept, with their status
    and message, and those of the deleted alert refer to no price alert
    any more. *)
Theorem deleted_price_alert_is_never_evaluated (w : World) (ws : list World)
  (st : Store) (form : gmap string string) (alert : PriceAlert.t) :
  NoDup (map PriceAlert.id (price_alerts st)) ->
  config.query_get PriceAlert.id (price_alerts st) (form !! "alert_id") = Some alert ->
  flashed (price_alerts.delete w st form)
  = [("Price alert deleted successfully", "success")] ->
  let st' := admin_store (price_alerts.delete w st form) in
  let r := price_scraper.run_checker ws st' in
  (forall d, ~ In (PriceAlert.id alert, d) (snd r))
  /\ (exists added,
        notification_logs (fst r) = (notification_logs st' ++ added)%list
        /\ forall log, In log added ->
             NotificationLog.price_alert_id log <> Some (PriceAlert.id alert))
  /\ map NotificationLog.status (notification_logs st')
     = map NotificationLog.status (notification_logs st)
  /\ map NotificationLog.message_sent (notification_logs st')
     = map NotificationLog.message_sent (notification_logs st)
  /\ Forall (fun log => NotificationLog.price_alert_id log <> Some (PriceAlert.id alert))
       (notification_logs st').
Proof.
  intros Hnd Hget Hflash.
  unfold price_alerts.delete in *. rewrite Hget in *.
  destruct (query_raises w); [discriminate Hflash|].
  cbn [try_except admin_store].
  unfold config.query_get in Hget.
  destruct (form !! "alert_id" ≫= py_int) as [i|]; [|discriminate]. simpl in Hget.
  apply find_some in Hget as [Hin _].
  match goal with |- context [price_scraper.run_checker ws ?s] => set (st' := s) end.
  destruct (absent_id_stays_silent ws st' (PriceAlert.id alert)) as [Hsent Hlogs].
  { unfold st'. cbn [price_alerts]. now apply removed_id_is_absent. }
  split; [exact Hsent|]. split; [exact Hlogs|].
  unfold st'. cbn [notification_logs]. split; [|split].
  - rewrite map_map. apply map_ext. intros log. apply price_orphaned_facts.
  - rewrite map_map. apply map_ext. intros log. apply price_orphaned_facts.
  - apply Forall_forall. intros log Hlog.
    apply list_elem_of_In, in_map_iff in Hlog as (log0 & <- & _). apply price_orphaned_facts.
Qed.

End PriceAlertActions.

Lemma deleted_price_alert_is_never_evaluated_witness :
  let alert := examples.price_alert 1 "above" 100 false false in
  let st := more_examples.store_with_logs in
  let w := examples.world 101 200 in
  let st' := admin_store (price_alerts.delete (H := examples.runtime) w st
                            more_examples.delete_alert_form) in
  let r := price_scraper.run_checker (H := examples.runtime)
             [examples.world 105 200; examples.world 110 200] st' in
  (forall d, ~ In (PriceAlert.id alert, d) (snd r))
  /\ (exists added,
        notification_logs (fst r) = (notification_logs st' ++ added)%list
        /\ forall log, In log added ->
             NotificationLog.price_alert_id log <> Some (PriceAlert.id alert))
  /\ map NotificationLog.status (notification_logs st')
     = map NotificationLog.status (notification_logs st)
  /\ map NotificationLog.message_sent (notification_logs st')
     = map NotificationLog.message_sent (notification_logs st)
  /\ Forall (fun log => NotificationLog.price_alert_id log <> Some (PriceAlert.id alert))
       (notification_logs st').
Proof.
  intros alert st w.
  apply (deleted_price_alert_is_never_evaluated (H := examples.runtime) w
           [examples.world 105 200; examples.world 110 200] st
           more_examples.delete_alert_form alert).
  - vm_compute. apply (bool_decide_unpack _). vm_compute. exact I.
  - vm_compute. reflexivity.
  - vm_compute. reflexivity.
Defined.
